(** * PubLog viewer: dataset indexing and query service

    A shallow embedding of the core of the PubLog application:

    - [config.py]: the catalog [DATA_FILES] and the two tiers
      [PRIORITY_TABLES] and [LARGE_TABLES];
    - [database.py]: the store handle [PubLogDatabase] (table metadata,
      [index_csv_file], the tier sweeps, [query], [get_table_info]);
    - [data_loader.py]: [DataLoader], the domain services ([CAGEService],
      [FSCService], [NSNService], [ItemNameService]) and
      [UnifiedSearchService];
    - [api.py]: the bodies of the routes that decide something themselves
      (location search, lookups by code, table information, unified search,
      raw query).

    The service layer talks to DuckDB only through SQL text and bound
    parameters.  It is embedded as programs over two calls of the store
    handle, "execute this statement" and "is this table indexed", so that
    the statements handed to the engine can be observed, and so that results
    can be stated for every engine as well as for a reference engine that
    evaluates the statements whose meaning matters below.

    Conventions.  Strings are sequences of 8-bit characters; [upper],
    white space and digits are the ASCII ones.  Python [int] is [Z].  Within
    one run the engine answers as a function of statement and parameters:
    the services only read.  Log records are not modelled; an [except]
    branch that only logs and returns is modelled by its return value. *)

From Stdlib Require Import ZArith Floats Ascii String.
From stdpp Require Import gmap strings list pretty.

Open Scope string_scope.
Open Scope list_scope.
Open Scope Z_scope.

(** ** Python values and helpers *)

Module Py.

(** [str.upper()] on ASCII text. *)
Definition upper_char (c : ascii) : ascii :=
  let n := Ascii.nat_of_ascii c in
  if (97 <=? n)%nat && (n <=? 122)%nat then Ascii.ascii_of_nat (n - 32) else c.

Fixpoint upper (s : string) : string :=
  match s with
  | EmptyString => EmptyString
  | String c s' => String (upper_char c) (upper s')
  end.

(** Truthiness of a [str]: only the empty string is false. *)
Definition truthy_str (s : string) : bool :=
  match s with EmptyString => false | String _ _ => true end.

(** Truthiness of an [Optional[str]] argument: [None] and [""] are false. *)
Definition truthy (o : option string) : bool :=
  match o with None => false | Some s => truthy_str s end.

(** Truthiness of a list: only the empty list is false. *)
Definition truthy_list {A} (l : list A) : bool :=
  match l with [] => false | _ :: _ => true end.

(** Characters that [str.strip()] treats as white space in ASCII text: tab
    to carriage return, the four separators and the space. *)
Definition is_space (c : ascii) : bool :=
  let n := Ascii.nat_of_ascii c in
  ((9 <=? n)%nat && (n <=? 13)%nat) || ((28 <=? n)%nat && (n <=? 32)%nat).

(** Characters that [int()] skips around a literal: C's [isspace], without
    the four separators. *)
Definition is_c_space (c : ascii) : bool :=
  let n := Ascii.nat_of_ascii c in
  ((9 <=? n)%nat && (n <=? 13)%nat) || (n =? 32)%nat.

Definition digit_of (c : ascii) : option Z :=
  let n := Ascii.nat_of_ascii c in
  if (48 <=? n)%nat && (n <=? 57)%nat then Some (Z.of_nat n - 48) else None.

Fixpoint drop_spaces (space : ascii -> bool) (l : list ascii) : list ascii :=
  match l with
  | c :: l' => if space c then drop_spaces space l' else l
  | [] => []
  end.

(** A text without the white space at its two ends, for a given notion of
    white space. *)
Definition strip (space : ascii -> bool) (l : list ascii) : list ascii :=
  rev (drop_spaces space (rev (drop_spaces space l))).

(** Decimal digits with single underscores between them, as [int()]
    accepts them.  [after_digit] tells whether the previous character was a
    digit: an underscore is accepted only there, and the literal may not
    end on one. *)
Fixpoint digits (acc : Z) (after_digit : bool) (l : list ascii) : option Z :=
  match l with
  | [] => if after_digit then Some acc else None
  | c :: l' =>
      match digit_of c with
      | Some d => digits (10 * acc + d) true l'
      | None =>
          if Ascii.eqb c "_"%char && after_digit then digits acc false l'
          else None
      end
  end.

(** [int(s)] for a [str] in base 10; [None] stands for [ValueError].  The
    interpreter's limit on the number of digits is not modelled. *)
Definition int (s : string) : option Z :=
  match strip is_c_space (list_ascii_of_string s) with
  | c :: l =>
      if Ascii.eqb c "-"%char then Z.opp <$> digits 0 false l
      else if Ascii.eqb c "+"%char then digits 0 false l
      else digits 0 false (c :: l)
  | [] => None
  end.

(** The slice [l[:n]]: a negative bound counts from the end. *)
Definition slice_to {A} (n : Z) (l : list A) : list A :=
  if 0 <=? n then take (Z.to_nat n) l
  else take (Z.to_nat (Z.of_nat (length l) + n)) l.

(** [str(n)], the text an f-string puts for an [int]. *)
Definition str_of_int (n : Z) : string := pretty n.

(** An insertion-ordered [dict] with string keys: assignment to a key that
    is present replaces the value in place, a new key goes last. *)
Definition dict (V : Type) : Type := list (string * V).

Fixpoint dict_set {V} (k : string) (v : V) (d : dict V) : dict V :=
  match d with
  | [] => [(k, v)]
  | (k', v') :: d' =>
      if String.eqb k' k then (k, v) :: d' else (k', v') :: dict_set k v d'
  end.

Fixpoint dict_get {V} (k : string) (d : dict V) : option V :=
  match d with
  | [] => None
  | (k', v') :: d' => if String.eqb k' k then Some v' else dict_get k d'
  end.

Definition dict_has {V} (k : string) (d : dict V) : bool :=
  match dict_get k d with Some _ => true | None => false end.

Definition dict_keys {V} (d : dict V) : list string := d.*1.

(** [d.update(other)]: the entries of [other] are assigned in its order. *)
Definition dict_update {V} (d other : dict V) : dict V :=
  foldl (fun acc kv => dict_set kv.1 kv.2 acc) d other.

(** [sep.join(parts)]. *)
Fixpoint join (sep : string) (parts : list string) : string :=
  match parts with
  | [] => ""
  | [p] => p
  | p :: rest => p +:+ sep +:+ join sep rest
  end.

(** An [Optional[str]] argument under [if arg:]: its text when it is true. *)
Definition when_truthy (o : option string) : option string :=
  match o with
  | Some s => if truthy_str s then Some s else None
  | None => None
  end.

(** [str.isascii()]. *)
Definition isascii (s : string) : bool :=
  forallb (fun c => (Ascii.nat_of_ascii c <? 128)%nat) (list_ascii_of_string s).

(** [dict(zip(keys, values))]. *)
Definition dict_of_zip {V} (keys : list string) (values : list V) : dict V :=
  dict_update [] (zip keys values).

End Py.

(** ** Scalars, result sets and exceptions *)

(** A scalar of a row or of a parameter list, as the engine hands it to
    Python: [None], [int], [float] or [str]. *)
Inductive value : Type :=
| VNull
| VInt (z : Z)
| VDouble (f : float)
| VText (s : string).

(** A row as [query] returns it: column name to value, in column order. *)
Abbreviation row := (Py.dict value).

(** What [connection.execute] returns for a statement that ran: the names of
    the result columns ([description]) and the tuples ([fetchall()]). *)
Record cursor : Type := Cursor {
  description : list string;
  fetchall : list (list value)
}.

(** Exceptions.  [QueryError] is an exception of the engine's own classes,
    with its message; [PyError] is an instance of one of Python's built-in
    classes, named ([IndexError], [KeyError], [TypeError], [ValueError]).
    [InvalidArgument] belongs to the error taxonomy of the specification; no
    code of the service layer raises it. *)
Inductive exn : Type :=
| QueryError (msg : string)
| PyError (class : string)
| InvalidArgument (msg : string).

Inductive outcome (A : Type) : Type :=
| Ok (a : A)
| Raised (e : exn).

Arguments Ok {A} a.
Arguments Raised {A} e.

(** ** Programs over the store handle

    The service layer reaches the engine through two methods of
    [PubLogDatabase]: [query] (which runs [connection.execute]) and
    [is_table_indexed].  A program either returns, raises, or performs one of
    the two calls and goes on with the answer. *)

Inductive prog (A : Type) : Type :=
| Ret (a : A)
| Raise (e : exn)
| Execute (sql : string) (params : list value) (k : outcome cursor -> prog A)
| IsTableIndexed (table_name : string) (k : bool -> prog A).

Arguments Ret {A} a.
Arguments Raise {A} e.
Arguments Execute {A} sql params k.
Arguments IsTableIndexed {A} table_name k.

Fixpoint bind {A B} (p : prog A) (f : A -> prog B) : prog B :=
  match p with
  | Ret a => f a
  | Raise e => Raise e
  | Execute sql params k => Execute sql params (fun o => bind (k o) f)
  | IsTableIndexed t k => IsTableIndexed t (fun b => bind (k b) f)
  end.

Notation "'let/p' x := p 'in' q" := (bind p (fun x => q))
  (at level 10, x name, p at level 100, q at level 200).

(** [try: p except Exception as e: h e]. *)
Fixpoint try_except {A} (p : prog A) (h : exn -> prog A) : prog A :=
  match p with
  | Ret a => Ret a
  | Raise e => h e
  | Execute sql params k => Execute sql params (fun o => try_except (k o) h)
  | IsTableIndexed t k => IsTableIndexed t (fun b => try_except (k b) h)
  end.

(** The built-in classes that are [ValueError] or derive from it. *)
Definition ValueError_classes : list string :=
  ["ValueError"; "UnicodeError"; "UnicodeDecodeError"; "UnicodeEncodeError";
   "UnicodeTranslateError"].

(** Whether [except ValueError] catches an exception.  The engine's own
    classes derive from its [Error], not from [ValueError]. *)
Definition is_ValueError (e : exn) : bool :=
  match e with
  | PyError class => bool_decide (class ∈ ValueError_classes)
  | _ => false
  end.

(** [try: p except ValueError: h]: any other exception goes on. *)
Definition try_except_ValueError {A} (p h : prog A) : prog A :=
  try_except p (fun e => if is_ValueError e then h else Raise e).

(** [int(s)] as a step of a program: the number, or [ValueError] raised. *)
Definition int_of_str (s : string) : prog Z :=
  match Py.int s with
  | Some n => Ret n
  | None => Raise (PyError "ValueError")
  end.

(** The engine as the service layer sees it. *)
Record engine : Type := Engine {
  execute : string -> list value -> outcome cursor;
  table_indexed : string -> bool
}.

(** The calls a program made, in order. *)
Inductive call : Type :=
| CallExecute (sql : string) (params : list value)
| CallIsTableIndexed (table_name : string).

Fixpoint run {A} (E : engine) (p : prog A) : outcome A * list call :=
  match p with
  | Ret a => (Ok a, [])
  | Raise e => (Raised e, [])
  | Execute sql params k =>
      let r := run E (k (execute E sql params)) in
      (r.1, CallExecute sql params :: r.2)
  | IsTableIndexed t k =>
      let r := run E (k (table_indexed E t)) in
      (r.1, CallIsTableIndexed t :: r.2)
  end.

Definition result {A} (E : engine) (p : prog A) : outcome A := (run E p).1.

Definition calls {A} (E : engine) (p : prog A) : list call := (run E p).2.

(** The statement texts among the calls. *)
Definition statements (cs : list call) : list string :=
  omap (fun c => match c with CallExecute sql _ => Some sql | _ => None end) cs.

(** ** [PubLogDatabase.query] *)

(** [query(sql, params)]: an empty or missing parameter list runs
    [execute(sql)]; the rows are [dict(zip(columns, row))]; an exception of
    the engine is logged and raised again. *)
Definition query (sql : string) (params : option (list value))
  : prog (list row) :=
  let bound := match params with
               | Some ps => if Py.truthy_list ps then ps else []
               | None => []
               end in
  Execute sql bound (fun o =>
    match o with
    | Ok c => Ret (map (Py.dict_of_zip (description c)) (fetchall c))
    | Raised e => Raise e
    end).

(** ** [config.py]: the catalog and the tiers *)

Module Config.

(** [a / b] on paths. *)
Definition path_join (a b : string) : string := a +:+ "/" +:+ b.

(** [DATA_FILES]: category to logical table name to source path, below the
    data directory [DATA_DIR] of the installation. *)
Definition DATA_FILES (DATA_DIR : string) : Py.dict (Py.dict string) :=
  let file (parts : list string) := foldl path_join DATA_DIR parts in
  [
   ("cage", [
      ("P_CAGE", file ["CAGE"; "P_CAGE.CSV"]);
      ("V_CAGE_ADDRESS", file ["CAGE"; "V_CAGE_ADDRESS.CSV"]);
      ("V_CAGE_STATUS_AND_TYPE", file ["CAGE"; "V_CAGE_STATUS_AND_TYPE.CSV"])]);
   ("h_series", [
      ("V_H2_FSC", file ["H-SERIES"; "V_H2_FSC.CSV"]);
      ("V_H2_FSG", file ["H-SERIES"; "V_H2_FSG.CSV"]);
      ("V_H3_AMMUNITION", file ["H-SERIES"; "V_H3_AMMUNITION.CSV"]);
      ("V_H5_BUSINESS", file ["H-SERIES"; "V_H5_BUSINESS.CSV"]);
      ("V_H5_CORPORATE", file ["H-SERIES"; "V_H5_CORPORATE.CSV"]);
      ("V_H5_DOMESTIC", file ["H-SERIES"; "V_H5_DOMESTIC.CSV"]);
      ("V_H5_FOREIGN", file ["H-SERIES"; "V_H5_FOREIGN.CSV"]);
      ("V_H6_NAME_INC", file ["H-SERIES"; "V_H6_NAME_INC.CSV"]);
      ("V_H6_MODIFIER", file ["H-SERIES"; "V_H6_MODIFIER.CSV"]);
      ("V_H6_RELATED", file ["H-SERIES"; "V_H6_RELATED.CSV"]);
      ("V_FSC_IMM", file ["H-SERIES"; "V_FSC_IMM.CSV"])]);
   ("identification", [
      ("P_FLIS_NSN", file ["IDENTIFICATION"; "P_FLIS_NSN.CSV"]);
      ("V_COLLOQUIAL_NAME", file ["IDENTIFICATION"; "V_COLLOQUIAL_NAME.CSV"]);
      ("V_FLIS_CANCELLED_NIIN", file ["IDENTIFICATION"; "V_FLIS_CANCELLED_NIIN.CSV"]);
      ("V_FLIS_IDENTIFICATION", file ["IDENTIFICATION"; "V_FLIS_IDENTIFICATION.CSV"]);
      ("V_FLIS_STANDARDIZATION", file ["IDENTIFICATION"; "V_FLIS_STANDARDIZATION.CSV"])]);
   ("management", [
      ("V_FLIS_MANAGEMENT", file ["MANAGEMENT"; "V_FLIS_MANAGEMENT.CSV"]);
      ("V_FLIS_MANAGEMENT_FUTURE", file ["MANAGEMENT"; "V_FLIS_MANAGEMENT_FUTURE.CSV"]);
      ("V_FLIS_PHRASE", file ["MANAGEMENT"; "V_FLIS_PHRASE.CSV"]);
      ("V_MGMT_AIR_FORCE", file ["MANAGEMENT"; "V_MGMT_AIR_FORCE.CSV"]);
      ("V_MGMT_ARMY", file ["MANAGEMENT"; "V_MGMT_ARMY.CSV"]);
      ("V_MGMT_COAST_GUARD", file ["MANAGEMENT"; "V_MGMT_COAST_GUARD.CSV"]);
      ("V_MGMT_MARINE_CORPS", file ["MANAGEMENT"; "V_MGMT_MARINE_CORPS.CSV"]);
      ("V_MGMT_NAVY", file ["MANAGEMENT"; "V_MGMT_NAVY.CSV"]);
      ("V_SOCOM_MANAGEMENT", file ["MANAGEMENT"; "V_SOCOM_MANAGEMENT.CSV"])]);
   ("freight_packaging", [
      ("V_FREIGHT", file ["FREIGHT_PACKAGING"; "V_FREIGHT.CSV"]);
      ("V_FLIS_PACKAGING_1", file ["FREIGHT_PACKAGING"; "V_FLIS_PACKAGING_1.CSV"]);
      ("V_FLIS_PACKAGING_2", file ["FREIGHT_PACKAGING"; "V_FLIS_PACKAGING_2.CSV"]);
      ("V_FLIS_PACKAGING_3", file ["FREIGHT_PACKAGING"; "V_FLIS_PACKAGING_3.CSV"])]);
   ("history", [
      ("V_ITEM_IDENTIFICATION_HISTORY", file ["HISTORY"; "V_ITEM_IDENTIFICATION_HISTORY.CSV"]);
      ("V_MANAGEMENT_HISTORY", file ["HISTORY"; "V_MANAGEMENT_HISTORY.CSV"]);
      ("V_REFERENCE_NUMBER_HISTORY", file ["HISTORY"; "V_REFERENCE_NUMBER_HISTORY.CSV"])]);
   ("mrd", [
      ("MRD0107", file ["MRD"; "MRD0107.CSV"]);
      ("MRD0300", file ["MRD"; "MRD0300.CSV"]);
      ("MRD0500", file ["MRD"; "MRD0500.CSV"]);
      ("MRD06P1", file ["MRD"; "MRD06P1.CSV"]);
      ("MRD06P2", file ["MRD"; "MRD06P2.CSV"])]);
   ("large_files", [
      ("FLISV", file ["FLISV.CSV"]);
      ("V_CHARACTERISTICS", file ["V_CHARACTERISTICS-2.CSV"]);
      ("V_FLIS_PART", file ["V_FLIS_PART-2.CSV"]);
      ("V_MOE_RULE", file ["V_MOE_RULE-2.CSV"])])
  ].

(** Tables to index first (smaller, frequently used). *)
Definition PRIORITY_TABLES : list string :=
  ["P_CAGE";
   "V_H2_FSC";
   "V_H2_FSG";
   "V_H6_NAME_INC";
   "V_H6_MODIFIER";
   "V_FSC_IMM";
   "V_FLIS_CANCELLED_NIIN";
   "V_COLLOQUIAL_NAME";
   "V_FLIS_STANDARDIZATION";
   "V_H3_AMMUNITION";
   "V_H5_BUSINESS";
   "V_H5_CORPORATE";
   "V_H5_DOMESTIC";
   "V_H5_FOREIGN";
   "V_H6_RELATED";
   "V_FREIGHT";
   "V_FLIS_PACKAGING_1";
   "V_FLIS_PACKAGING_2";
   "V_FLIS_PACKAGING_3";
   "V_FLIS_PHRASE";
   "V_MGMT_AIR_FORCE";
   "V_MGMT_ARMY";
   "V_MGMT_COAST_GUARD";
   "V_MGMT_MARINE_CORPS";
   "V_MGMT_NAVY";
   "V_SOCOM_MANAGEMENT";
   "V_FLIS_MANAGEMENT_FUTURE"].

(** Large tables. *)
Definition LARGE_TABLES : list string :=
  ["FLISV";
   "V_CHARACTERISTICS";
   "V_FLIS_PART";
   "V_MOE_RULE";
   "V_FLIS_MANAGEMENT";
   "P_FLIS_NSN";
   "V_FLIS_IDENTIFICATION"].

(** Search configuration. *)
Definition MAX_SEARCH_RESULTS : Z := 1000.
Definition DEFAULT_PAGE_SIZE : Z := 50.

End Config.

(** ** [data_loader.py]: the domain services *)

Module CAGEService.

(** [get_by_code(cage_code)]: [results[0] if results else None]. *)
Definition get_by_code (cage_code : string) : prog (option row) :=
  let/p results :=
    query "SELECT * FROM P_CAGE WHERE CAGE_CODE = ? LIMIT 1"
          (Some [VText (Py.upper cage_code)]) in
  Ret (head results).

Definition search (q : string) (limit offset : Z) : prog (list row) :=
  let search_term := "%" +:+ Py.upper q +:+ "%" in
  query "
            SELECT * FROM P_CAGE
            WHERE UPPER(COMPANY) LIKE ?
               OR UPPER(CITY) LIKE ?
               OR CAGE_CODE LIKE ?
            ORDER BY COMPANY
            LIMIT ? OFFSET ?
        " (Some [VText search_term; VText search_term; VText search_term;
                 VInt limit; VInt offset]).

(** The conditions and parameters [search_by_location] collects from the
    filters that are true, before the limit is appended. *)
Definition location_filters (state city country : option string)
  : list string * list value :=
  let conditions : list string := [] in
  let params : list value := [] in
  let '(conditions, params) :=
    match Py.when_truthy state with
    | Some s => (conditions ++ ["UPPER(STATE_PROVINCE) = ?"],
                 params ++ [VText (Py.upper s)])
    | None => (conditions, params)
    end in
  let '(conditions, params) :=
    match Py.when_truthy city with
    | Some s => (conditions ++ ["UPPER(CITY) LIKE ?"],
                 params ++ [VText ("%" +:+ Py.upper s +:+ "%")])
    | None => (conditions, params)
    end in
  match Py.when_truthy country with
  | Some s => (conditions ++ ["UPPER(COUNTRY) LIKE ?"],
               params ++ [VText ("%" +:+ Py.upper s +:+ "%")])
  | None => (conditions, params)
  end.

Definition search_by_location (state city country : option string)
    (limit : Z) : prog (list row) :=
  let '(conditions, params) := location_filters state city country in
  if negb (Py.truthy_list conditions) then Ret []
  else
    let where_clause := Py.join " AND " conditions in
    let params := params ++ [VInt limit] in
    query ("
            SELECT * FROM P_CAGE
            WHERE " +:+ where_clause +:+ "
            ORDER BY COMPANY
            LIMIT ?
        ") (Some params).

(** The dictionary [get_stats] returns; [None] is the empty dictionary of
    its [except] branch. *)
Record stats : Type := Stats {
  total_records : value;
  by_status : list row;
  top_countries : list row
}.

Definition get_stats : prog (option stats) :=
  try_except
    (let/p counted := query "SELECT COUNT(*) as count FROM P_CAGE" None in
     let/p total :=
       match counted with
       | first :: _ =>
           match Py.dict_get "count" first with
           | Some v => Ret v
           | None => Raise (PyError "KeyError")
           end
       | [] => Raise (PyError "IndexError")
       end in
     let/p by_status := query "
                SELECT CAGE_STATUS, COUNT(*) as count
                FROM P_CAGE
                GROUP BY CAGE_STATUS
                ORDER BY count DESC
            " None in
     let/p by_country := query "
                SELECT COUNTRY, COUNT(*) as count
                FROM P_CAGE
                GROUP BY COUNTRY
                ORDER BY count DESC
                LIMIT 10
            " None in
     Ret (Some (Stats total by_status by_country)))
    (fun _ => Ret None).

End CAGEService.

Module FSCService.

Definition get_all_fsg : prog (list row) :=
  query "
            SELECT DISTINCT
                CAST(FSC / 100 AS INTEGER) as FSG,
                FSG_TITLE
            FROM V_H2_FSG
            ORDER BY FSG
        " None.

Definition get_all_fsc : prog (list row) :=
  query "
            SELECT * FROM V_H2_FSC
            ORDER BY FSC
        " None.

(** [get_fsc_by_code(fsc)]: numeric comparison when [int(fsc)] succeeds, a
    text comparison on [ValueError].  The numeric statement runs inside the
    [try], so a [ValueError] it raises is handled like one of [int()]. *)
Definition get_fsc_by_code (fsc : string) : prog (option row) :=
  let/p results :=
    try_except_ValueError
      (let/p fsc_int := int_of_str fsc in
       query "SELECT * FROM V_H2_FSC WHERE FSC = ? LIMIT 1"
             (Some [VInt fsc_int]))
      (query "SELECT * FROM V_H2_FSC WHERE CAST(FSC AS VARCHAR) = ? LIMIT 1"
             (Some [VText fsc])) in
  Ret (head results).

Definition get_fsc_by_fsg (fsg : string) : prog (list row) :=
  try_except_ValueError
    (let/p fsg_int := int_of_str fsg in
     query "
                SELECT * FROM V_H2_FSC
                WHERE FSC >= ? AND FSC < ?
                ORDER BY FSC
            " (Some [VInt (fsg_int * 100); VInt ((fsg_int + 1) * 100)]))
    (Ret []).

Definition search_fsc (q : string) : prog (list row) :=
  let search_term := "%" +:+ Py.upper q +:+ "%" in
  try_except_ValueError
    (let/p fsc_int := int_of_str q in
     query "
                SELECT * FROM V_H2_FSC
                WHERE FSC = ? OR UPPER(FSC_TITLE) LIKE ?
                ORDER BY FSC
                LIMIT 100
            " (Some [VInt fsc_int; VText search_term]))
    (query "
                SELECT * FROM V_H2_FSC
                WHERE UPPER(FSC_TITLE) LIKE ?
                ORDER BY FSC
                LIMIT 100
            " (Some [VText search_term])).

End FSCService.

Module NSNService.

(** [get_by_niin(niin)]: the primary relation first, then [FLISV]. *)
Definition get_by_niin (niin : string) : prog (option row) :=
  let fallback : prog (option row) :=
    IsTableIndexed "FLISV" (fun indexed =>
      if indexed then
        let/p results :=
          query "SELECT * FROM FLISV WHERE NIIN = ? LIMIT 1"
                (Some [VText niin]) in
        match results with
        | first :: _ => Ret (Some first)
        | [] => Ret None
        end
      else Ret None) in
  IsTableIndexed "P_FLIS_NSN" (fun indexed =>
    if indexed then
      let/p results :=
        query "SELECT * FROM P_FLIS_NSN WHERE NIIN = ? LIMIT 1"
              (Some [VText niin]) in
      match results with
      | first :: _ => Ret (Some first)
      | [] => fallback
      end
    else fallback).

(** The conditions and parameters [search] collects from the text and the
    FSC filter, before limit and offset are appended.  The [try] around
    [int(fsc)] holds no statement. *)
Definition search_filters (q : string) (fsc : option string)
  : list string * list value :=
  let conditions : list string := [] in
  let params : list value := [] in
  let '(conditions, params) :=
    if Py.truthy_str q then
      let search_term := "%" +:+ Py.upper q +:+ "%" in
      (conditions ++ ["(NIIN LIKE ? OR UPPER(ITEM_NAME) LIKE ?)"],
       params ++ [VText search_term; VText search_term])
    else (conditions, params) in
  match Py.when_truthy fsc with
  | Some f =>
      match Py.int f with
      | Some fsc_int => (conditions ++ ["FSC = ?"], params ++ [VInt fsc_int])
      | None => (conditions ++ ["CAST(FSC AS VARCHAR) = ?"],
                 params ++ [VText f])
      end
  | None => (conditions, params)
  end.

Definition search (q : string) (fsc : option string) (limit offset : Z)
  : prog (list row) :=
  IsTableIndexed "P_FLIS_NSN" (fun indexed =>
    if negb indexed then Ret []
    else
      let '(conditions, params) := search_filters q fsc in
      let where_clause :=
        if Py.truthy_list conditions then Py.join " AND " conditions
        else "1=1" in
      let params := params ++ [VInt limit; VInt offset] in
      query ("
            SELECT * FROM P_FLIS_NSN
            WHERE " +:+ where_clause +:+ "
            LIMIT ? OFFSET ?
        ") (Some params)).

Definition get_by_fsc (fsc : string) (limit offset : Z) : prog (list row) :=
  IsTableIndexed "P_FLIS_NSN" (fun indexed =>
    if indexed then
      try_except_ValueError
        (let/p fsc_int := int_of_str fsc in
         query "
                    SELECT * FROM P_FLIS_NSN
                    WHERE FSC = ?
                    LIMIT ? OFFSET ?
                " (Some [VInt fsc_int; VInt limit; VInt offset]))
        (query "
                    SELECT * FROM P_FLIS_NSN
                    WHERE CAST(FSC AS VARCHAR) = ?
                    LIMIT ? OFFSET ?
                " (Some [VText fsc; VInt limit; VInt offset]))
    else Ret []).

Definition get_management_data (niin : string) : prog (list row) :=
  IsTableIndexed "V_FLIS_MANAGEMENT" (fun indexed =>
    if negb indexed then Ret []
    else
      query "
            SELECT * FROM V_FLIS_MANAGEMENT
            WHERE NIIN = ?
        " (Some [VText niin])).

Definition get_characteristics (niin : string) : prog (list row) :=
  IsTableIndexed "V_CHARACTERISTICS" (fun indexed =>
    if negb indexed then Ret []
    else
      query "
            SELECT * FROM V_CHARACTERISTICS
            WHERE NIIN = ?
        " (Some [VText niin])).

End NSNService.

Module ItemNameService.

Definition get_by_inc (inc : string) : prog (option row) :=
  let/p results :=
    query "SELECT * FROM V_H6_NAME_INC WHERE INC = ? LIMIT 1"
          (Some [VText inc]) in
  Ret (head results).

Definition search (q : string) (limit : Z) : prog (list row) :=
  let search_term := "%" +:+ Py.upper q +:+ "%" in
  query "
            SELECT * FROM V_H6_NAME_INC
            WHERE UPPER(FIIG_TITLE) LIKE ?
               OR UPPER(DEFINITION) LIKE ?
               OR INC LIKE ?
            ORDER BY FIIG_TITLE
            LIMIT ?
        " (Some [VText search_term; VText search_term; VText search_term;
                 VInt limit]).

(** [get_all(limit)] formats the limit into the statement text and binds no
    parameter. *)
Definition get_all (limit : Z) : prog (list row) :=
  query ("
            SELECT * FROM V_H6_NAME_INC
            ORDER BY FIIG_TITLE
            LIMIT " +:+ Py.str_of_int limit +:+ "
        ") None.

End ItemNameService.

Module UnifiedSearchService.

(** [search_all(query, limit)].  Each category is assigned inside its own
    [try]; an exception leaves the empty list the dictionary started with. *)
Definition search_all (q : string) (limit : Z)
  : prog (Py.dict (list row)) :=
  let results : Py.dict (list row) :=
    [("cage", []); ("fsc", []); ("nsn", []); ("item_names", [])] in
  let/p results :=
    try_except
      (let/p found := CAGEService.search q limit 0 in
       Ret (Py.dict_set "cage" found results))
      (fun _ => Ret results) in
  let/p results :=
    try_except
      (let/p found := FSCService.search_fsc q in
       Ret (Py.dict_set "fsc" (Py.slice_to limit found) results))
      (fun _ => Ret results) in
  let/p results :=
    try_except
      (let/p found := NSNService.search q None limit 0 in
       Ret (Py.dict_set "nsn" found results))
      (fun _ => Ret results) in
  let/p results :=
    try_except
      (let/p found := ItemNameService.search q limit in
       Ret (Py.dict_set "item_names" found results))
      (fun _ => Ret results) in
  Ret results.

End UnifiedSearchService.

(** ** The engine's state

    A relation is what [CREATE TABLE ... AS SELECT * FROM read_csv_auto(...)]
    leaves in the store: its columns with their inferred types, in file
    order, and its tuples.  DuckDB identifiers are case-insensitive, so the
    store is keyed by the upper-cased table name. *)

Record column : Type := Column {
  column_name : string;
  column_type : string
}.

Record relation : Type := Relation {
  columns : list column;
  tuples : list (list value)
}.

Abbreviation store := (gmap string relation).

(** What the index manager reads from outside the store: whether a path
    exists, and what the engine's CSV reader makes of the file there (an
    exception when it cannot read it). *)
Record files : Type := Files {
  path_exists : string -> bool;
  read_csv_auto : string -> outcome relation
}.

(** A Python object as the administrative calls return it. *)
#[local] Unset Elimination Schemes.
Inductive pyobj : Type :=
| PNone
| PInt (z : Z)
| PFloat (f : float)
| PStr (s : string)
| PList (items : list pyobj)
| PDict (entries : list (string * pyobj)).
#[local] Set Elimination Schemes.

Definition pyobj_of_value (v : value) : pyobj :=
  match v with
  | VNull => PNone
  | VInt z => PInt z
  | VDouble f => PFloat f
  | VText s => PStr s
  end.

(** ** [database.py]: the store handle *)

Module PubLogDatabase.

(** The statements [database.py] sends, as operations on the store. *)

(** [SELECT COUNT( * ) FROM information_schema.tables
     WHERE UPPER(table_name) = UPPER(?)]. *)
Definition count_tables_named (st : store) (table_name : string) : Z :=
  match st !! Py.upper table_name with Some _ => 1 | None => 0 end.

(** [DROP TABLE IF EXISTS name]. *)
Definition drop_table_if_exists (table_name : string) (st : store) : store :=
  delete (Py.upper table_name) st.

(** [CREATE TABLE name AS SELECT ...] for the tuples [rel] of the select:
    an error when the name is taken, otherwise the whole relation appears. *)
Definition create_table_as (table_name : string) (rel : relation) (st : store)
  : outcome store :=
  match st !! Py.upper table_name with
  | Some _ => Raised (QueryError "Catalog Error: table already exists")
  | None => Ok (<[Py.upper table_name := rel]> st)
  end.

(** [SELECT COUNT( * ) FROM name]. *)
Definition count_rows (st : store) (table_name : string) : outcome Z :=
  match st !! Py.upper table_name with
  | Some rel => Ok (Z.of_nat (length (tuples rel)))
  | None => Raised (QueryError "Catalog Error: table does not exist")
  end.

(** [DESCRIBE name]: one tuple per column, name and type first. *)
Definition describe (st : store) (table_name : string)
  : outcome (list (list value)) :=
  match st !! Py.upper table_name with
  | Some rel =>
      Ok (map (fun c => [VText (column_name c); VText (column_type c);
                         VText "YES"; VNull; VNull; VNull])
              (columns rel))
  | None => Raised (QueryError "Catalog Error: table does not exist")
  end.

(** [is_table_indexed(table_name)]: [result[0] > 0].  On an open connection
    the metadata statement does not fail, so the [except] branch, which
    answers [False], is not reached; the services below are stated for
    every answer of this call. *)
Definition is_table_indexed (st : store) (table_name : string) : bool :=
  0 <? count_tables_named st table_name.

(** [index_csv_file(table_name, file_path, force)]: the result and the store
    afterwards.  Log records are not part of the state. *)
Definition index_csv_file (fs : files) (table_name file_path : string)
    (force : bool) (st : store) : bool * store :=
  if negb (path_exists fs file_path) then (false, st)
  else if is_table_indexed st table_name && negb force then (true, st)
  else
    let st := if force then drop_table_if_exists table_name st else st in
    match read_csv_auto fs file_path with
    | Raised _ => (false, st)
    | Ok rel =>
        match create_table_as table_name rel st with
        | Raised _ => (false, st)
        | Ok st =>
            match count_rows st table_name with
            | Ok _ => (true, st)
            | Raised _ => (false, st)
            end
        end
    end.

(** [get_all_data_files()]: the catalog flattened, category by category. *)
Definition get_all_data_files (DATA_DIR : string) : Py.dict string :=
  foldl (fun all_files category => Py.dict_update all_files category.2)
        [] (Config.DATA_FILES DATA_DIR).

(** Whether a text is a logical name of the catalog, in any letter case. *)
Definition catalog_name (text : string) : bool :=
  bool_decide (Py.upper text ∈ Py.dict_keys (get_all_data_files "")).

(** [get_table_info] pastes the text it is given into its statements, where
    they expect a table name.  The store answers for a text it holds a
    relation under and for the logical names of the catalog.  Any other text
    (a qualified name, a system view, more than a name) the engine reads in
    its own way: [other] is its answer to the statement with that text. *)
Definition names_table (st : store) (text : string) : bool :=
  bool_decide (is_Some (st !! Py.upper text)) || catalog_name text.

(** [execute(f"DESCRIBE {table_name}").fetchall()]. *)
Definition describe_text (other : string -> list value -> outcome cursor)
    (st : store) (table_name : string) : outcome (list (list value)) :=
  if names_table st table_name then describe st table_name
  else
    match other ("DESCRIBE " +:+ table_name) [] with
    | Ok c => Ok (fetchall c)
    | Raised e => Raised e
    end.

(** The first cell of the first row of the count statement, [fetchone()[0]]:
    without a row it is [None[0]], with an empty row an index out of
    range. *)
Definition count_text (other : string -> list value -> outcome cursor)
    (st : store) (table_name : string) : outcome pyobj :=
  if names_table st table_name then
    match count_rows st table_name with
    | Ok count => Ok (PInt count)
    | Raised e => Raised e
    end
  else
    match other ("SELECT COUNT(*) FROM " +:+ table_name) [] with
    | Ok c =>
        match fetchall c with
        | (count :: _) :: _ => Ok (pyobj_of_value count)
        | [] :: _ => Raised (PyError "IndexError")
        | [] => Raised (PyError "TypeError")
        end
    | Raised e => Raised e
    end.

(** [get_table_info(table_name)]: the dictionary with name, row count and
    columns, or the empty dictionary of the [except] branch. *)
Definition get_table_info (other : string -> list value -> outcome cursor)
    (st : store) (table_name : string) : pyobj :=
  match describe_text other st table_name with
  | Raised _ => PDict []
  | Ok described =>
      match count_text other st table_name with
      | Raised _ => PDict []
      | Ok count =>
          match
            mapM (fun col : list value =>
                    match col with
                    | c0 :: c1 :: _ =>
                        Some (PDict [("name", pyobj_of_value c0);
                                     ("type", pyobj_of_value c1)])
                    | _ => None
                    end) described
          with
          | Some cols =>
              PDict [("table_name", PStr table_name);
                     ("row_count", count);
                     ("columns", PList cols)]
          | None => PDict []
          end
      end
  end.

(** The sweeps.  They are written over the method they call for each table,
    [load] for [self.index_csv_file], and over the state [S] it works on, so
    that the same text serves the store and a store that records the calls. *)
Section sweeps.

Context {S : Type}.
Variable load : string -> string -> bool -> S -> bool * S.
Variable DATA_DIR : string.

(** The loop of [index_priority_tables] and [index_large_tables]:
    [for table_name in tier: if table_name in all_files:
       results[table_name] = index_csv_file(...)]. *)
Definition index_tier (tier : list string) (force : bool) (st : S)
  : Py.dict bool * S :=
  let all_files := get_all_data_files DATA_DIR in
  foldl (fun acc table_name =>
           match Py.dict_get table_name all_files with
           | Some file_path =>
               let r := load table_name file_path force acc.2 in
               (Py.dict_set table_name r.1 acc.1, r.2)
           | None => acc
           end)
        ([], st) tier.

Definition index_priority_tables (force : bool) (st : S) : Py.dict bool * S :=
  index_tier Config.PRIORITY_TABLES force st.

Definition index_large_tables (force : bool) (st : S) : Py.dict bool * S :=
  index_tier Config.LARGE_TABLES force st.

Definition index_all_tables (force : bool) (st : S) : Py.dict bool * S :=
  let results : Py.dict bool := [] in
  let all_files := get_all_data_files DATA_DIR in
  let priority := index_priority_tables force st in
  let results := Py.dict_update results priority.1 in
  let large := index_large_tables force priority.2 in
  let results := Py.dict_update results large.1 in
  foldl (fun acc entry =>
           if negb (Py.dict_has entry.1 acc.1) then
             let r := load entry.1 entry.2 force acc.2 in
             (Py.dict_set entry.1 r.1 acc.1, r.2)
           else acc)
        (results, large.2) all_files.

End sweeps.

End PubLogDatabase.

(** ** Recording the calls of a sweep *)

(** A loader that also records each call it receives, with its result. *)
Definition recording {S : Type} (load : string -> string -> bool -> S -> bool * S)
    (table_name file_path : string) (force : bool)
    (st : S * list (string * bool)) : bool * (S * list (string * bool)) :=
  let r := load table_name file_path force st.1 in
  (r.1, (r.2, st.2 ++ [(table_name, r.1)])).

(** Results and state of a recorded sweep are those of the sweep itself. *)
Definition erased {S : Type} (plain : Py.dict bool * S)
    (recorded : Py.dict bool * (S * list (string * bool))) : Prop :=
  recorded.1 = plain.1 /\ recorded.2.1 = plain.2.

(** ** A reference engine

    DuckDB's reading of the statements the results below depend on: the
    exact-key lookups, the unfiltered page of [NSNService.search] and the
    group listing of [FSCService.get_all_fsg].  Every other statement is left
    to [other]. *)

Module Duck.

(** *** Arithmetic

    Since DuckDB 0.8, [/] is floating-point division whatever the operand
    types (integer division is [//]); a [DOUBLE] cast to [INTEGER] is
    rounded to the nearest integer, ties to even, and fails outside the
    32-bit range.  Doubles are IEEE binary64, as the primitive floats are. *)

(** An integer operand converted to [DOUBLE] (any [BIGINT] but the least). *)
Definition to_double (z : Z) : float :=
  if z <? 0 then PrimFloat.opp (PrimFloat.of_uint63 (Uint63.of_Z (- z)))
  else PrimFloat.of_uint63 (Uint63.of_Z z).

Definition divide (a b : float) : float := PrimFloat.div a b.

(** [m * 2^e] rounded to the nearest integer, ties to even, for [0 <= m]. *)
Definition round_half_even (m e : Z) : Z :=
  if 0 <=? e then m * 2 ^ e
  else
    let d := 2 ^ (- e) in
    let q := m / d in
    match 2 * (m mod d) ?= d with
    | Lt => q
    | Gt => q + 1
    | Eq => if Z.even q then q else q + 1
    end.

(** The nearest integer of a finite [DOUBLE]. *)
Definition nearbyint (f : float) : option Z :=
  match Prim2SF f with
  | S754_zero _ => Some 0
  | S754_finite negative m e =>
      let n := round_half_even (Z.pos m) e in
      Some (if negative then - n else n)
  | S754_infinity _ | S754_nan => None
  end.

(** [CAST(f AS INTEGER)]. *)
Definition cast_integer (f : float) : outcome Z :=
  match nearbyint f with
  | Some n =>
      if (- 2 ^ 31 <=? n) && (n <? 2 ^ 31) then Ok n
      else Raised (QueryError "Conversion Error: out of range for INT32")
  | None => Raised (QueryError "Conversion Error: not a finite number")
  end.

(** [CAST(x / 100 AS INTEGER)] for a cell [x]. *)
Definition cast_hundredth (x : value) : outcome value :=
  match x with
  | VNull => Ok VNull
  | VInt c =>
      match cast_integer (divide (to_double c) (to_double 100)) with
      | Ok n => Ok (VInt n)
      | Raised e => Raised e
      end
  | VDouble f =>
      match cast_integer (divide f (to_double 100)) with
      | Ok n => Ok (VInt n)
      | Raised e => Raised e
      end
  | VText _ => Raised (QueryError "Binder Error: no function matches /(VARCHAR, INTEGER)")
  end.

(** *** Comparison *)

(** A text converted to [BIGINT]: white space around an optional sign and
    decimal digits. *)
Fixpoint decimal (acc : Z) (l : list ascii) : option Z :=
  match l with
  | [] => Some acc
  | c :: l' =>
      match Py.digit_of c with
      | Some d => decimal (10 * acc + d) l'
      | None => None
      end
  end.

Definition bigint_of_text (s : string) : option Z :=
  match Py.strip Py.is_c_space (list_ascii_of_string s) with
  | c :: l =>
      if Ascii.eqb c "-"%char then
        match l with [] => None | _ => Z.opp <$> decimal 0 l end
      else if Ascii.eqb c "+"%char then
        match l with [] => None | _ => decimal 0 l end
      else decimal 0 (c :: l)
  | [] => None
  end.

(** [a = b] in a [WHERE] clause.  [NULL] equals nothing; a text compared with
    a number is converted to the number, which can fail. *)
Definition equal (a b : value) : outcome bool :=
  let no_conversion := Raised (QueryError "Conversion Error: could not convert string") in
  match a, b with
  | VNull, _ | _, VNull => Ok false
  | VInt x, VInt y => Ok (x =? y)
  | VText x, VText y => Ok (String.eqb x y)
  | VDouble x, VDouble y => Ok (PrimFloat.eqb x y)
  | VInt x, VDouble y | VDouble y, VInt x => Ok (PrimFloat.eqb (to_double x) y)
  | VText x, VInt y | VInt y, VText x =>
      match bigint_of_text x with
      | Some x' => Ok (x' =? y)
      | None => no_conversion
      end
  | VText x, VDouble y | VDouble y, VText x =>
      match bigint_of_text x with
      | Some x' => Ok (PrimFloat.eqb (to_double x') y)
      | None => no_conversion
      end
  end.

(** Whether two values are the same for [DISTINCT]: [NULL] is the same as
    [NULL]. *)
Definition same (a b : value) : bool :=
  match a, b with
  | VNull, VNull => true
  | VInt x, VInt y => x =? y
  | VDouble x, VDouble y => PrimFloat.Leibniz.eqb x y
  | VText x, VText y => String.eqb x y
  | _, _ => false
  end.

(** *** Relations *)

Definition no_table {A} : outcome A :=
  Raised (QueryError "Catalog Error: table does not exist").

Definition no_column {A} : outcome A :=
  Raised (QueryError "Binder Error: referenced column not found").

Definition bad_parameters {A} : outcome A :=
  Raised (QueryError "Invalid Input Error: parameters do not match the statement").

(** The position of a column; column names are case-insensitive. *)
Fixpoint column_index (name : string) (cols : list column) : option nat :=
  match cols with
  | [] => None
  | c :: cols' =>
      if String.eqb (Py.upper (column_name c)) (Py.upper name) then Some 0%nat
      else S <$> column_index name cols'
  end.

(** The cell of a tuple at a column position; a short tuple reads [NULL]. *)
Definition cell (i : nat) (t : list value) : value := default VNull (t !! i).

(** The tuples that satisfy a condition, in table order; the condition's
    first error is the statement's. *)
Fixpoint where_ (cond : list value -> outcome bool) (ts : list (list value))
  : outcome (list (list value)) :=
  match ts with
  | [] => Ok []
  | t :: ts' =>
      match cond t with
      | Raised e => Raised e
      | Ok keep =>
          match where_ cond ts' with
          | Raised e => Raised e
          | Ok kept => Ok (if keep then t :: kept else kept)
          end
      end
  end.

(** [SELECT * FROM table WHERE column = ? LIMIT 1]. *)
Definition select_by_key (st : store) (table column : string)
    (params : list value) : outcome cursor :=
  match st !! Py.upper table with
  | None => no_table
  | Some rel =>
      match column_index column (columns rel), params with
      | None, _ => no_column
      | Some i, [key] =>
          match where_ (fun t => equal (cell i t) key) (tuples rel) with
          | Raised e => Raised e
          | Ok found => Ok (Cursor (column_name <$> columns rel) (take 1 found))
          end
      | Some _, _ => bad_parameters
      end
  end.

(** The values a [LIMIT] or [OFFSET] takes: not negative, and within the
    signed 64-bit integers the engine counts rows with. *)
Definition row_count (n : Z) : bool := (0 <=? n) && (n <? 2 ^ 63).

(** [SELECT * FROM table WHERE 1=1 LIMIT ? OFFSET ?]. *)
Definition select_page (st : store) (table : string) (params : list value)
  : outcome cursor :=
  match st !! Py.upper table with
  | None => no_table
  | Some rel =>
      match params with
      | [VInt limit; VInt offset] =>
          if row_count limit && row_count offset then
            Ok (Cursor (column_name <$> columns rel)
                       (take (Z.to_nat limit)
                             (drop (Z.to_nat offset) (tuples rel))))
          else Raised (QueryError "Out of Range Error: LIMIT and OFFSET must be in range")
      | _ => bad_parameters
      end
  end.

(** [DISTINCT]: a tuple equal to an earlier one is dropped. *)
Definition same_tuple (t u : list value) : bool :=
  (length t =? length u)%nat && forallb (fun ab => same ab.1 ab.2) (zip t u).

Fixpoint distinct_from (seen ts : list (list value)) : list (list value) :=
  match ts with
  | [] => []
  | t :: ts' =>
      if existsb (same_tuple t) seen then distinct_from seen ts'
      else t :: distinct_from (t :: seen) ts'
  end.

Definition distinct (ts : list (list value)) : list (list value) :=
  distinct_from [] ts.

(** [ORDER BY] the first column, ascending, [NULL] last; tuples with equal
    keys keep their order. *)
Definition before (a b : value) : bool :=
  match a, b with
  | VInt x, VInt y => x <? y
  | VInt _, _ => true
  | _, _ => false
  end.

Fixpoint insert_ordered (t : list value) (sorted : list (list value))
  : list (list value) :=
  match sorted with
  | [] => [t]
  | u :: sorted' =>
      if before (cell 0 t) (cell 0 u) then t :: u :: sorted'
      else u :: insert_ordered t sorted'
  end.

Definition order_by_first (ts : list (list value)) : list (list value) :=
  foldl (fun sorted t => insert_ordered t sorted) [] ts.

(** A projection applied to every tuple; its first error is the
    statement's. *)
Fixpoint project (f : list value -> outcome (list value))
    (ts : list (list value)) : outcome (list (list value)) :=
  match ts with
  | [] => Ok []
  | t :: ts' =>
      match f t with
      | Raised e => Raised e
      | Ok u =>
          match project f ts' with
          | Raised e => Raised e
          | Ok us => Ok (u :: us)
          end
      end
  end.

(** [SELECT DISTINCT CAST(FSC / 100 AS INTEGER) as FSG, FSG_TITLE
     FROM V_H2_FSG ORDER BY FSG]. *)
Definition select_groups (st : store) : outcome cursor :=
  match st !! "V_H2_FSG" with
  | None => no_table
  | Some rel =>
      match column_index "FSC" (columns rel),
            column_index "FSG_TITLE" (columns rel) with
      | Some i, Some j =>
          match
            project (fun t =>
                       match cast_hundredth (cell i t) with
                       | Ok g => Ok [g; cell j t]
                       | Raised e => Raised e
                       end)
                    (tuples rel)
          with
          | Raised e => Raised e
          | Ok projected =>
              Ok (Cursor ["FSG"; default "FSG_TITLE"
                                   (column_name <$> columns rel !! j)]
                         (order_by_first (distinct projected)))
          end
      | _, _ => no_column
      end
  end.

(** *** Statements *)

(** The exact-key lookups of the services, with their table and column. *)
Definition exact_key_statements : Py.dict (string * string) :=
  [("SELECT * FROM P_CAGE WHERE CAGE_CODE = ? LIMIT 1", ("P_CAGE", "CAGE_CODE"));
   ("SELECT * FROM V_H2_FSC WHERE FSC = ? LIMIT 1", ("V_H2_FSC", "FSC"));
   ("SELECT * FROM P_FLIS_NSN WHERE NIIN = ? LIMIT 1", ("P_FLIS_NSN", "NIIN"));
   ("SELECT * FROM FLISV WHERE NIIN = ? LIMIT 1", ("FLISV", "NIIN"));
   ("SELECT * FROM V_H6_NAME_INC WHERE INC = ? LIMIT 1", ("V_H6_NAME_INC", "INC"))].

Definition unfiltered_page : string := "
            SELECT * FROM P_FLIS_NSN
            WHERE 1=1
            LIMIT ? OFFSET ?
        ".

Definition group_listing : string := "
            SELECT DISTINCT
                CAST(FSC / 100 AS INTEGER) as FSG,
                FSG_TITLE
            FROM V_H2_FSG
            ORDER BY FSG
        ".

Definition execute (st : store) (other : string -> list value -> outcome cursor)
    (sql : string) (params : list value) : outcome cursor :=
  match Py.dict_get sql exact_key_statements with
  | Some (table, column) => select_by_key st table column params
  | None =>
      if String.eqb sql unfiltered_page then select_page st "P_FLIS_NSN" params
      else if String.eqb sql group_listing then select_groups st
      else other sql params
  end.

(** The engine over a store. *)
Definition engine (st : store) (other : string -> list value -> outcome cursor)
  : engine :=
  Engine (execute st other) (PubLogDatabase.is_table_indexed st).

End Duck.

(** ** Operations of the service layer, for statements about all of them *)

(** A call of a domain-service operation with its arguments. *)
Inductive operation : Type :=
| CageGetByCode (cage_code : string)
| CageSearch (q : string) (limit offset : Z)
| CageSearchByLocation (state city country : option string) (limit : Z)
| CageGetStats
| FscGetAllFsg
| FscGetAllFsc
| FscGetByCode (fsc : string)
| FscGetByFsg (fsg : string)
| FscSearch (q : string)
| NsnGetByNiin (niin : string)
| NsnSearch (q : string) (fsc : option string) (limit offset : Z)
| NsnGetByFsc (fsc : string) (limit offset : Z)
| NsnGetManagementData (niin : string)
| NsnGetCharacteristics (niin : string)
| IncGetByInc (inc : string)
| IncSearch (q : string) (limit : Z)
| IncGetAll (limit : Z)
| SearchAll (q : string) (limit : Z).

(** A program run for its calls only. *)
Definition forget {A} (p : prog A) : prog unit :=
  let/p _ := p in Ret tt.

Definition program (op : operation) : prog unit :=
  match op with
  | CageGetByCode c => forget (CAGEService.get_by_code c)
  | CageSearch q l o => forget (CAGEService.search q l o)
  | CageSearchByLocation s c k l => forget (CAGEService.search_by_location s c k l)
  | CageGetStats => forget CAGEService.get_stats
  | FscGetAllFsg => forget FSCService.get_all_fsg
  | FscGetAllFsc => forget FSCService.get_all_fsc
  | FscGetByCode f => forget (FSCService.get_fsc_by_code f)
  | FscGetByFsg g => forget (FSCService.get_fsc_by_fsg g)
  | FscSearch q => forget (FSCService.search_fsc q)
  | NsnGetByNiin n => forget (NSNService.get_by_niin n)
  | NsnSearch q f l o => forget (NSNService.search q f l o)
  | NsnGetByFsc f l o => forget (NSNService.get_by_fsc f l o)
  | NsnGetManagementData n => forget (NSNService.get_management_data n)
  | NsnGetCharacteristics n => forget (NSNService.get_characteristics n)
  | IncGetByInc i => forget (ItemNameService.get_by_inc i)
  | IncSearch q l => forget (ItemNameService.search q l)
  | IncGetAll l => forget (ItemNameService.get_all l)
  | SearchAll q l => forget (UnifiedSearchService.search_all q l)
  end.

(** Whether [int()] accepts a text. *)
Definition numeric (s : string) : bool :=
  match Py.int s with Some _ => true | None => false end.

(** How an optional FSC filter is used: not at all, as a number, as text. *)
Inductive filter_kind : Type := Unused | AsNumber | AsText.

Definition fsc_kind (fsc : option string) : filter_kind :=
  match Py.when_truthy fsc with
  | None => Unused
  | Some f => if numeric f then AsNumber else AsText
  end.

(** Two calls are alike when they call the same operation and their
    arguments take the same branches: the same optional filters are true,
    and codes and terms are both numeric or both not.  Values are otherwise
    free. *)
Definition alike (op1 op2 : operation) : Prop :=
  match op1, op2 with
  | CageGetByCode _, CageGetByCode _ => True
  | CageSearch _ _ _, CageSearch _ _ _ => True
  | CageSearchByLocation s c k _, CageSearchByLocation s' c' k' _ =>
      Py.truthy s = Py.truthy s' /\ Py.truthy c = Py.truthy c'
      /\ Py.truthy k = Py.truthy k'
  | CageGetStats, CageGetStats => True
  | FscGetAllFsg, FscGetAllFsg => True
  | FscGetAllFsc, FscGetAllFsc => True
  | FscGetByCode f, FscGetByCode f' => numeric f = numeric f'
  | FscGetByFsg g, FscGetByFsg g' => numeric g = numeric g'
  | FscSearch q, FscSearch q' => numeric q = numeric q'
  | NsnGetByNiin _, NsnGetByNiin _ => True
  | NsnSearch q f _ _, NsnSearch q' f' _ _ =>
      Py.truthy_str q = Py.truthy_str q' /\ fsc_kind f = fsc_kind f'
  | NsnGetByFsc f _ _, NsnGetByFsc f' _ _ => numeric f = numeric f'
  | NsnGetManagementData _, NsnGetManagementData _ => True
  | NsnGetCharacteristics _, NsnGetCharacteristics _ => True
  | IncGetByInc _, IncGetByInc _ => True
  | IncSearch _ _, IncSearch _ _ => True
  | IncGetAll _, IncGetAll _ => True
  | SearchAll q _, SearchAll q' _ =>
      Py.truthy_str q = Py.truthy_str q' /\ numeric q = numeric q'
  | _, _ => False
  end.

(** The one operation that formats an argument into its statement. *)
Definition formats_argument (op : operation) : bool :=
  match op with IncGetAll _ => true | _ => false end.

(** Two programs hand the same statement texts to the store, and ask about
    the same tables, whenever the engine answers them alike.  Bound
    parameters and results are free to differ. *)
Inductive same_texts {A} : prog A -> prog A -> Prop :=
| same_texts_ret (a b : A) : same_texts (Ret a) (Ret b)
| same_texts_raise (e e' : exn) : same_texts (Raise e) (Raise e')
| same_texts_execute (sql : string) (params params' : list value)
    (k k' : outcome cursor -> prog A) :
    (forall o, same_texts (k o) (k' o)) ->
    same_texts (Execute sql params k) (Execute sql params' k')
| same_texts_indexed (t : string) (k k' : bool -> prog A) :
    (forall b, same_texts (k b) (k' b)) ->
    same_texts (IsTableIndexed t k) (IsTableIndexed t k').

(** An engine whose answers do not depend on the bound parameters. *)
Definition parameter_blind (E : engine) : Prop :=
  forall sql params params', execute E sql params = execute E sql params'.

(** What a category of [search_all] holds for the outcome of its service. *)
Definition or_empty {A} (o : outcome (list A)) : list A :=
  match o with Ok found => found | Raised _ => [] end.

Definition map_outcome {A B} (f : A -> B) (o : outcome A) : outcome B :=
  match o with Ok a => Ok (f a) | Raised e => Raised e end.

(** ** Sample engines and stores *)

Module Sample.

(** An engine that knows no statement and no table. *)
Definition no_answers (sql : string) (params : list value) : outcome cursor :=
  Raised (QueryError "Parser Error: statement not understood").

Definition offline : engine := Engine no_answers (fun _ => false).

(** An engine where only the classification search answers, with two
    classes. *)
Definition radio : list value := [VInt 5820; VText "RADIO AND TELEVISION"].
Definition radar : list value := [VInt 5840; VText "RADAR EQUIPMENT"].

Definition only_classes : engine :=
  Engine (fun sql params =>
            if String.eqb sql "
                SELECT * FROM V_H2_FSC
                WHERE UPPER(FSC_TITLE) LIKE ?
                ORDER BY FSC
                LIMIT 100
            "
            then Ok (Cursor ["FSC"; "FSC_TITLE"] [radio; radar])
            else no_answers sql params)
         (fun _ => false).

(** A source file that exists and that the engine's CSV reader refuses. *)
Definition unreadable : files :=
  Files (fun _ => true)
        (fun _ => Raised (QueryError "Invalid Input Error: CSV sniffing failed")).

(** A source file with two contractors. *)
Definition contractors : relation :=
  Relation [Column "CAGE_CODE" "VARCHAR"; Column "COMPANY" "VARCHAR"]
           [[VText "1ABC5"; VText "ACME"]; [VText "0K2X9"; VText "GLOBEX"]].

Definition readable : files := Files (fun _ => true) (fun _ => Ok contractors).

(** A class table [V_H2_FSG], each row a class code with the title of its
    group. *)
Definition class_table (rows : list (list value)) : store :=
  {[ "V_H2_FSG" := Relation [Column "FSC" "BIGINT"; Column "FSG_TITLE" "VARCHAR"]
                            rows ]}.

Definition communication : string :=
  "Communication, Detection, and Coherent Radiation Equipment".

(** Radio and television equipment (5820) and miscellaneous communication
    equipment (5895), both of group 58. *)
Definition group_58 : store :=
  class_table [[VInt 5820; VText communication];
               [VInt 5895; VText communication]].

Definition radio_classes : store :=
  class_table [[VInt 5820; VText communication];
               [VInt 5821; VText communication]].

(** A store where only the secondary stock-number relation is loaded. *)
Definition flisv_relation : relation :=
  Relation [Column "NIIN" "VARCHAR"; Column "PMIC" "VARCHAR"]
           [[VText "000000057"; VText "A"]; [VText "012345678"; VText "U"]].

Definition only_flisv : store := {[ "FLISV" := flisv_relation ]}.

(** A store with the primary stock-number relation. *)
Definition stock_relation : relation :=
  Relation [Column "FSC" "BIGINT"; Column "NIIN" "VARCHAR";
            Column "ITEM_NAME" "VARCHAR"]
           [[VInt 5820; VText "000000057"; VText "RADIO SET"];
            [VInt 5895; VText "012345678"; VText "ANTENNA"];
            [VInt 1005; VText "999999999"; VText "BARREL"]].

Definition stock_numbers : store := {[ "P_FLIS_NSN" := stock_relation ]}.

End Sample.

(** The group the engine computes for a four-digit class code: the
    hundredth rounded to the nearest integer, a half to the even side. *)
Definition rounded_hundredth (c : Z) : Z :=
  let q := c / 100 in
  let r := c mod 100 in
  if r <? 50 then q
  else if 50 <? r then q + 1
  else if Z.even q then q else q + 1.

Definition rounds_as_engine (c : Z) : bool :=
  match Duck.cast_hundredth (VInt c) with
  | Ok (VInt g) => g =? rounded_hundredth c
  | _ => false
  end.

(** ** More sample files and stores *)

Module Cases.

(** No source file is there. *)
Definition nothing_on_disk : files :=
  Files (fun _ => false) (fun _ => Raised (QueryError "IO Error: no such file")).

(** A store that holds the contractors under [P_CAGE] already, with one row
    more than the source file has. *)
Definition stale_contractors : relation :=
  Relation [Column "CAGE_CODE" "VARCHAR"; Column "COMPANY" "VARCHAR"]
           [[VText "1ABC5"; VText "ACME"]; [VText "0K2X9"; VText "GLOBEX"];
            [VText "7ZZZ1"; VText "INITECH"]].

Definition loaded : store := {[ "P_CAGE" := stale_contractors ]}.

(** An engine's answers about one of its own metadata views, with two of
    its columns and no row; it knows no other statement. *)
Definition metadata_views (sql : string) (params : list value)
  : outcome cursor :=
  if String.eqb sql "DESCRIBE information_schema.tables" then
    Ok (Cursor ["column_name"; "column_type"; "null"; "key"; "default"; "extra"]
               [[VText "table_catalog"; VText "VARCHAR"; VText "YES";
                 VNull; VNull; VNull];
                [VText "table_name"; VText "VARCHAR"; VText "YES";
                 VNull; VNull; VNull]])
  else if String.eqb sql "SELECT COUNT(*) FROM information_schema.tables" then
    Ok (Cursor ["count_star()"] [[VInt 0]])
  else Raised (QueryError "Parser Error: statement not understood").

(** An engine that refuses every statement with a [ValueError] and reports
    every table as indexed. *)
Definition refusing : engine :=
  Engine (fun _ _ => Raised (PyError "ValueError")) (fun _ => true).

(** A reading of [str(e)]: the message, or the class name. *)
Definition message (e : exn) : string :=
  match e with
  | QueryError msg => msg
  | PyError class => class
  | InvalidArgument msg => msg
  end.

End Cases.

(** ** More of Python's [str] *)

Module PyStr.

(** [str.lower()] on ASCII text. *)
Definition lower_char (c : ascii) : ascii :=
  let n := Ascii.nat_of_ascii c in
  if (65 <=? n)%nat && (n <=? 90)%nat then Ascii.ascii_of_nat (n + 32) else c.

Fixpoint lower (s : string) : string :=
  match s with
  | EmptyString => EmptyString
  | String c s' => String (lower_char c) (lower s')
  end.

End PyStr.

(** ** Loops over the store handle *)

(** [for x in items: body(x)]. *)
Fixpoint for_each {A} (items : list A) (body : A -> prog unit) : prog unit :=
  match items with
  | [] => Ret tt
  | x :: rest => let/p _ := body x in for_each rest body
  end.

(** [connection.execute(sql)] for a statement whose result is not read. *)
Definition execute_statement (sql : string) : prog unit :=
  Execute sql [] (fun o =>
    match o with
    | Ok _ => Ret tt
    | Raised e => Raise e
    end).

(** ** [database.py]: secondary indexes *)

Module Indexes.

(** The statement [create_indexes] sends for one column; the index name is
    [f"idx_{table_name}_{col}".lower()]. *)
Definition index_statement (table_name col : string) : string :=
  let index_name := PyStr.lower ("idx_" +:+ table_name +:+ "_" +:+ col) in
  "CREATE INDEX IF NOT EXISTS " +:+ index_name +:+ " ON " +:+ table_name
    +:+ "(" +:+ col +:+ ")".

(** [create_indexes(table_name, columns)]: each column in its own [try]; a
    failure is logged and the loop goes on. *)
Definition create_indexes (table_name : string) (columns : list string)
  : prog unit :=
  for_each columns (fun col =>
    try_except (execute_statement (index_statement table_name col))
               (fun _ => Ret tt)).

End Indexes.

(** ** [data_loader.py]: [DataLoader] *)

Module DataLoader.

(** The search columns of [_create_search_indexes], table by table. *)
Definition index_definitions : Py.dict (list string) :=
  [("P_CAGE", ["CAGE_CODE"; "COMPANY"; "CITY"; "STATE_PROVINCE"]);
   ("V_H2_FSC", ["FSC"; "FSC_TITLE"]);
   ("V_H2_FSG", ["FSG"; "FSG_TITLE"]);
   ("V_H6_NAME_INC", ["INC"; "FIIG_TITLE"]);
   ("V_FLIS_IDENTIFICATION", ["NIIN"; "FSC"; "ITEM_NAME"]);
   ("P_FLIS_NSN", ["NIIN"; "FSC"]);
   ("FLISV", ["NIIN"; "FSC"])].

(** [_create_search_indexes()]: indexes for the tables that are indexed. *)
Definition _create_search_indexes : prog unit :=
  for_each index_definitions (fun definition : string * list string =>
    IsTableIndexed definition.1 (fun indexed =>
      if indexed then Indexes.create_indexes definition.1 definition.2
      else Ret tt)).

(** The dictionary [initialize_database] returns. *)
Record report : Type := Report {
  success : bool;
  indexed : Z;
  total : Z;
  details : Py.dict bool
}.

(** [sum(1 for v in results.values() if v)]. *)
Definition success_count (results : Py.dict bool) : Z :=
  foldr (fun (kv : string * bool) n => if kv.2 then 1 + n else n) 0 results.

Definition summary (results : Py.dict bool) : report :=
  Report (success_count results =? Z.of_nat (length results))
         (success_count results)
         (Z.of_nat (length results))
         results.

(** [initialize_database(force, priority_only)]: the sweep, then the search
    indexes on the store it leaves, then the summary.  Statements the
    reference engine does not read, the index creations among them, are
    answered by [other]. *)
Definition initialize_database (fs : files) (DATA_DIR : string)
    (other : string -> list value -> outcome cursor)
    (force priority_only : bool) (st : store)
  : outcome report * store * list call :=
  let swept :=
    if priority_only
    then PubLogDatabase.index_priority_tables
           (PubLogDatabase.index_csv_file fs) DATA_DIR force st
    else PubLogDatabase.index_all_tables
           (PubLogDatabase.index_csv_file fs) DATA_DIR force st in
  let created := run (Duck.engine swept.2 other) _create_search_indexes in
  (match created.1 with
   | Ok _ => Ok (summary swept.1)
   | Raised e => Raised e
   end, swept.2, created.2).

End DataLoader.

(** ** A sweep as a list of loads *)

(** The loads of a list of tables one after the other: each table with the
    flag of its load, and the state at the end. *)
Fixpoint load_each {S : Type} (load : string -> string -> bool -> S -> bool * S)
    (force : bool) (tables : list (string * string)) (st : S)
  : list (string * bool) * S :=
  match tables with
  | [] => ([], st)
  | (table_name, file_path) :: rest =>
      let r := load table_name file_path force st in
      let r' := load_each load force rest r.2 in
      ((table_name, r.1) :: r'.1, r'.2)
  end.

(** The tables of the catalog with their paths, in the order of a sweep of
    everything: priority tier, large tier, the rest in catalog order. *)
Definition sweep_order (DATA_DIR : string) : list (string * string) :=
  let all_files := PubLogDatabase.get_all_data_files DATA_DIR in
  let tiers := Config.PRIORITY_TABLES ++ Config.LARGE_TABLES in
  omap (fun name => (fun path => (name, path)) <$> Py.dict_get name all_files)
       tiers
  ++ filter (fun entry => entry.1 ∉ tiers) all_files.

Definition priority_order (DATA_DIR : string) : list (string * string) :=
  let all_files := PubLogDatabase.get_all_data_files DATA_DIR in
  omap (fun name => (fun path => (name, path)) <$> Py.dict_get name all_files)
       Config.PRIORITY_TABLES.

(** ** Errors and parameters in programs *)

(** The exceptions an operation has a handler for: [get_stats] and
    [search_all] catch every exception; the four operations that run a
    statement inside [try ... except ValueError] catch that class. *)
Definition handles (op : operation) (e : exn) : bool :=
  match op with
  | CageGetStats | SearchAll _ _ => true
  | FscGetByCode _ | FscGetByFsg _ | FscSearch _ | NsnGetByFsc _ _ _ =>
      is_ValueError e
  | _ => false
  end.

(** A program that passes on what a statement raises unless [caught] says
    the exception is handled: after a statement that raised an exception
    that is not, it raises the same and does nothing else. *)
Inductive propagates {A} (caught : exn -> bool) : prog A -> Prop :=
| propagates_ret (a : A) : propagates caught (Ret a)
| propagates_raise (e : exn) : propagates caught (Raise e)
| propagates_execute (sql : string) (params : list value)
    (k : outcome cursor -> prog A) :
    (forall e, caught e = false -> k (Raised e) = Raise e) ->
    (forall e, caught e = true -> propagates caught (k (Raised e))) ->
    (forall c, propagates caught (k (Ok c))) ->
    propagates caught (Execute sql params k)
| propagates_indexed (t : string) (k : bool -> prog A) :
    (forall b, propagates caught (k b)) ->
    propagates caught (IsTableIndexed t k).

(** The number of placeholders [?] in a statement text. *)
Fixpoint placeholders (sql : string) : nat :=
  match sql with
  | EmptyString => 0%nat
  | String c rest =>
      if Ascii.eqb c "?"%char then S (placeholders rest)
      else placeholders rest
  end.

(** A program that binds as many parameters as its statement has
    placeholders, at every statement. *)
Inductive binds_all {A} : prog A -> Prop :=
| binds_all_ret (a : A) : binds_all (Ret a)
| binds_all_raise (e : exn) : binds_all (Raise e)
| binds_all_execute (sql : string) (params : list value)
    (k : outcome cursor -> prog A) :
    placeholders sql = length params ->
    (forall o, binds_all (k o)) ->
    binds_all (Execute sql params k)
| binds_all_indexed (t : string) (k : bool -> prog A) :
    (forall b, binds_all (k b)) ->
    binds_all (IsTableIndexed t k).

(** ** Proof steps for programs *)

Ltac propagates_step :=
  first
    [ apply propagates_ret
    | apply propagates_raise
    | apply propagates_execute;
        [ let H := fresh "Hcaught" in
          intros ? H; cbn [handles] in H;
          first [ discriminate H
                | cbn [bind try_except forget]; rewrite ?H; reflexivity ]
        | let H := fresh "Hcaught" in
          intros ? H; cbn [handles] in H;
          first [ discriminate H
                | cbn [bind try_except forget]; rewrite ?H ]
        | intros [? [| ? ?]] ]
    | apply propagates_indexed; intros []
    | progress cbn [bind try_except forget query map head negb
                    Py.truthy_list fetchall description]
    | match goal with
      | |- context [match ?x with _ => _ end] => destruct x
      end ].

Ltac binds_all_step :=
  first
    [ apply binds_all_ret
    | apply binds_all_raise
    | apply binds_all_execute; [try reflexivity | intros [[? [| ? ?]] | ?]]
    | apply binds_all_indexed; intros []
    | progress cbn [bind try_except forget query map head negb
                    Py.truthy_list fetchall description]
    | match goal with
      | |- binds_all ?p =>
          match p with
          | context [match ?x with _ => _ end] => destruct x
          end
      end ].

(** ** [api.py]: route bodies

    The bodies of the route functions, on arguments that passed the
    framework's validation.  [raise HTTPException(...)] ends a route with
    that response; an exception of the service layer that a route does not
    catch leaves the route as it is. *)

Module Api.

(** [str.strip()], [s.startswith(prefix)], [needle in s] and
    [s.rstrip(";")]. *)
Definition strip (s : string) : string :=
  string_of_list_ascii (Py.strip Py.is_space (list_ascii_of_string s)).

Definition startswith (prefix s : string) : bool := String.prefix prefix s.

Fixpoint contains (needle s : string) : bool :=
  String.prefix needle s
  || match s with
     | EmptyString => false
     | String _ rest => contains needle rest
     end.

Fixpoint drop_semicolons (l : list ascii) : list ascii :=
  match l with
  | c :: l' => if Ascii.eqb c ";"%char then drop_semicolons l' else l
  | [] => []
  end.

Definition rstrip_semicolons (s : string) : string :=
  string_of_list_ascii (rev (drop_semicolons (rev (list_ascii_of_string s)))).

(** What a route answers: the body it returns, or the [HTTPException] it
    raises. *)
Inductive response : Type :=
| Json (body : pyobj)
| HTTPException (status_code : Z) (detail : string).

Definition pyobj_of_row (r : row) : pyobj :=
  PDict ((fun kv : string * value => (kv.1, pyobj_of_value kv.2)) <$> r).

Definition pyobj_of_rows (rows : list row) : pyobj :=
  PList (pyobj_of_row <$> rows).

(** [any([state, city, country])]. *)
Definition any_filter (state city country : option string) : bool :=
  Py.truthy state || Py.truthy city || Py.truthy country.

(** [search_cage_by_location(state, city, country, limit)]. *)
Definition search_cage_by_location (state city country : option string)
    (limit : Z) : prog response :=
  if negb (any_filter state city country) then
    Ret (HTTPException 400 "At least one location parameter required")
  else
    let/p results :=
      CAGEService.search_by_location state city country limit in
    Ret (Json (PDict [("data", pyobj_of_rows results);
                      ("count", PInt (Z.of_nat (length results)));
                      ("limit", PInt limit);
                      ("offset", PInt 0)])).

(** The shape of the four lookup routes: [result = service(code)];
    [if not result: raise HTTPException(404, detail)]; [return result].
    A dictionary is false when it is empty. *)
Definition found_or_404 (lookup : prog (option row)) (detail : string)
  : prog response :=
  let/p result := lookup in
  match result with
  | Some (entry :: entries) => Ret (Json (pyobj_of_row (entry :: entries)))
  | Some [] | None => Ret (HTTPException 404 detail)
  end.

Definition get_cage_by_code (cage_code : string) : prog response :=
  found_or_404 (CAGEService.get_by_code cage_code)
               ("CAGE code " +:+ cage_code +:+ " not found").

Definition get_fsc_by_code (fsc_code : string) : prog response :=
  found_or_404 (FSCService.get_fsc_by_code fsc_code)
               ("FSC " +:+ fsc_code +:+ " not found").

Definition get_nsn_by_niin (niin : string) : prog response :=
  found_or_404 (NSNService.get_by_niin niin)
               ("NIIN " +:+ niin +:+ " not found").

Definition get_inc_by_code (inc_code : string) : prog response :=
  found_or_404 (ItemNameService.get_by_inc inc_code)
               ("INC " +:+ inc_code +:+ " not found").

(** [get_table_info(table_name)]: the store handle's call does not raise,
    so of the route's handlers only the 404 is reached. *)
Definition get_table_info (other : string -> list value -> outcome cursor)
    (st : store) (table_name : string) : response :=
  match PubLogDatabase.get_table_info other st table_name with
  | PDict [] => HTTPException 404 ("Table " +:+ table_name +:+ " not found")
  | info => Json info
  end.

Section routes_that_catch.

(** [str(e)], the text of an exception. *)
Variable str : exn -> string.

(** [sum(len(v) for v in results.values())]. *)
Definition total_results (results : Py.dict (list row)) : Z :=
  foldr (fun (kv : string * list row) n => Z.of_nat (length kv.2) + n) 0 results.

(** [unified_search(q, limit)]. *)
Definition unified_search (q : string) (limit : Z) : prog response :=
  try_except
    (let/p results := UnifiedSearchService.search_all q limit in
     let total := total_results results in
     Ret (Json (PDict [("query", PStr q);
                       ("results",
                        PDict ((fun kv : string * list row =>
                                  (kv.1, pyobj_of_rows kv.2)) <$> results));
                       ("total_results", PInt total)])))
    (fun e => Ret (HTTPException 500 (str e))).

Definition forbidden : list string :=
  ["INSERT"; "UPDATE"; "DELETE"; "DROP"; "CREATE"; "ALTER"; "TRUNCATE"].

(** [execute_query(sql, limit)]. *)
Definition execute_query (sql : string) (limit : Z) : prog response :=
  let sql_upper := Py.upper (strip sql) in
  if negb (startswith "SELECT" sql_upper) then
    Ret (HTTPException 400 "Only SELECT queries are allowed")
  else
    match List.find (fun word => contains word sql_upper) forbidden with
    | Some word =>
        Ret (HTTPException 400 (word +:+ " statements are not allowed"))
    | None =>
        try_except
          (let sql :=
             if negb (contains "LIMIT" sql_upper)
             then rstrip_semicolons sql +:+ " LIMIT " +:+ Py.str_of_int limit
             else sql in
           let/p results := query sql None in
           Ret (Json (PDict [("data", pyobj_of_rows results);
                             ("count", PInt (Z.of_nat (length results)))])))
          (fun e => Ret (HTTPException 400 (str e)))
    end.

End routes_that_catch.

End Api.

(** ** Proof steps for statement texts *)

(** Walks two programs in lockstep: the same answer is given to both sides,
    and whatever the programs branch on is taken apart. *)
Ltac same_texts_step :=
  first
    [ apply same_texts_ret
    | apply same_texts_raise
    | apply same_texts_execute; intros [[? [| ? ?]] | ?]
    | apply same_texts_indexed; intros []
    | progress cbn [bind try_except forget query map head negb
                    Py.truthy_list fetchall description]
    | match goal with
      | |- context [match ?x with _ => _ end] => destruct x
      end ].

Ltac same_texts_auto := repeat same_texts_step.

Ltac split_numeric :=
  repeat match goal with
         | H : context [Py.int ?x] |- _ => destruct (Py.int x)
         | |- context [Py.int ?x] => destruct (Py.int x)
         end.

(** * Results *)

(** ** Running programs *)

Lemma run_bind {A B} (E : engine) (p : prog A) (f : A -> prog B) :
  run E (bind p f) =
  match (run E p).1 with
  | Ok a => ((run E (f a)).1, (run E p).2 ++ (run E (f a)).2)
  | Raised e => (Raised e, (run E p).2)
  end.
Proof.
  induction p as [a | e | sql params k IH | t k IH]; simpl.
  - by destruct (run E (f a)).
  - done.
  - rewrite IH. by destruct (run E (k (execute E sql params))).1.
  - rewrite IH. by destruct (run E (k (table_indexed E t))).1.
Qed.

Lemma run_try_except {A} (E : engine) (p : prog A) (h : exn -> prog A) :
  run E (try_except p h) =
  match (run E p).1 with
  | Ok a => (Ok a, (run E p).2)
  | Raised e => ((run E (h e)).1, (run E p).2 ++ (run E (h e)).2)
  end.
Proof.
  induction p as [a | e | sql params k IH | t k IH]; simpl.
  - done.
  - by destruct (run E (h e)).
  - rewrite IH. by destruct (run E (k (execute E sql params))).1.
  - rewrite IH. by destruct (run E (k (table_indexed E t))).1.
Qed.

Lemma result_bind {A B} (E : engine) (p : prog A) (f : A -> prog B) :
  result E (bind p f) =
  match result E p with
  | Ok a => result E (f a)
  | Raised e => Raised e
  end.
Proof. unfold result. rewrite run_bind. by destruct (run E p).1. Qed.

Lemma result_try_except {A} (E : engine) (p : prog A) (h : exn -> prog A) :
  result E (try_except p h) =
  match result E p with
  | Ok a => Ok a
  | Raised e => result E (h e)
  end.
Proof. unfold result. rewrite run_try_except. by destruct (run E p).1. Qed.

(** One category of [search_all]: the assignment inside its [try], with what
    is done to the service's answer before it is stored. *)
Lemma result_category {A} (E : engine) (p : prog (list A))
    (cut : list A -> list A) (key : string) (results : Py.dict (list A)) :
  result E (try_except
              (let/p found := p in Ret (Py.dict_set key (cut found) results))
              (fun _ => Ret results)) =
  Ok (match result E p with
      | Ok found => Py.dict_set key (cut found) results
      | Raised _ => results
      end).
Proof.
  rewrite result_try_except, result_bind. by destruct (result E p).
Qed.

(** The dictionary [search_all] returns, category by category. *)
Lemma search_all_result (E : engine) (q : string) (limit : Z) :
  result E (UnifiedSearchService.search_all q limit) =
  Ok [("cage", or_empty (result E (CAGEService.search q limit 0)));
      ("fsc", or_empty (map_outcome (Py.slice_to limit)
                          (result E (FSCService.search_fsc q))));
      ("nsn", or_empty (result E (NSNService.search q None limit 0)));
      ("item_names", or_empty (result E (ItemNameService.search q limit)))].
Proof.
  unfold UnifiedSearchService.search_all, or_empty, map_outcome.
  rewrite result_bind, (result_category E _ id). cbv beta iota.
  rewrite result_bind, (result_category E _ (Py.slice_to limit)). cbv beta iota.
  rewrite result_bind, (result_category E _ id). cbv beta iota.
  rewrite result_bind, (result_category E _ id). cbv beta iota.
  destruct (result E (CAGEService.search q limit 0)) as [cage | ?];
    destruct (result E (FSCService.search_fsc q)) as [fsc | ?];
    destruct (result E (NSNService.search q None limit 0)) as [nsn | ?];
    by destruct (result E (ItemNameService.search q limit)).
Qed.

(** ** Unified search *)

(** C9.  Whatever the engine does, and so also when every domain service
    raises, [search_all] returns a dictionary whose keys are exactly
    ["cage"], ["fsc"], ["nsn"] and ["item_names"], each bound to a list. *)
Theorem search_all_has_four_categories (E : engine) (q : string) (limit : Z) :
  exists results : Py.dict (list row),
    result E (UnifiedSearchService.search_all q limit) = Ok results
    /\ Py.dict_keys results = ["cage"; "fsc"; "nsn"; "item_names"].
Proof. rewrite search_all_result. eexists. split; reflexivity. Qed.

(** C7, amended.  [search_all] never raises, and each category depends on
    its own service only: the category holds what that service returned, or
    the empty list when it raised.  The classification category holds the
    service's answer cut to its first [limit] rows, by the slice
    [[:limit]]. *)
Theorem search_all_isolates_failures (E : engine) (q : string) (limit : Z) :
  exists results : Py.dict (list row),
    result E (UnifiedSearchService.search_all q limit) = Ok results
    /\ Py.dict_get "cage" results
       = Some (or_empty (result E (CAGEService.search q limit 0)))
    /\ Py.dict_get "fsc" results
       = Some (or_empty (map_outcome (Py.slice_to limit)
                           (result E (FSCService.search_fsc q))))
    /\ Py.dict_get "nsn" results
       = Some (or_empty (result E (NSNService.search q None limit 0)))
    /\ Py.dict_get "item_names" results
       = Some (or_empty (result E (ItemNameService.search q limit))).
Proof. rewrite search_all_result. eexists. repeat split; reflexivity. Qed.

(** C7 as stated fails: with the contractor search raising and the
    classification search returning two rows, a limit of one leaves one row
    in the classification category, not what the service returned. *)
Lemma search_all_cuts_classification :
  (exists e, result Sample.only_classes (CAGEService.search "RAD" 1 0)
             = Raised e)
  /\ exists results found,
       result Sample.only_classes (UnifiedSearchService.search_all "RAD" 1)
       = Ok results
       /\ result Sample.only_classes (FSCService.search_fsc "RAD") = Ok found
       /\ length found = 2%nat
       /\ Py.dict_get "fsc" results <> Some found.
Proof.
  split; [eexists; vm_compute; reflexivity |].
  eexists _, _. split; [vm_compute; reflexivity |].
  split; [vm_compute; reflexivity |]. split; [reflexivity |].
  vm_compute. discriminate.
Qed.

(** ** Contractor search by location *)

(** C1, amended.  With none of the three filters supplied ([None] or the
    empty string), [search_by_location] returns the empty list as a result,
    for every limit, and sends nothing to the store.  (The rejection of such
    a request is the caller's: the HTTP route answers 400 before calling.) *)
Theorem search_by_location_without_filter (E : engine)
    (state city country : option string) (limit : Z) :
  Py.truthy state = false -> Py.truthy city = false ->
  Py.truthy country = false ->
  run E (CAGEService.search_by_location state city country limit) = (Ok [], []).
Proof.
  unfold CAGEService.search_by_location, CAGEService.location_filters,
    Py.when_truthy, Py.truthy.
  intros Hs Hc Hk.
  destruct state as [s |]; [rewrite Hs |]; (destruct city as [c |]; [rewrite Hc |]);
    (destruct country as [k |]; [rewrite Hk |]); reflexivity.
Qed.

Lemma search_by_location_without_filter_witness :
  run Sample.offline (CAGEService.search_by_location (Some "") None None 50)
  = (Ok [], []).
Proof. apply search_by_location_without_filter; reflexivity. Defined.

(** C1 as stated fails: with no filter the call succeeds with the empty
    list; it does not raise [InvalidArgument]. *)
Lemma search_by_location_returns_empty :
  result Sample.offline (CAGEService.search_by_location None None None 50) = Ok []
  /\ ~ exists msg,
         result Sample.offline (CAGEService.search_by_location None None None 50)
         = Raised (InvalidArgument msg).
Proof. split; [reflexivity | intros [msg H]; vm_compute in H; discriminate]. Qed.

(** ** The store handle *)

Lemma describe_columns (cols : list column) :
  mapM (fun col : list value =>
          match col with
          | c0 :: c1 :: _ =>
              Some (PDict [("name", pyobj_of_value c0);
                           ("type", pyobj_of_value c1)])
          | _ => None
          end)
       (map (fun c => [VText (column_name c); VText (column_type c);
                       VText "YES"; VNull; VNull; VNull]) cols)
  = Some (map (fun c => PDict [("name", PStr (column_name c));
                               ("type", PStr (column_type c))]) cols).
Proof.
  induction cols as [| c cols IH]; [reflexivity |].
  cbn [map mapM]. rewrite IH. reflexivity.
Qed.



(** Text that is no name of the catalog is the engine's to read: the store
    holds nothing under the qualified name, and the dictionary describes
    what the engine answers. *)
Example get_table_info_qualified_name :
  PubLogDatabase.get_table_info Cases.metadata_views ∅
    "information_schema.tables"
  = PDict [("table_name", PStr "information_schema.tables");
           ("row_count", PInt 0);
           ("columns",
            PList [PDict [("name", PStr "table_catalog");
                          ("type", PStr "VARCHAR")];
                   PDict [("name", PStr "table_name");
                          ("type", PStr "VARCHAR")]])].
Proof. reflexivity. Qed.

Lemma is_table_indexed_lookup (st : store) (table_name : string) :
  PubLogDatabase.is_table_indexed st table_name
  = bool_decide (is_Some (st !! Py.upper table_name)).
Proof.
  unfold PubLogDatabase.is_table_indexed, PubLogDatabase.count_tables_named.
  destruct (st !! Py.upper table_name); [| by rewrite bool_decide_false by (by intros [? ?])].
  by rewrite bool_decide_true by eauto.
Qed.

(** A load without [force] that reports success leaves the table indexed. *)
Lemma index_csv_file_indexes (fs : files) (table_name file_path : string)
    (st : store) :
  (PubLogDatabase.index_csv_file fs table_name file_path false st).1 = true ->
  PubLogDatabase.is_table_indexed
    (PubLogDatabase.index_csv_file fs table_name file_path false st).2
    table_name = true.
Proof.
  unfold PubLogDatabase.index_csv_file.
  destruct (path_exists fs file_path); cbn [negb]; [| discriminate].
  destruct (PubLogDatabase.is_table_indexed st table_name) eqn:Hindexed;
    cbn [andb negb]; [done |].
  destruct (read_csv_auto fs file_path) as [rel |]; [| discriminate].
  unfold PubLogDatabase.create_table_as.
  destruct (st !! Py.upper table_name) eqn:Hlookup; [discriminate |].
  intros _.
  unfold PubLogDatabase.count_rows. rewrite lookup_insert_eq. cbn.
  rewrite is_table_indexed_lookup, lookup_insert_eq.
  by rewrite bool_decide_true by eauto.
Qed.

(** C6, amended.  For a table whose source exists: when a load without
    [force] reports success, a second one reports success as well and leaves
    the store as it is, so the relation is there with the same row count. *)
Theorem index_csv_file_idempotent (fs : files) (table_name file_path : string)
    (st : store) :
  path_exists fs file_path = true ->
  (PubLogDatabase.index_csv_file fs table_name file_path false st).1 = true ->
  let st1 := (PubLogDatabase.index_csv_file fs table_name file_path false st).2 in
  let second := PubLogDatabase.index_csv_file fs table_name file_path false st1 in
  second = (true, st1)
  /\ (exists n, PubLogDatabase.count_rows st1 table_name = Ok n
                /\ PubLogDatabase.count_rows second.2 table_name = Ok n).
Proof.
  intros Hexists Hfirst st1 second.
  pose proof (index_csv_file_indexes _ _ _ _ Hfirst) as Hindexed.
  fold st1 in Hindexed.
  assert (second = (true, st1)) as Hsecond.
  { unfold second, PubLogDatabase.index_csv_file.
    by rewrite Hexists, Hindexed. }
  split; [done |]. rewrite Hsecond. cbn.
  rewrite is_table_indexed_lookup in Hindexed.
  apply bool_decide_eq_true in Hindexed as [rel Hrel].
  exists (Z.of_nat (length (tuples rel))).
  unfold PubLogDatabase.count_rows. by rewrite Hrel.
Qed.

Lemma index_csv_file_idempotent_witness :
  let st1 := (PubLogDatabase.index_csv_file Sample.readable "P_CAGE" "P_CAGE.CSV"
                false ∅).2 in
  PubLogDatabase.index_csv_file Sample.readable "P_CAGE" "P_CAGE.CSV" false st1
  = (true, st1).
Proof.
  apply (index_csv_file_idempotent Sample.readable "P_CAGE" "P_CAGE.CSV" ∅);
    reflexivity.
Defined.

(** The first load succeeds when the table is already indexed, and when the
    engine can read the source into a table that is not there yet. *)
Lemma index_csv_file_succeeds (fs : files) (table_name file_path : string)
    (st : store) :
  path_exists fs file_path = true ->
  PubLogDatabase.is_table_indexed st table_name = true
  \/ (exists rel, read_csv_auto fs file_path = Ok rel) ->
  (PubLogDatabase.index_csv_file fs table_name file_path false st).1 = true.
Proof.
  intros Hexists Hcase. unfold PubLogDatabase.index_csv_file.
  rewrite Hexists. cbn [negb].
  destruct (PubLogDatabase.is_table_indexed st table_name) eqn:Hindexed;
    cbn [andb negb]; [done |].
  destruct Hcase as [? | [rel Hread]]; [done |]. rewrite Hread.
  rewrite is_table_indexed_lookup in Hindexed.
  apply bool_decide_eq_false in Hindexed.
  unfold PubLogDatabase.create_table_as.
  destruct (st !! Py.upper table_name) eqn:Hlookup; [by destruct Hindexed; eauto |].
  unfold PubLogDatabase.count_rows. by rewrite lookup_insert_eq.
Qed.

(** C6 as stated fails: the source exists, the engine cannot read it, and
    both loads report failure. *)
Lemma index_csv_file_unreadable_source :
  path_exists Sample.unreadable "P_CAGE.CSV" = true
  /\ PubLogDatabase.index_csv_file Sample.unreadable "P_CAGE" "P_CAGE.CSV" false ∅
     = (false, ∅)
  /\ (PubLogDatabase.index_csv_file Sample.unreadable "P_CAGE" "P_CAGE.CSV" false
        (PubLogDatabase.index_csv_file Sample.unreadable "P_CAGE" "P_CAGE.CSV"
           false ∅).2).1 = false.
Proof. repeat split. Qed.

(** ** The sweeps *)

(** Two folds that step in lockstep stay related. *)
Lemma foldl_related {A B C} (R : B -> C -> Prop) (f : B -> A -> B)
    (g : C -> A -> C) (l : list A) (b : B) (c : C) :
  R b c -> (forall b c a, R b c -> R (f b a) (g c a)) ->
  R (foldl f b l) (foldl g c l).
Proof.
  intros Hstart Hstep. revert b c Hstart.
  induction l as [| a l IH]; intros b c Hstart; [done |].
  cbn. apply IH, Hstep, Hstart.
Qed.

Section recorded_sweeps.

Context {S : Type}.
Variable load : string -> string -> bool -> S -> bool * S.
Variable DATA_DIR : string.

Lemma index_tier_recording (tier : list string) (force : bool) (st : S)
    (log : list (string * bool)) :
  erased (PubLogDatabase.index_tier load DATA_DIR tier force st)
         (PubLogDatabase.index_tier (recording load) DATA_DIR
            tier force (st, log)).
Proof.
  unfold PubLogDatabase.index_tier.
  apply (foldl_related erased); [done |].
  intros [results st'] [results' [st'' log']] table_name [Hresults Hstate].
  cbn in Hresults, Hstate. subst results' st''.
  destruct (Py.dict_get table_name _); [| done].
  done.
Qed.

Lemma index_all_tables_recording (force : bool) (st : S) :
  erased (PubLogDatabase.index_all_tables load DATA_DIR force st)
         (PubLogDatabase.index_all_tables (recording load)
            DATA_DIR force (st, [])).
Proof.
  unfold PubLogDatabase.index_all_tables, PubLogDatabase.index_priority_tables,
    PubLogDatabase.index_large_tables.
  generalize (index_tier_recording Config.PRIORITY_TABLES force st []).
  generalize (PubLogDatabase.index_tier load DATA_DIR Config.PRIORITY_TABLES
                force st).
  generalize (PubLogDatabase.index_tier (recording load)
                DATA_DIR Config.PRIORITY_TABLES force (st, [])).
  intros [presults' [pst' plog']] [presults pst] [Hp1 Hp2].
  cbn [fst snd] in *. subst presults' pst'.
  generalize (index_tier_recording Config.LARGE_TABLES force pst plog').
  generalize (PubLogDatabase.index_tier load DATA_DIR Config.LARGE_TABLES
                force pst).
  generalize (PubLogDatabase.index_tier (recording load)
                DATA_DIR Config.LARGE_TABLES force (pst, plog')).
  intros [lresults' [lst' llog']] [lresults lst] [Hl1 Hl2].
  cbn [fst snd] in *. subst lresults' lst'.
  generalize (PubLogDatabase.get_all_data_files DATA_DIR).
  generalize (Py.dict_update (Py.dict_update [] presults) lresults).
  intros results all_files.
  apply (foldl_related erased); [done |].
  intros [results1 st1] [results2 [st2 log2]] entry [Hresults Hstate].
  cbn [fst snd] in *. subst results2 st2.
  by destruct (negb (Py.dict_has entry.1 results1)).
Qed.

End recorded_sweeps.

(** The catalog names outside both tiers, in catalog order. *)
Lemma untiered_tables (DATA_DIR : string) :
  filter (fun name => name ∉ Config.PRIORITY_TABLES ++ Config.LARGE_TABLES)
         (Py.dict_keys (PubLogDatabase.get_all_data_files DATA_DIR))
  = ["V_CAGE_ADDRESS"; "V_CAGE_STATUS_AND_TYPE";
     "V_ITEM_IDENTIFICATION_HISTORY"; "V_MANAGEMENT_HISTORY";
     "V_REFERENCE_NUMBER_HISTORY";
     "MRD0107"; "MRD0300"; "MRD0500"; "MRD06P1"; "MRD06P2"].
Proof. vm_compute. reflexivity. Qed.

(** C8.  A sweep of [index_all_tables], with the calls of [index_csv_file]
    recorded: the tables are attempted in the order priority tier, large
    tier, remaining catalog entries; every catalog name is attempted exactly
    once; and the results dictionary is the record of the attempts, name by
    name in that order, so no entry was ever written twice.  Recording
    changes neither the results nor the final state. *)
Theorem index_all_tables_attempts_each_once {S : Type}
    (load : string -> string -> bool -> S -> bool * S)
    (DATA_DIR : string) (force : bool) (st : S) :
  let swept :=
    PubLogDatabase.index_all_tables (recording load) DATA_DIR
      force (st, []) in
  let attempts := swept.2.2 in
  attempts.*1
  = Config.PRIORITY_TABLES ++ Config.LARGE_TABLES
    ++ filter (fun name => name ∉ Config.PRIORITY_TABLES ++ Config.LARGE_TABLES)
         (Py.dict_keys (PubLogDatabase.get_all_data_files DATA_DIR))
  /\ NoDup attempts.*1
  /\ attempts.*1 ≡ₚ Py.dict_keys (PubLogDatabase.get_all_data_files DATA_DIR)
  /\ swept.1 = attempts
  /\ swept.1 = (PubLogDatabase.index_all_tables load DATA_DIR force st).1
  /\ swept.2.1 = (PubLogDatabase.index_all_tables load DATA_DIR force st).2.
Proof.
  intros swept attempts.
  assert (attempts.*1
          = Config.PRIORITY_TABLES ++ Config.LARGE_TABLES
            ++ ["V_CAGE_ADDRESS"; "V_CAGE_STATUS_AND_TYPE";
                "V_ITEM_IDENTIFICATION_HISTORY"; "V_MANAGEMENT_HISTORY";
                "V_REFERENCE_NUMBER_HISTORY";
                "MRD0107"; "MRD0300"; "MRD0500"; "MRD06P1"; "MRD06P2"])
    as Horder by (vm_compute; reflexivity).
  split; [by rewrite untiered_tables |].
  split; [rewrite Horder; refine (bool_decide_unpack _ _); vm_compute; exact I |].
  split.
  { rewrite Horder.
    replace (Py.dict_keys (PubLogDatabase.get_all_data_files DATA_DIR))
      with (Py.dict_keys (PubLogDatabase.get_all_data_files ""))
      by (vm_compute; reflexivity).
    refine (bool_decide_unpack _ _). vm_compute. exact I. }
  split; [vm_compute; reflexivity |].
  apply (index_all_tables_recording load DATA_DIR force st).
Qed.

(** ** Statement texts *)

Lemma same_texts_filters_location (s c k s' c' k' : option string) :
  Py.truthy s = Py.truthy s' -> Py.truthy c = Py.truthy c' ->
  Py.truthy k = Py.truthy k' ->
  (CAGEService.location_filters s c k).1
  = (CAGEService.location_filters s' c' k').1.
Proof.
  unfold CAGEService.location_filters, Py.when_truthy, Py.truthy.
  intros Hs Hc Hk.
  destruct s as [s |], s' as [s' |]; cbn in Hs; try rewrite Hs;
    try rewrite <- Hs;
    (destruct c as [c |], c' as [c' |]; cbn in Hc; try rewrite Hc;
       try rewrite <- Hc);
    (destruct k as [k |], k' as [k' |]; cbn in Hk; try rewrite Hk;
       try rewrite <- Hk);
    repeat match goal with
           | |- context [Py.truthy_str ?x] => destruct (Py.truthy_str x)
           end; reflexivity.
Qed.

Lemma same_texts_filters_search (q q' : string) (f f' : option string) :
  Py.truthy_str q = Py.truthy_str q' -> fsc_kind f = fsc_kind f' ->
  (NSNService.search_filters q f).1 = (NSNService.search_filters q' f').1.
Proof.
  unfold NSNService.search_filters, fsc_kind, numeric.
  intros Hq Hf. rewrite <- Hq.
  destruct (Py.truthy_str q);
    destruct (Py.when_truthy f) as [s |], (Py.when_truthy f') as [s' |];
    split_numeric; try discriminate; reflexivity.
Qed.

(** C3, amended.  Two calls of the same operation whose arguments take the
    same branches hand the same statement texts to the store, whenever the
    engine answers them alike: the text is fixed by the operation and the
    shape of its arguments, and the values travel in the parameter lists
    only.  [ItemNameService.get_all], which formats its limit into the text,
    is left out. *)
Theorem statement_texts_fixed_by_shape (op1 op2 : operation) :
  alike op1 op2 -> formats_argument op1 = false ->
  same_texts (program op1) (program op2).
Proof.
  destruct op1, op2; cbn [alike formats_argument]; try (intros []; fail);
    try discriminate; intros Halike _; unfold program.
  - unfold CAGEService.get_by_code. same_texts_auto.
  - unfold CAGEService.search. same_texts_auto.
  - destruct Halike as (Hs & Hc & Hk).
    pose proof (same_texts_filters_location _ _ _ _ _ _ Hs Hc Hk) as Hsame.
    unfold CAGEService.search_by_location.
    destruct (CAGEService.location_filters state city country) as [cs ps].
    destruct (CAGEService.location_filters state0 city0 country0) as [cs' ps'].
    cbn in Hsame. subst cs'.
    destruct (negb (Py.truthy_list cs)); same_texts_auto.
  - unfold CAGEService.get_stats. same_texts_auto.
  - unfold FSCService.get_all_fsg. same_texts_auto.
  - unfold FSCService.get_all_fsc. same_texts_auto.
  - unfold FSCService.get_fsc_by_code, try_except_ValueError, int_of_str,
      numeric in *.
    split_numeric; try discriminate; same_texts_auto.
  - unfold FSCService.get_fsc_by_fsg, try_except_ValueError, int_of_str,
      numeric in *.
    split_numeric; try discriminate; same_texts_auto.
  - unfold FSCService.search_fsc, try_except_ValueError, int_of_str,
      numeric in *.
    split_numeric; try discriminate; same_texts_auto.
  - unfold NSNService.get_by_niin. same_texts_auto.
  - destruct Halike as (Hq & Hf).
    pose proof (same_texts_filters_search _ _ _ _ Hq Hf) as Hsame.
    unfold NSNService.search.
    destruct (NSNService.search_filters q fsc) as [cs ps].
    destruct (NSNService.search_filters q0 fsc0) as [cs' ps'].
    cbn in Hsame. subst cs'. same_texts_auto.
  - unfold NSNService.get_by_fsc, try_except_ValueError, int_of_str,
      numeric in *.
    split_numeric; try discriminate; same_texts_auto.
  - unfold NSNService.get_management_data. same_texts_auto.
  - unfold NSNService.get_characteristics. same_texts_auto.
  - unfold ItemNameService.get_by_inc. same_texts_auto.
  - unfold ItemNameService.search. same_texts_auto.
  - destruct Halike as (Hq & Hn).
    pose proof (same_texts_filters_search _ _ None None Hq eq_refl) as Hsame.
    unfold UnifiedSearchService.search_all, CAGEService.search,
      FSCService.search_fsc, NSNService.search, ItemNameService.search,
      try_except_ValueError, int_of_str, numeric in *.
    destruct (NSNService.search_filters q None) as [cs ps].
    destruct (NSNService.search_filters q0 None) as [cs' ps'].
    cbn in Hsame. subst cs'.
    split_numeric; try discriminate; same_texts_auto.
Qed.

Lemma statement_texts_fixed_by_shape_witness :
  same_texts (program (FscGetByCode "5820")) (program (FscGetByCode "1005")).
Proof. apply statement_texts_fixed_by_shape; reflexivity. Defined.

(** What [same_texts] gives for runs: with an engine that does not look at
    the bound parameters, both programs hand over the same texts. *)
Lemma same_texts_statements {A} (E : engine) (p p' : prog A) :
  same_texts p p' -> parameter_blind E ->
  statements (calls E p) = statements (calls E p').
Proof.
  intros Hsame Hblind. unfold calls.
  induction Hsame as [a b | e e' | sql ps ps' k k' _ IH | t k k' _ IH]; cbn.
  - done.
  - done.
  - rewrite (Hblind sql ps ps'). f_equal. apply IH.
  - apply IH.
Qed.

(** C3 as stated fails: the text of the class lookup depends on whether the
    code given is numeric. *)
Lemma statement_text_depends_on_code :
  statements (calls Sample.offline (FSCService.get_fsc_by_code "5820"))
  = ["SELECT * FROM V_H2_FSC WHERE FSC = ? LIMIT 1"]
  /\ statements (calls Sample.offline (FSCService.get_fsc_by_code "58A0"))
     = ["SELECT * FROM V_H2_FSC WHERE CAST(FSC AS VARCHAR) = ? LIMIT 1"]
  /\ statements (calls Sample.offline (FSCService.get_fsc_by_code "5820"))
     <> statements (calls Sample.offline (FSCService.get_fsc_by_code "58A0")).
Proof. repeat split. vm_compute. discriminate. Qed.

(** [get_all] puts its limit into the statement text and binds nothing. *)
Lemma get_all_formats_limit :
  calls Sample.offline (ItemNameService.get_all 5)
  = [CallExecute "
            SELECT * FROM V_H6_NAME_INC
            ORDER BY FIIG_TITLE
            LIMIT 5
        " []]
  /\ calls Sample.offline (ItemNameService.get_all 1000)
     = [CallExecute "
            SELECT * FROM V_H6_NAME_INC
            ORDER BY FIIG_TITLE
            LIMIT 1000
        " []].
Proof. split; vm_compute; reflexivity. Qed.

(** ** Stock numbers *)

(** With the primary relation indexed, an empty term and no FSC filter make
    one statement, unfiltered, with limit and offset bound in that order;
    the result is the engine's answer to it. *)
Lemma search_unfiltered_statement (E : engine) (limit offset : Z) :
  table_indexed E "P_FLIS_NSN" = true ->
  run E (NSNService.search "" None limit offset)
  = (map_outcome (fun c => map (Py.dict_of_zip (description c)) (fetchall c))
       (execute E "
            SELECT * FROM P_FLIS_NSN
            WHERE 1=1
            LIMIT ? OFFSET ?
        " [VInt limit; VInt offset]),
     [CallIsTableIndexed "P_FLIS_NSN";
      CallExecute "
            SELECT * FROM P_FLIS_NSN
            WHERE 1=1
            LIMIT ? OFFSET ?
        " [VInt limit; VInt offset]]).
Proof.
  intros Hindexed. cbn. rewrite Hindexed. cbn.
  by destruct (execute E _ _).
Qed.

(** C10.  With [P_FLIS_NSN] indexed, [search] with an empty term and no FSC
    filter does not fall back to the empty list of the unindexed case and
    raises nothing, for a limit and an offset that are not negative and fit
    the engine's 64-bit row counts: it sends the unfiltered statement
    ([WHERE 1=1]) with limit and offset bound, and returns the rows of the
    relation after the first [offset], at most [limit] of them.  That page
    is not empty when the relation has more than [offset] rows and the limit
    is positive. *)
Theorem search_without_terms_pages (st : store)
    (other : string -> list value -> outcome cursor) (rel : relation)
    (limit offset : Z) :
  st !! "P_FLIS_NSN" = Some rel ->
  0 <= limit < 2 ^ 63 -> 0 <= offset < 2 ^ 63 ->
  let page := take (Z.to_nat limit) (drop (Z.to_nat offset) (tuples rel)) in
  run (Duck.engine st other) (NSNService.search "" None limit offset)
  = (Ok (map (Py.dict_of_zip (column_name <$> columns rel)) page),
     [CallIsTableIndexed "P_FLIS_NSN";
      CallExecute "
            SELECT * FROM P_FLIS_NSN
            WHERE 1=1
            LIMIT ? OFFSET ?
        " [VInt limit; VInt offset]])
  /\ (0 < limit -> (Z.to_nat offset < length (tuples rel))%nat -> page <> []).
Proof.
  intros Hrel Hlimit Hoffset page. split.
  - rewrite search_unfiltered_statement.
    + cbn. unfold Duck.select_page, Duck.row_count.
      change (Py.upper "P_FLIS_NSN") with "P_FLIS_NSN".
      rewrite Hrel.
      destruct (Z.leb_spec 0 limit); [| lia].
      destruct (Z.leb_spec 0 offset); [| lia].
      destruct (Z.ltb_spec limit (2 ^ 63)); [| lia].
      destruct (Z.ltb_spec offset (2 ^ 63)); [| lia]. reflexivity.
    + cbn. rewrite is_table_indexed_lookup.
      change (Py.upper "P_FLIS_NSN") with "P_FLIS_NSN".
      rewrite Hrel. by rewrite bool_decide_true by eauto.
  - intros Hpositive Hmore Hempty.
    apply (f_equal length) in Hempty. unfold page in Hempty.
    rewrite length_take, length_drop in Hempty. cbn in Hempty. lia.
Qed.

Lemma search_without_terms_pages_witness :
  run (Duck.engine Sample.stock_numbers Sample.no_answers)
      (NSNService.search "" None 1 1)
  = (Ok [[("FSC", VInt 5895); ("NIIN", VText "012345678");
          ("ITEM_NAME", VText "ANTENNA")]],
     [CallIsTableIndexed "P_FLIS_NSN";
      CallExecute "
            SELECT * FROM P_FLIS_NSN
            WHERE 1=1
            LIMIT ? OFFSET ?
        " [VInt 1; VInt 1]]).
Proof.
  refine (proj1 (search_without_terms_pages Sample.stock_numbers
                   Sample.no_answers Sample.stock_relation 1 1 _ _ _)).
  - reflexivity.
  - lia.
  - lia.
Defined.

(** Beyond the 64-bit range the engine refuses the page: the statement is
    sent and its error is the outcome of the search. *)
Example search_without_terms_out_of_range :
  run (Duck.engine Sample.stock_numbers Sample.no_answers)
      (NSNService.search "" None 10 (2 ^ 63))
  = (Raised (QueryError "Out of Range Error: LIMIT and OFFSET must be in range"),
     [CallIsTableIndexed "P_FLIS_NSN";
      CallExecute "
            SELECT * FROM P_FLIS_NSN
            WHERE 1=1
            LIMIT ? OFFSET ?
        " [VInt 10; VInt (2 ^ 63)]]).
Proof. vm_compute. reflexivity. Qed.

(** The fallback chain, for any engine: when the primary relation is not
    indexed, or its lookup finds no row, and [FLISV] is indexed, the [FLISV]
    lookup is sent and its first row is the result. *)
Lemma get_by_niin_fallback_run (E : engine) (niin : string) (c : cursor)
    (t : list value) (rest : list (list value)) :
  table_indexed E "P_FLIS_NSN" = false
  \/ (exists c0, execute E "SELECT * FROM P_FLIS_NSN WHERE NIIN = ? LIMIT 1"
                   [VText niin] = Ok c0 /\ fetchall c0 = []) ->
  table_indexed E "FLISV" = true ->
  execute E "SELECT * FROM FLISV WHERE NIIN = ? LIMIT 1" [VText niin] = Ok c ->
  fetchall c = t :: rest ->
  result E (NSNService.get_by_niin niin)
  = Ok (Some (Py.dict_of_zip (description c) t))
  /\ CallExecute "SELECT * FROM FLISV WHERE NIIN = ? LIMIT 1" [VText niin]
     ∈ calls E (NSNService.get_by_niin niin).
Proof.
  intros Hprimary Hindexed Hflisv Hrows.
  unfold result, calls, NSNService.get_by_niin. cbn.
  destruct (table_indexed E "P_FLIS_NSN") eqn:Hp; cbn.
  - destruct Hprimary as [? | (c0 & Hc0 & Hnone)]; [done |].
    rewrite Hc0. cbn. rewrite Hnone. cbn. rewrite Hindexed. cbn.
    rewrite Hflisv. cbn. rewrite Hrows. cbn. split; [done |].
    repeat constructor.
  - rewrite Hindexed. cbn. rewrite Hflisv. cbn. rewrite Hrows. cbn.
    split; [done |]. repeat constructor.
Qed.

(** A condition that is defined on every tuple selects, in table order, a
    first tuple that satisfies it, if one does. *)
Lemma where_defined (cond : list value -> outcome bool)
    (ts : list (list value)) :
  Forall (fun t => exists b, cond t = Ok b) ts ->
  exists kept, Duck.where_ cond ts = Ok kept.
Proof.
  induction 1 as [| t ts [b Hb] _ [kept IH]]; cbn; [eauto |].
  rewrite Hb, IH. eauto.
Qed.

Lemma where_finds (cond : list value -> outcome bool)
    (ts : list (list value)) :
  Forall (fun t => exists b, cond t = Ok b) ts ->
  Exists (fun t => cond t = Ok true) ts ->
  exists t rest,
    Duck.where_ cond ts = Ok (t :: rest) /\ t ∈ ts /\ cond t = Ok true.
Proof.
  intros Hdefined. induction Hdefined as [| u ts [b Hb] Hts IH];
    intros Hexists; [by apply Exists_nil in Hexists |].
  destruct (where_defined cond ts Hts) as [kept Hkept].
  cbn. rewrite Hb, Hkept. destruct b.
  - exists u, kept. repeat split; [| done]. apply list_elem_of_here.
  - apply Exists_cons in Hexists as [Hhere | Hlater]; [congruence |].
    destruct (IH Hlater) as (t & rest & Hwhere & Hin & Hcond).
    exists t, rest. rewrite Hwhere in Hkept. repeat split; [congruence | | done].
    by apply list_elem_of_further.
Qed.

(** C4.  [get_by_niin] follows the fallback chain.  When the primary
    relation [P_FLIS_NSN] is not indexed, or its lookup yields no row for
    the key, and [FLISV] is loaded and holds the key, the [FLISV] lookup is
    sent and the call returns a record of [FLISV] with that key, not
    [None]. *)
Theorem get_by_niin_falls_back (st : store)
    (other : string -> list value -> outcome cursor) (niin : string)
    (flisv : relation) (i : nat) :
  st !! "P_FLIS_NSN" = None
  \/ (exists c0, Duck.execute st other
                   "SELECT * FROM P_FLIS_NSN WHERE NIIN = ? LIMIT 1"
                   [VText niin] = Ok c0 /\ fetchall c0 = []) ->
  st !! "FLISV" = Some flisv ->
  Duck.column_index "NIIN" (columns flisv) = Some i ->
  Forall (fun t => exists b, Duck.equal (Duck.cell i t) (VText niin) = Ok b)
         (tuples flisv) ->
  Exists (fun t => Duck.equal (Duck.cell i t) (VText niin) = Ok true)
         (tuples flisv) ->
  exists t,
    t ∈ tuples flisv
    /\ Duck.equal (Duck.cell i t) (VText niin) = Ok true
    /\ result (Duck.engine st other) (NSNService.get_by_niin niin)
       = Ok (Some (Py.dict_of_zip (column_name <$> columns flisv) t))
    /\ CallExecute "SELECT * FROM FLISV WHERE NIIN = ? LIMIT 1" [VText niin]
       ∈ calls (Duck.engine st other) (NSNService.get_by_niin niin).
Proof.
  intros Hprimary Hflisv Hcolumn Hdefined Hexists.
  destruct (where_finds _ _ Hdefined Hexists) as (t & rest & Hwhere & Hin & Hkey).
  exists t. split; [done |]. split; [done |].
  refine (get_by_niin_fallback_run (Duck.engine st other) niin
            (Cursor (column_name <$> columns flisv) [t]) t [] _ _ _ eq_refl).
  - destruct Hprimary as [Hnone | Hempty]; [left | by right].
    cbn. rewrite is_table_indexed_lookup.
    change (Py.upper "P_FLIS_NSN") with "P_FLIS_NSN". rewrite Hnone.
    by rewrite bool_decide_false by (by intros [? ?]).
  - cbn. rewrite is_table_indexed_lookup.
    change (Py.upper "FLISV") with "FLISV". rewrite Hflisv.
    by rewrite bool_decide_true by eauto.
  - cbn. unfold Duck.execute. cbn. unfold Duck.select_by_key.
    change (Py.upper "FLISV") with "FLISV".
    rewrite Hflisv, Hcolumn, Hwhere. reflexivity.
Qed.

Lemma get_by_niin_falls_back_witness :
  exists t,
    t ∈ tuples Sample.flisv_relation
    /\ Duck.equal (Duck.cell 0 t) (VText "012345678") = Ok true
    /\ result (Duck.engine Sample.only_flisv Sample.no_answers)
              (NSNService.get_by_niin "012345678")
       = Ok (Some (Py.dict_of_zip
                     (column_name <$> columns Sample.flisv_relation) t))
    /\ CallExecute "SELECT * FROM FLISV WHERE NIIN = ? LIMIT 1"
                   [VText "012345678"]
       ∈ calls (Duck.engine Sample.only_flisv Sample.no_answers)
               (NSNService.get_by_niin "012345678").
Proof.
  apply (get_by_niin_falls_back Sample.only_flisv Sample.no_answers
           "012345678" Sample.flisv_relation 0).
  - left. reflexivity.
  - reflexivity.
  - reflexivity.
  - repeat constructor; eexists; reflexivity.
  - apply Exists_cons_tl, Exists_cons_hd. reflexivity.
Defined.

(** The record the sample lookup returns. *)
Example get_by_niin_only_flisv :
  result (Duck.engine Sample.only_flisv Sample.no_answers)
         (NSNService.get_by_niin "012345678")
  = Ok (Some [("NIIN", VText "012345678"); ("PMIC", VText "U")]).
Proof. vm_compute. reflexivity. Qed.

(** ** Groups *)

(** What [CAST(FSC / 100 AS INTEGER)] is for every four-digit class code:
    the hundredth rounded to the nearest integer, not cut. *)
Lemma cast_hundredth_rounds (c : Z) :
  0 <= c < 10000 ->
  Duck.cast_hundredth (VInt c) = Ok (VInt (rounded_hundredth c)).
Proof.
  intros Hrange.
  assert (forallb rounds_as_engine (seqZ 0 10000) = true) as Hall
    by (vm_compute; reflexivity).
  rewrite forallb_forall in Hall.
  specialize (Hall c). unfold rounds_as_engine in Hall.
  destruct (Duck.cast_hundredth (VInt c)) as [[| g | |] |];
    try (discriminate Hall; apply list_elem_of_In, elem_of_seqZ; lia).
  f_equal. f_equal. apply Z.eqb_eq, Hall.
  apply list_elem_of_In, elem_of_seqZ. lia.
Qed.

(** The group is the floor of the hundredth exactly for the codes whose last
    two digits are at most 50 (a half goes to the even side, which for 50 is
    the floor when the group is even). *)
Lemma rounded_hundredth_floor (c : Z) :
  c mod 100 < 50 -> rounded_hundredth c = c / 100.
Proof.
  intros Hlow. unfold rounded_hundredth.
  by destruct (Z.ltb_spec (c mod 100) 50); [| lia].
Qed.

Lemma rounded_hundredth_up (c : Z) :
  50 < c mod 100 -> rounded_hundredth c = c / 100 + 1.
Proof.
  intros Hhigh. unfold rounded_hundredth.
  destruct (Z.ltb_spec (c mod 100) 50); [lia |].
  by destruct (Z.ltb_spec 50 (c mod 100)); [| lia].
Qed.

(** C2, the code at a class table with the codes 5820 and 5895 of group 58:
    [get_all_fsg] lists two groups, 58 and 59, because the engine divides in
    floating point and the cast rounds 58.95 up; class div 100 is 58 for
    both. *)
Theorem get_all_fsg_rounds_group (other : string -> list value -> outcome cursor) :
  result (Duck.engine Sample.group_58 other) FSCService.get_all_fsg
  = Ok [[("FSG", VInt 58); ("FSG_TITLE", VText Sample.communication)];
        [("FSG", VInt 59); ("FSG_TITLE", VText Sample.communication)]]
  /\ 5820 / 100 = 58 /\ 5895 / 100 = 58.
Proof. repeat split. Qed.

(** The instance of the group derivation that the specification tests: the
    codes 5820 and 5821 give the one group 58. *)
Example get_all_fsg_radio_classes (other : string -> list value -> outcome cursor) :
  result (Duck.engine Sample.radio_classes other) FSCService.get_all_fsg
  = Ok [[("FSG", VInt 58); ("FSG_TITLE", VText Sample.communication)]].
Proof. reflexivity. Qed.
(** ** Python helpers on samples *)

Example upper_mixed : Py.upper "Los Angeles, ca-9" = "LOS ANGELES, CA-9".
Proof. reflexivity. Qed.

Example int_plain : Py.int "5820" = Some 5820.
Proof. reflexivity. Qed.

Example int_padded : Py.int "  -0_58 " = Some (-58).
Proof. reflexivity. Qed.

(** A separator character is white space to [strip()] and not to
    [int()]. *)
Example int_separator :
  Py.int (String (Ascii.ascii_of_nat 28) "5820") = None
  /\ Py.strip Py.is_space (list_ascii_of_string
                             (String (Ascii.ascii_of_nat 28) "5820"))
     = list_ascii_of_string "5820".
Proof. split; reflexivity. Qed.

Example int_text : Py.int "58A0" = None.
Proof. reflexivity. Qed.

Example int_empty : Py.int "" = None.
Proof. reflexivity. Qed.

Example int_trailing_underscore : Py.int "58_" = None.
Proof. reflexivity. Qed.

Example slice_to_positive : Py.slice_to 2 [1; 2; 3] = [1; 2].
Proof. reflexivity. Qed.

Example slice_to_negative : Py.slice_to (-1) [1; 2; 3] = [1; 2].
Proof. reflexivity. Qed.

Example dict_set_keeps_position :
  Py.dict_set "a" 9 [("a", 1); ("b", 2)] = [("a", 9); ("b", 2)].
Proof. reflexivity. Qed.

(** * Further results *)

(** ** Loading one table *)

(** X1.  When the source exists, the flag [index_csv_file] returns tells
    exactly whether the relation is in the store afterwards, with or without
    [force]: a reported failure never leaves a relation behind, a reported
    success always does. *)
Theorem index_csv_file_flag_is_presence (fs : files)
    (table_name file_path : string) (force : bool) (st : store) :
  path_exists fs file_path = true ->
  (PubLogDatabase.index_csv_file fs table_name file_path force st).1
  = PubLogDatabase.is_table_indexed
      (PubLogDatabase.index_csv_file fs table_name file_path force st).2
      table_name.
Proof.
  intros Hexists. unfold PubLogDatabase.index_csv_file.
  rewrite Hexists. cbn [negb].
  destruct (PubLogDatabase.is_table_indexed st table_name) eqn:Hindexed,
    force; cbn [andb negb fst snd].
  - unfold PubLogDatabase.create_table_as, PubLogDatabase.drop_table_if_exists,
      PubLogDatabase.count_rows.
    rewrite lookup_delete_eq.
    destruct (read_csv_auto fs file_path) as [rel |]; cbn.
    + rewrite lookup_insert_eq. cbn.
      rewrite is_table_indexed_lookup, lookup_insert_eq.
      by rewrite bool_decide_true by eauto.
    + rewrite is_table_indexed_lookup, lookup_delete_eq.
      by rewrite bool_decide_false by (by intros [? ?]).
  - by rewrite Hindexed.
  - unfold PubLogDatabase.create_table_as, PubLogDatabase.drop_table_if_exists,
      PubLogDatabase.count_rows.
    rewrite lookup_delete_eq.
    destruct (read_csv_auto fs file_path) as [rel |]; cbn.
    + rewrite lookup_insert_eq. cbn.
      rewrite is_table_indexed_lookup, lookup_insert_eq.
      by rewrite bool_decide_true by eauto.
    + rewrite is_table_indexed_lookup, lookup_delete_eq.
      by rewrite bool_decide_false by (by intros [? ?]).
  - pose proof Hindexed as Habsent.
    rewrite is_table_indexed_lookup in Habsent.
    apply bool_decide_eq_false in Habsent.
    unfold PubLogDatabase.create_table_as, PubLogDatabase.count_rows.
    destruct (st !! Py.upper table_name) eqn:Hlookup;
      [by destruct Habsent; eauto |].
    destruct (read_csv_auto fs file_path) as [rel |]; cbn.
    + rewrite lookup_insert_eq. cbn.
      rewrite is_table_indexed_lookup, lookup_insert_eq.
      by rewrite bool_decide_true by eauto.
    + by rewrite Hindexed.
Qed.

Lemma index_csv_file_flag_is_presence_witness :
  (PubLogDatabase.index_csv_file Sample.unreadable "P_CAGE" "P_CAGE.CSV" true
     Cases.loaded).1
  = PubLogDatabase.is_table_indexed
      (PubLogDatabase.index_csv_file Sample.unreadable "P_CAGE" "P_CAGE.CSV"
         true Cases.loaded).2 "P_CAGE".
Proof. apply index_csv_file_flag_is_presence. reflexivity. Defined.

(** X2.  A failed load leaves no partial relation: when [index_csv_file]
    returns [False] the store is as before, except that a forced load whose
    source exists has dropped the table.  In particular a forced reload whose
    file is gone keeps the relation that was loaded. *)
Theorem index_csv_file_failure (fs : files)
    (table_name file_path : string) (force : bool) (st : store) :
  (PubLogDatabase.index_csv_file fs table_name file_path force st).1 = false ->
  (PubLogDatabase.index_csv_file fs table_name file_path force st).2
  = if path_exists fs file_path && force
    then delete (Py.upper table_name) st else st.
Proof.
  unfold PubLogDatabase.index_csv_file.
  destruct (path_exists fs file_path); cbn [negb andb]; [| done].
  destruct (PubLogDatabase.is_table_indexed st table_name && negb force)
    eqn:Hskip; [discriminate |].
  destruct force.
  - unfold PubLogDatabase.create_table_as, PubLogDatabase.drop_table_if_exists,
      PubLogDatabase.count_rows.
    rewrite lookup_delete_eq.
    destruct (read_csv_auto fs file_path) as [rel |]; [| done].
    rewrite lookup_insert_eq. discriminate.
  - destruct (read_csv_auto fs file_path) as [rel |]; [| done].
    unfold PubLogDatabase.create_table_as, PubLogDatabase.count_rows.
    destruct (st !! Py.upper table_name); [done |].
    rewrite lookup_insert_eq. discriminate.
Qed.

Lemma index_csv_file_failure_witness :
  (PubLogDatabase.index_csv_file Cases.nothing_on_disk "P_CAGE" "P_CAGE.CSV"
     true Cases.loaded).2 = Cases.loaded.
Proof.
  apply (index_csv_file_failure Cases.nothing_on_disk "P_CAGE" "P_CAGE.CSV"
           true Cases.loaded).
  reflexivity.
Defined.

(** X3.  [index_csv_file] changes no relation but the one it is called for:
    every table of another name (names compared without case) is in the
    store afterwards exactly as before, whatever the outcome. *)
Theorem index_csv_file_frame (fs : files) (table_name file_path : string)
    (force : bool) (st : store) (other_name : string) :
  Py.upper other_name <> Py.upper table_name ->
  (PubLogDatabase.index_csv_file fs table_name file_path force st).2
    !! Py.upper other_name
  = st !! Py.upper other_name.
Proof.
  intros Hother. unfold PubLogDatabase.index_csv_file.
  destruct (negb (path_exists fs file_path)); [done |].
  destruct (PubLogDatabase.is_table_indexed st table_name && negb force);
    [done |].
  assert ((if force then PubLogDatabase.drop_table_if_exists table_name st
           else st) !! Py.upper other_name = st !! Py.upper other_name)
    as Hdropped.
  { destruct force; [| done].
    unfold PubLogDatabase.drop_table_if_exists.
    by rewrite lookup_delete_ne. }
  destruct (read_csv_auto fs file_path) as [rel |]; [| done].
  unfold PubLogDatabase.create_table_as.
  destruct (_ !! Py.upper table_name); [done |].
  unfold PubLogDatabase.count_rows. rewrite lookup_insert_eq. cbn.
  by rewrite lookup_insert_ne.
Qed.

Lemma index_csv_file_frame_witness :
  (PubLogDatabase.index_csv_file Sample.readable "V_H2_FSC" "V_H2_FSC.CSV" true
     Cases.loaded).2 !! Py.upper "p_cage"
  = Cases.loaded !! Py.upper "p_cage".
Proof. apply index_csv_file_frame. vm_compute. discriminate. Defined.

(** X4.  A forced reload replaces and never appends: when the engine reads
    the source as [rel], the call succeeds and the table is [rel], whatever
    the store held under that name; a second forced reload gives the same
    store again, so the row count is the source's both times. *)
Theorem index_csv_file_force_replaces (fs : files)
    (table_name file_path : string) (st : store) (rel : relation) :
  path_exists fs file_path = true ->
  read_csv_auto fs file_path = Ok rel ->
  let once := PubLogDatabase.index_csv_file fs table_name file_path true st in
  let twice :=
    PubLogDatabase.index_csv_file fs table_name file_path true once.2 in
  once = (true, <[Py.upper table_name := rel]> st)
  /\ twice = once
  /\ PubLogDatabase.count_rows twice.2 table_name
     = Ok (Z.of_nat (length (tuples rel))).
Proof.
  intros Hexists Hread once twice.
  assert (forall st', PubLogDatabase.index_csv_file fs table_name file_path
                        true st'
                      = (true, <[Py.upper table_name := rel]> st')) as Hforce.
  { intros st'. unfold PubLogDatabase.index_csv_file.
    rewrite Hexists, Hread, andb_false_r. cbn [negb].
    unfold PubLogDatabase.create_table_as, PubLogDatabase.drop_table_if_exists,
      PubLogDatabase.count_rows.
    rewrite lookup_delete_eq, lookup_insert_eq, insert_delete_eq. done. }
  assert (once = (true, <[Py.upper table_name := rel]> st)) as Honce
    by apply Hforce.
  assert (twice = once) as Htwice.
  { unfold twice. rewrite Hforce, Honce. cbn [snd].
    by rewrite insert_insert_eq. }
  split; [done |]. split; [done |].
  rewrite Htwice, Honce. cbn [snd].
  unfold PubLogDatabase.count_rows. by rewrite lookup_insert_eq.
Qed.

Lemma index_csv_file_force_replaces_witness :
  PubLogDatabase.index_csv_file Sample.readable "P_CAGE" "P_CAGE.CSV" true
    Cases.loaded
  = (true, <[Py.upper "P_CAGE" := Sample.contractors]> Cases.loaded).
Proof.
  apply (index_csv_file_force_replaces Sample.readable "P_CAGE" "P_CAGE.CSV"
           Cases.loaded Sample.contractors); reflexivity.
Defined.

(** X5.  A forced reload of a source the engine cannot read loses the
    relation: the table is dropped before the read, the call returns
    [False], and the table is not indexed afterwards even if it was. *)
Theorem index_csv_file_force_unreadable (fs : files)
    (table_name file_path : string) (st : store) (e : exn) :
  path_exists fs file_path = true ->
  read_csv_auto fs file_path = Raised e ->
  PubLogDatabase.index_csv_file fs table_name file_path true st
  = (false, delete (Py.upper table_name) st)
  /\ PubLogDatabase.is_table_indexed
       (PubLogDatabase.index_csv_file fs table_name file_path true st).2
       table_name = false.
Proof.
  intros Hexists Hread.
  assert (PubLogDatabase.index_csv_file fs table_name file_path true st
          = (false, delete (Py.upper table_name) st)) as Hcall.
  { unfold PubLogDatabase.index_csv_file.
    by rewrite Hexists, Hread, andb_false_r. }
  split; [done |]. rewrite Hcall. cbn [snd].
  rewrite is_table_indexed_lookup, lookup_delete_eq.
  by rewrite bool_decide_false by (by intros [? ?]).
Qed.

Lemma index_csv_file_force_unreadable_witness :
  PubLogDatabase.is_table_indexed Cases.loaded "P_CAGE" = true
  /\ PubLogDatabase.is_table_indexed
       (PubLogDatabase.index_csv_file Sample.unreadable "P_CAGE" "P_CAGE.CSV"
          true Cases.loaded).2 "P_CAGE" = false.
Proof.
  split; [reflexivity |].
  eapply (index_csv_file_force_unreadable Sample.unreadable "P_CAGE"
            "P_CAGE.CSV" Cases.loaded); reflexivity.
Defined.

(** X6.  Loading and describing compose: after a load that reads the source
    as [rel] into a table that is forced or was not indexed,
    [get_table_info] reports the name asked for, the number of tuples of
    [rel] and the columns of [rel] in file order. *)
Theorem get_table_info_after_load
    (other : string -> list value -> outcome cursor)
    (fs : files) (table_name file_path : string)
    (force : bool) (st : store) (rel : relation) :
  path_exists fs file_path = true ->
  read_csv_auto fs file_path = Ok rel ->
  force = true \/ PubLogDatabase.is_table_indexed st table_name = false ->
  PubLogDatabase.get_table_info other
    (PubLogDatabase.index_csv_file fs table_name file_path force st).2
    table_name
  = PDict [("table_name", PStr table_name);
           ("row_count", PInt (Z.of_nat (length (tuples rel))));
           ("columns",
            PList (map (fun c => PDict [("name", PStr (column_name c));
                                        ("type", PStr (column_type c))])
                       (columns rel)))].
Proof.
  intros Hexists Hread Hfresh.
  assert ((PubLogDatabase.index_csv_file fs table_name file_path force st).2
            !! Py.upper table_name = Some rel) as Hloaded.
  { unfold PubLogDatabase.index_csv_file. rewrite Hexists, Hread. cbn [negb].
    destruct force.
    - rewrite andb_false_r.
      unfold PubLogDatabase.create_table_as,
        PubLogDatabase.drop_table_if_exists, PubLogDatabase.count_rows.
      rewrite lookup_delete_eq, lookup_insert_eq. cbn.
      by rewrite lookup_insert_eq.
    - destruct Hfresh as [? | Hnot]; [done |]. rewrite Hnot. cbn [andb].
      rewrite is_table_indexed_lookup in Hnot.
      apply bool_decide_eq_false in Hnot.
      unfold PubLogDatabase.create_table_as, PubLogDatabase.count_rows.
      destruct (st !! Py.upper table_name) eqn:Hlookup;
        [by destruct Hnot; eauto |].
      rewrite lookup_insert_eq. cbn. by rewrite lookup_insert_eq. }
  unfold PubLogDatabase.get_table_info, PubLogDatabase.describe_text,
    PubLogDatabase.count_text, PubLogDatabase.names_table,
    PubLogDatabase.describe, PubLogDatabase.count_rows.
  rewrite Hloaded, bool_decide_true by eauto. cbn [orb].
  rewrite describe_columns. reflexivity.
Qed.

Lemma get_table_info_after_load_witness :
  PubLogDatabase.get_table_info Sample.no_answers
    (PubLogDatabase.index_csv_file Sample.readable "p_cage" "P_CAGE.CSV" true
       Cases.loaded).2 "p_cage"
  = PDict [("table_name", PStr "p_cage");
           ("row_count", PInt 2);
           ("columns",
            PList [PDict [("name", PStr "CAGE_CODE"); ("type", PStr "VARCHAR")];
                   PDict [("name", PStr "COMPANY"); ("type", PStr "VARCHAR")]])].
Proof.
  apply (get_table_info_after_load Sample.no_answers Sample.readable "p_cage"
           "P_CAGE.CSV" true
           Cases.loaded Sample.contractors);
    [reflexivity | reflexivity | left; reflexivity].
Defined.

(** ** The tiers and the catalog *)

(** X7.  A tier sweep attempts the tables of its tier and no other, each
    once and in the order of the tier, whatever the loads return: a failed
    table does not stop the ones after it.  The results dictionary is the
    record of the attempts.  This holds for [index_priority_tables] and for
    [index_large_tables]. *)
Theorem tier_sweeps_attempt_their_tier {S : Type}
    (load : string -> string -> bool -> S -> bool * S)
    (DATA_DIR : string) (force : bool) (st : S) :
  let priority :=
    PubLogDatabase.index_priority_tables (recording load) DATA_DIR force
      (st, []) in
  let large :=
    PubLogDatabase.index_large_tables (recording load) DATA_DIR force
      (st, []) in
  priority.2.2.*1 = Config.PRIORITY_TABLES
  /\ priority.1 = priority.2.2
  /\ erased (PubLogDatabase.index_priority_tables load DATA_DIR force st)
            priority
  /\ large.2.2.*1 = Config.LARGE_TABLES
  /\ large.1 = large.2.2
  /\ erased (PubLogDatabase.index_large_tables load DATA_DIR force st) large.
Proof.
  intros priority large.
  split; [vm_compute; reflexivity |].
  split; [vm_compute; reflexivity |].
  split; [apply index_tier_recording |].
  split; [vm_compute; reflexivity |].
  split; [vm_compute; reflexivity |].
  apply index_tier_recording.
Qed.

(** X8.  The catalog keeps the invariants the sweeps rely on, wherever the
    data directory is: flattening the categories loses no entry (a logical
    name occurs in one category only), the two tiers have no name in common
    and no name twice, and every tier name is a catalog name, so no tier
    entry is skipped. *)
Theorem catalog_invariants (DATA_DIR : string) :
  let names := Py.dict_keys (PubLogDatabase.get_all_data_files DATA_DIR) in
  names = concat ((fun category => Py.dict_keys category.2)
                    <$> Config.DATA_FILES DATA_DIR)
  /\ NoDup names
  /\ NoDup (Config.PRIORITY_TABLES ++ Config.LARGE_TABLES)
  /\ Config.PRIORITY_TABLES ++ Config.LARGE_TABLES ⊆ names.
Proof.
  intros names.
  assert (names = Py.dict_keys (PubLogDatabase.get_all_data_files ""))
    as -> by (vm_compute; reflexivity).
  split; [vm_compute; reflexivity |].
  split; [refine (bool_decide_unpack _ _); vm_compute; exact I |].
  split; [refine (bool_decide_unpack _ _); vm_compute; exact I |].
  refine (bool_decide_unpack _ _). vm_compute. exact I.
Qed.

(** ** Secondary indexes and database initialisation *)

(** A loop whose body never raises runs every iteration and returns. *)
Lemma run_for_each {A} (E : engine) (items : list A) (body : A -> prog unit) :
  (forall x, (run E (body x)).1 = Ok tt) ->
  run E (for_each items body)
  = (Ok tt, concat ((fun x => (run E (body x)).2) <$> items)).
Proof.
  intros Hbody. induction items as [| x items IH]; [reflexivity |].
  cbn [for_each]. rewrite run_bind, Hbody, IH. reflexivity.
Qed.

Lemma run_index_attempt (E : engine) (sql : string) :
  run E (try_except (execute_statement sql) (fun _ => Ret tt))
  = (Ok tt, [CallExecute sql []]).
Proof. cbn. by destruct (execute E sql []). Qed.

Lemma run_create_indexes (E : engine) (table_name : string)
    (columns : list string) :
  run E (Indexes.create_indexes table_name columns)
  = (Ok tt,
     (fun col => CallExecute (Indexes.index_statement table_name col) [])
       <$> columns).
Proof.
  unfold Indexes.create_indexes. rewrite run_for_each.
  - f_equal. induction columns as [| col columns IH]; [reflexivity |].
    cbn [fmap list_fmap concat]. rewrite run_index_attempt.
    cbn [snd app]. f_equal. apply IH.
  - intros col. by rewrite run_index_attempt.
Qed.

(** X9.  [create_indexes] never raises and attempts every column: whatever
    the engine answers to each statement, it sends one [CREATE INDEX IF NOT
    EXISTS] per column, in column order, with nothing bound, so a column
    that cannot be indexed does not keep the later ones from their index. *)
Theorem create_indexes_attempts_every_column (E : engine)
    (table_name : string) (columns : list string) :
  result E (Indexes.create_indexes table_name columns) = Ok tt
  /\ calls E (Indexes.create_indexes table_name columns)
     = (fun col => CallExecute (Indexes.index_statement table_name col) [])
         <$> columns.
Proof. unfold result, calls. by rewrite run_create_indexes. Qed.

(** The statement for the contractor code column: the index name is in
    lower case, table and column are as given. *)
Example index_statement_cage_code :
  Indexes.index_statement "P_CAGE" "CAGE_CODE"
  = "CREATE INDEX IF NOT EXISTS idx_p_cage_cage_code ON P_CAGE(CAGE_CODE)".
Proof. reflexivity. Qed.

Lemma run_create_search_indexes (E : engine) :
  run E DataLoader._create_search_indexes
  = (Ok tt,
     concat ((fun definition : string * list string =>
                CallIsTableIndexed definition.1
                :: (if table_indexed E definition.1
                    then (fun col =>
                            CallExecute
                              (Indexes.index_statement definition.1 col) [])
                           <$> definition.2
                    else []))
               <$> DataLoader.index_definitions)).
Proof.
  unfold DataLoader._create_search_indexes.
  assert (forall definition : string * list string,
            run E (IsTableIndexed definition.1 (fun indexed =>
                     if indexed
                     then Indexes.create_indexes definition.1 definition.2
                     else Ret tt))
            = (Ok tt,
               CallIsTableIndexed definition.1
               :: (if table_indexed E definition.1
                   then (fun col =>
                           CallExecute
                             (Indexes.index_statement definition.1 col) [])
                          <$> definition.2
                   else []))) as Hbody.
  { intros [table columns]. cbn [run fst snd].
    destruct (table_indexed E table); [| reflexivity].
    by rewrite run_create_indexes. }
  rewrite run_for_each.
  - f_equal. f_equal. apply list_fmap_ext. intros _ definition _.
    by rewrite Hbody.
  - intros definition. by rewrite Hbody.
Qed.

(** X10.  [_create_search_indexes] never raises, asks about each of its
    seven tables once and in order, and sends index statements for the
    tables that are indexed only: after the question about a table the
    engine reports as not indexed nothing is sent, after one about an indexed
    table a statement per search column, with nothing bound. *)
Theorem create_search_indexes_only_indexed (E : engine) :
  result E DataLoader._create_search_indexes = Ok tt
  /\ calls E DataLoader._create_search_indexes
     = concat ((fun definition : string * list string =>
                  CallIsTableIndexed definition.1
                  :: (if table_indexed E definition.1
                      then (fun col =>
                              CallExecute
                                (Indexes.index_statement definition.1 col) [])
                             <$> definition.2
                      else []))
                 <$> DataLoader.index_definitions)
  /\ statements (calls E DataLoader._create_search_indexes)
     = concat ((fun definition : string * list string =>
                  if table_indexed E definition.1
                  then Indexes.index_statement definition.1 <$> definition.2
                  else [])
                 <$> DataLoader.index_definitions).
Proof.
  unfold result, calls. rewrite run_create_search_indexes.
  split; [reflexivity |]. split; [reflexivity |]. cbn [snd].
  generalize DataLoader.index_definitions. intros definitions.
  induction definitions as [| [table columns] definitions IH]; [reflexivity |].
  cbn [fmap list_fmap concat fst snd]. unfold statements in *.
  rewrite omap_app, IH. f_equal. cbn [omap list_omap].
  destruct (table_indexed E table); [| reflexivity].
  induction columns as [| col columns IHc]; [reflexivity |].
  cbn. by rewrite IHc.
Qed.

Lemma success_count_bounds (results : Py.dict bool) :
  0 <= DataLoader.success_count results <= Z.of_nat (length results).
Proof.
  induction results as [| [name flag] results IH]; [cbn; lia |].
  change (DataLoader.success_count ((name, flag) :: results))
    with (if flag then 1 + DataLoader.success_count results
          else DataLoader.success_count results).
  cbn [length]. rewrite Nat2Z.inj_succ. destruct flag; lia.
Qed.

Lemma success_count_all (results : Py.dict bool) :
  DataLoader.success_count results = Z.of_nat (length results)
  <-> Forall (fun kv : string * bool => kv.2 = true) results.
Proof.
  induction results as [| [name flag] results IH].
  - split; [constructor | done].
  - pose proof (success_count_bounds results) as Hbounds.
    change (DataLoader.success_count ((name, flag) :: results))
      with (if flag then 1 + DataLoader.success_count results
            else DataLoader.success_count results).
    cbn [length]. rewrite Nat2Z.inj_succ.
    destruct flag; split.
    + intros Hcount. constructor; [done |]. apply IH. lia.
    + intros Hall. apply Forall_cons in Hall as [_ Hall].
      apply IH in Hall. lia.
    + lia.
    + intros Hall. by apply Forall_cons in Hall as [? _].
Qed.

Lemma success_count_true (results : Py.dict bool) :
  DataLoader.success_count results
  = Z.of_nat (length (List.filter snd results)).
Proof.
  induction results as [| [name flag] results IH]; [reflexivity |].
  change (DataLoader.success_count ((name, flag) :: results))
    with (if flag then 1 + DataLoader.success_count results
          else DataLoader.success_count results).
  cbn [List.filter snd]. destruct flag; [| exact IH].
  cbn [length]. rewrite Nat2Z.inj_succ. lia.
Qed.

(** The number of tables a sweep reports on, for any loader. *)
Lemma sweep_sizes {S : Type} (load : string -> string -> bool -> S -> bool * S)
    (DATA_DIR : string) (force : bool) (st : S) :
  length (PubLogDatabase.index_priority_tables load DATA_DIR force st).1
  = 27%nat
  /\ length (PubLogDatabase.index_all_tables load DATA_DIR force st).1
     = 44%nat.
Proof. split; vm_compute; reflexivity. Qed.

(** X11.  [initialize_database] never raises and its summary is consistent
    with the sweep it ran: [details] is the sweep's dictionary, over the 27
    priority tables or over all 44 catalog tables; [total] is the number of
    entries, [indexed] the number of entries that are true, between 0 and
    [total]; and [success] is true exactly when every entry is true.  The
    store it leaves is the sweep's. *)
Theorem initialize_database_summary (fs : files) (DATA_DIR : string)
    (other : string -> list value -> outcome cursor)
    (force priority_only : bool) (st : store) :
  let swept :=
    if priority_only
    then PubLogDatabase.index_priority_tables
           (PubLogDatabase.index_csv_file fs) DATA_DIR force st
    else PubLogDatabase.index_all_tables
           (PubLogDatabase.index_csv_file fs) DATA_DIR force st in
  let done :=
    DataLoader.initialize_database fs DATA_DIR other force priority_only st in
  exists rep,
    done.1.1 = Ok rep
    /\ done.1.2 = swept.2
    /\ DataLoader.details rep = swept.1
    /\ DataLoader.total rep = Z.of_nat (length (DataLoader.details rep))
    /\ DataLoader.total rep = (if priority_only then 27 else 44)
    /\ DataLoader.indexed rep
       = Z.of_nat (length (List.filter snd (DataLoader.details rep)))
    /\ 0 <= DataLoader.indexed rep <= DataLoader.total rep
    /\ (DataLoader.success rep = true
        <-> Forall (fun kv : string * bool => kv.2 = true)
                   (DataLoader.details rep)).
Proof.
  intros swept done.
  assert (Z.of_nat (length swept.1) = if priority_only then 27 else 44)
    as Htotal.
  { destruct (sweep_sizes (PubLogDatabase.index_csv_file fs) DATA_DIR force st)
      as [Hpriority Hall].
    unfold swept. destruct priority_only.
    - by rewrite Hpriority.
    - by rewrite Hall. }
  unfold done, DataLoader.initialize_database. fold swept.
  revert Htotal. generalize swept. clear swept done.
  intros swept Htotal. cbn [fst snd].
  rewrite (surjective_pairing (run _ DataLoader._create_search_indexes)).
  rewrite run_create_search_indexes. cbn [fst snd].
  exists (DataLoader.summary swept.1).
  cbn [DataLoader.summary DataLoader.total DataLoader.indexed
       DataLoader.success DataLoader.details].
  split; [reflexivity |]. split; [reflexivity |]. split; [reflexivity |].
  split; [reflexivity |]. split; [exact Htotal |].
  split; [apply success_count_true |].
  split; [apply success_count_bounds |].
  rewrite Z.eqb_eq. apply success_count_all.
Qed.

(** ** What a sweep leaves in the store *)

(** A sweep is the loads of its tables one after the other. *)
Lemma index_all_tables_load_each {S : Type}
    (load : string -> string -> bool -> S -> bool * S)
    (DATA_DIR : string) (force : bool) (st : S) :
  PubLogDatabase.index_all_tables load DATA_DIR force st
  = load_each load force (sweep_order DATA_DIR) st.
Proof. vm_compute. reflexivity. Qed.

Lemma index_priority_tables_load_each {S : Type}
    (load : string -> string -> bool -> S -> bool * S)
    (DATA_DIR : string) (force : bool) (st : S) :
  PubLogDatabase.index_priority_tables load DATA_DIR force st
  = load_each load force (priority_order DATA_DIR) st.
Proof. vm_compute. reflexivity. Qed.

Lemma sweep_order_names (DATA_DIR : string) :
  NoDup (Py.upper <$> (sweep_order DATA_DIR).*1)
  /\ NoDup (Py.upper <$> (priority_order DATA_DIR).*1).
Proof.
  assert ((sweep_order DATA_DIR).*1 = (sweep_order "").*1) as ->
    by (vm_compute; reflexivity).
  assert ((priority_order DATA_DIR).*1 = (priority_order "").*1) as ->
    by (vm_compute; reflexivity).
  split; refine (bool_decide_unpack _ _); vm_compute; exact I.
Qed.

Lemma sweep_order_paths (DATA_DIR : string) (name path : string) :
  (name, path) ∈ sweep_order DATA_DIR \/ (name, path) ∈ priority_order DATA_DIR ->
  Py.dict_get name (PubLogDatabase.get_all_data_files DATA_DIR) = Some path.
Proof.
  assert (Forall (fun entry : string * string =>
                    Py.dict_get entry.1
                      (PubLogDatabase.get_all_data_files DATA_DIR)
                    = Some entry.2)
                 (sweep_order DATA_DIR ++ priority_order DATA_DIR)) as Hall.
  { vm_compute. repeat constructor. }
  rewrite Forall_forall in Hall. intros Hin.
  apply (Hall (name, path)). rewrite elem_of_app. tauto.
Qed.

Section loads.

Variable fs : files.

(** Loads of tables of other names leave a table as it is. *)
Lemma load_each_other_table (force : bool) (tables : list (string * string))
    (st : store) (name : string) :
  Py.upper name ∉ Py.upper <$> tables.*1 ->
  (load_each (PubLogDatabase.index_csv_file fs) force tables st).2
    !! Py.upper name
  = st !! Py.upper name.
Proof.
  revert st. induction tables as [| [table path] tables IH]; intros st Hother;
    [done |].
  cbn [load_each snd]. cbn in Hother. apply not_elem_of_cons in Hother as [? ?].
  rewrite IH by done.
  unfold PubLogDatabase.index_csv_file.
  destruct (negb (path_exists fs path)); [done |].
  destruct (PubLogDatabase.is_table_indexed st table && negb force); [done |].
  assert ((if force then PubLogDatabase.drop_table_if_exists table st else st)
            !! Py.upper name = st !! Py.upper name) as Hdropped.
  { destruct force; [| done]. unfold PubLogDatabase.drop_table_if_exists.
    by rewrite lookup_delete_ne. }
  destruct (read_csv_auto fs path) as [rel |]; [| done].
  unfold PubLogDatabase.create_table_as.
  destruct (_ !! Py.upper table); [done |].
  unfold PubLogDatabase.count_rows. rewrite lookup_insert_eq. cbn.
  by rewrite lookup_insert_ne.
Qed.

(** The flag of one load tells whether the table is there afterwards, when
    the load succeeded or the source exists. *)
Lemma index_csv_file_presence (table path : string) (force : bool)
    (st : store) :
  (PubLogDatabase.index_csv_file fs table path force st).1 = true
  \/ path_exists fs path = true ->
  PubLogDatabase.is_table_indexed
    (PubLogDatabase.index_csv_file fs table path force st).2 table
  = (PubLogDatabase.index_csv_file fs table path force st).1.
Proof.
  unfold PubLogDatabase.index_csv_file.
  destruct (path_exists fs path); cbn [negb fst snd];
    [intros _ | by intros [? | ?]].
  destruct (PubLogDatabase.is_table_indexed st table) eqn:Hindexed,
    force; cbn [andb negb fst snd]; [| done | |].
  - unfold PubLogDatabase.create_table_as, PubLogDatabase.drop_table_if_exists,
      PubLogDatabase.count_rows.
    rewrite lookup_delete_eq.
    destruct (read_csv_auto fs path) as [rel |]; cbn.
    + rewrite lookup_insert_eq. cbn.
      rewrite is_table_indexed_lookup, lookup_insert_eq.
      by rewrite bool_decide_true by eauto.
    + rewrite is_table_indexed_lookup, lookup_delete_eq.
      by rewrite bool_decide_false by (by intros [? ?]).
  - unfold PubLogDatabase.create_table_as, PubLogDatabase.drop_table_if_exists,
      PubLogDatabase.count_rows.
    rewrite lookup_delete_eq.
    destruct (read_csv_auto fs path) as [rel |]; cbn.
    + rewrite lookup_insert_eq. cbn.
      rewrite is_table_indexed_lookup, lookup_insert_eq.
      by rewrite bool_decide_true by eauto.
    + rewrite is_table_indexed_lookup, lookup_delete_eq.
      by rewrite bool_decide_false by (by intros [? ?]).
  - pose proof Hindexed as Habsent.
    rewrite is_table_indexed_lookup in Habsent.
    apply bool_decide_eq_false in Habsent.
    unfold PubLogDatabase.create_table_as, PubLogDatabase.count_rows.
    destruct (st !! Py.upper table) eqn:Hlookup;
      [by destruct Habsent; eauto |].
    destruct (read_csv_auto fs path) as [rel |]; cbn.
    + rewrite lookup_insert_eq. cbn.
      rewrite is_table_indexed_lookup, lookup_insert_eq.
      by rewrite bool_decide_true by eauto.
    + done.
Qed.

Lemma load_each_presence (force : bool) (tables : list (string * string))
    (st : store) (name path : string) (flag : bool) :
  NoDup (Py.upper <$> tables.*1) ->
  (name, path) ∈ tables ->
  Py.dict_get name
    (load_each (PubLogDatabase.index_csv_file fs) force tables st).1
  = Some flag ->
  flag = true \/ path_exists fs path = true ->
  PubLogDatabase.is_table_indexed
    (load_each (PubLogDatabase.index_csv_file fs) force tables st).2 name
  = flag.
Proof.
  revert st. induction tables as [| [table path'] tables IH];
    intros st Hnodup Hin Hflag Hcase; [by apply elem_of_nil in Hin |].
  cbn in Hnodup. apply NoDup_cons in Hnodup as [Hfresh Hnodup].
  cbn [load_each fst snd] in *. cbn [Py.dict_get] in Hflag.
  destruct (String.eqb_spec table name) as [-> | Hne].
  - injection Hflag as Hflag.
    assert (path' = path) as ->.
    { apply elem_of_cons in Hin as [Hhere | Hlater]; [congruence |].
      destruct Hfresh. apply list_elem_of_fmap. exists name. split; [done |].
      apply list_elem_of_fmap. by exists (name, path). }
    rewrite is_table_indexed_lookup, load_each_other_table by done.
    rewrite <- is_table_indexed_lookup, index_csv_file_presence; [done |].
    rewrite Hflag. destruct Hcase; [by left | by right].
  - apply IH; try done.
    apply elem_of_cons in Hin as [Hhere | Hlater]; [congruence | done].
Qed.

Lemma load_each_reported (force : bool) (tables : list (string * string))
    (st : store) (name : string) (flag : bool) :
  Py.dict_get name
    (load_each (PubLogDatabase.index_csv_file fs) force tables st).1
  = Some flag ->
  exists path, (name, path) ∈ tables.
Proof.
  revert st. induction tables as [| [table path'] tables IH]; intros st Hflag;
    [discriminate |].
  cbn [load_each fst snd Py.dict_get] in Hflag.
  destruct (String.eqb_spec table name) as [-> | Hne].
  - exists path'. apply list_elem_of_here.
  - destruct (IH _ Hflag) as [path Hin]. exists path.
    by apply list_elem_of_further.
Qed.

End loads.

(** X12.  The load report is true of the store: after a sweep (of the
    priority tier or of everything), a table reported [True] is indexed, and
    a table reported [False] whose source exists is not. *)
Theorem sweep_report_matches_store (fs : files) (DATA_DIR : string)
    (force priority_only : bool) (st : store)
    (name path : string) (flag : bool) :
  let swept :=
    if priority_only
    then PubLogDatabase.index_priority_tables
           (PubLogDatabase.index_csv_file fs) DATA_DIR force st
    else PubLogDatabase.index_all_tables
           (PubLogDatabase.index_csv_file fs) DATA_DIR force st in
  Py.dict_get name swept.1 = Some flag ->
  Py.dict_get name (PubLogDatabase.get_all_data_files DATA_DIR) = Some path ->
  flag = true \/ path_exists fs path = true ->
  PubLogDatabase.is_table_indexed swept.2 name = flag.
Proof.
  intros swept Hflag Hpath Hcase.
  assert (exists tables,
            swept = load_each (PubLogDatabase.index_csv_file fs) force tables st
            /\ NoDup (Py.upper <$> tables.*1)
            /\ forall n p, (n, p) ∈ tables ->
                 Py.dict_get n (PubLogDatabase.get_all_data_files DATA_DIR)
                 = Some p) as (tables & Hswept & Hnodup & Hpaths).
  { destruct (sweep_order_names DATA_DIR) as [Hall Hpriority].
    unfold swept. destruct priority_only.
    - exists (priority_order DATA_DIR).
      split; [apply index_priority_tables_load_each |]. split; [done |].
      intros n p Hin. apply sweep_order_paths. by right.
    - exists (sweep_order DATA_DIR).
      split; [apply index_all_tables_load_each |]. split; [done |].
      intros n p Hin. apply sweep_order_paths. by left. }
  clearbody swept. subst swept.
  destruct (load_each_reported fs force tables st name flag Hflag)
    as [path' Hin].
  assert (path' = path) as -> by (apply Hpaths in Hin; congruence).
  by apply (load_each_presence fs force tables st name path flag).
Qed.

Lemma sweep_report_matches_store_witness :
  PubLogDatabase.is_table_indexed
    (PubLogDatabase.index_priority_tables
       (PubLogDatabase.index_csv_file Sample.readable) "Data" false ∅).2
    "P_CAGE" = true.
Proof.
  apply (sweep_report_matches_store Sample.readable "Data" false true ∅
           "P_CAGE" "Data/CAGE/P_CAGE.CSV" true).
  - vm_compute. reflexivity.
  - vm_compute. reflexivity.
  - by left.
Defined.

(** ** Stock-number services without their relations *)

(** X13.  With none of the stock-number relations indexed, every operation
    of [NSNService] answers with its empty value and sends no statement to
    the store: it asks whether the relation is indexed and stops.  Nothing
    raises. *)
Theorem nsn_services_without_relations (E : engine) :
  table_indexed E "P_FLIS_NSN" = false -> table_indexed E "FLISV" = false ->
  table_indexed E "V_FLIS_MANAGEMENT" = false ->
  table_indexed E "V_CHARACTERISTICS" = false ->
  (forall niin,
     run E (NSNService.get_by_niin niin)
     = (Ok None, [CallIsTableIndexed "P_FLIS_NSN"; CallIsTableIndexed "FLISV"]))
  /\ (forall q fsc limit offset,
        run E (NSNService.search q fsc limit offset)
        = (Ok [], [CallIsTableIndexed "P_FLIS_NSN"]))
  /\ (forall fsc limit offset,
        run E (NSNService.get_by_fsc fsc limit offset)
        = (Ok [], [CallIsTableIndexed "P_FLIS_NSN"]))
  /\ (forall niin,
        run E (NSNService.get_management_data niin)
        = (Ok [], [CallIsTableIndexed "V_FLIS_MANAGEMENT"]))
  /\ (forall niin,
        run E (NSNService.get_characteristics niin)
        = (Ok [], [CallIsTableIndexed "V_CHARACTERISTICS"])).
Proof.
  intros Hprimary Hflisv Hmanagement Hcharacteristics.
  repeat split; intros; cbn;
    rewrite ?Hprimary, ?Hflisv, ?Hmanagement, ?Hcharacteristics; cbn;
    rewrite ?Hflisv; reflexivity.
Qed.

Lemma nsn_services_without_relations_witness :
  run Sample.offline (NSNService.search "RADIO" (Some "5820") 10 0)
  = (Ok [], [CallIsTableIndexed "P_FLIS_NSN"]).
Proof.
  apply (nsn_services_without_relations Sample.offline); reflexivity.
Defined.

(** X14.  [get_by_niin] keeps to the primary relation when it can: with
    [P_FLIS_NSN] indexed, a row found there is the result and [FLISV] is not
    even asked about; and a primary lookup that raises is not covered up by
    the fallback, the exception reaches the caller. *)
Theorem get_by_niin_primary_first (E : engine) (niin : string) :
  table_indexed E "P_FLIS_NSN" = true ->
  (forall c t rest,
     execute E "SELECT * FROM P_FLIS_NSN WHERE NIIN = ? LIMIT 1" [VText niin]
     = Ok c ->
     fetchall c = t :: rest ->
     run E (NSNService.get_by_niin niin)
     = (Ok (Some (Py.dict_of_zip (description c) t)),
        [CallIsTableIndexed "P_FLIS_NSN";
         CallExecute "SELECT * FROM P_FLIS_NSN WHERE NIIN = ? LIMIT 1"
                     [VText niin]]))
  /\ (forall e,
        execute E "SELECT * FROM P_FLIS_NSN WHERE NIIN = ? LIMIT 1"
                [VText niin] = Raised e ->
        run E (NSNService.get_by_niin niin)
        = (Raised e,
           [CallIsTableIndexed "P_FLIS_NSN";
            CallExecute "SELECT * FROM P_FLIS_NSN WHERE NIIN = ? LIMIT 1"
                        [VText niin]])).
Proof.
  intros Hindexed. split.
  - intros c t rest Hanswer Hrows. cbn. rewrite Hindexed. cbn.
    rewrite Hanswer. cbn. rewrite Hrows. reflexivity.
  - intros e Hanswer. cbn. rewrite Hindexed. cbn. rewrite Hanswer.
    reflexivity.
Qed.

Lemma get_by_niin_primary_first_witness :
  run (Duck.engine Sample.stock_numbers Sample.no_answers)
      (NSNService.get_by_niin "012345678")
  = (Ok (Some [("FSC", VInt 5895); ("NIIN", VText "012345678");
               ("ITEM_NAME", VText "ANTENNA")]),
     [CallIsTableIndexed "P_FLIS_NSN";
      CallExecute "SELECT * FROM P_FLIS_NSN WHERE NIIN = ? LIMIT 1"
                  [VText "012345678"]]).
Proof.
  refine (proj1 (get_by_niin_primary_first
                   (Duck.engine Sample.stock_numbers Sample.no_answers)
                   "012345678" _)
                (Cursor ["FSC"; "NIIN"; "ITEM_NAME"]
                        [[VInt 5895; VText "012345678"; VText "ANTENNA"]])
                [VInt 5895; VText "012345678"; VText "ANTENNA"] [] _ _);
    reflexivity.
Defined.

(** ** Errors *)

Lemma propagates_raises {A} (caught : exn -> bool) (E : engine) (p : prog A)
    (sql : string) (params : list value) (e : exn) :
  propagates caught p ->
  caught e = false ->
  CallExecute sql params ∈ calls E p ->
  execute E sql params = Raised e ->
  result E p = Raised e.
Proof.
  unfold calls, result. intros Hp Hfree.
  induction Hp as [a | e' | sql' params' k Hraise _ IHcaught _ IH | t k _ IH];
    cbn; intros Hin Hanswer.
  - by apply elem_of_nil in Hin.
  - by apply elem_of_nil in Hin.
  - destruct (execute E sql' params') as [c | e'] eqn:Hhead.
    + apply elem_of_cons in Hin as [Hhere | Hlater]; [| by apply IH].
      injection Hhere as -> ->. congruence.
    + destruct (caught e') eqn:Hcaught.
      * apply elem_of_cons in Hin as [Hhere | Hlater];
          [| by apply IHcaught].
        injection Hhere as -> ->. congruence.
      * rewrite Hraise in * by done. cbn in *.
        apply elem_of_cons in Hin as [Hhere | Hlater];
          [| by apply elem_of_nil in Hlater].
        injection Hhere as -> ->. congruence.
  - apply elem_of_cons in Hin as [Hhere | Hlater]; [discriminate |].
    by apply IH.
Qed.

Lemma operations_propagate (op : operation) :
  propagates (handles op) (program op).
Proof.
  destruct op; unfold program.
  - unfold CAGEService.get_by_code. repeat propagates_step.
  - unfold CAGEService.search. repeat propagates_step.
  - unfold CAGEService.search_by_location.
    destruct (CAGEService.location_filters state city country) as [cs ps].
    repeat propagates_step.
  - unfold CAGEService.get_stats. repeat propagates_step.
  - unfold FSCService.get_all_fsg. repeat propagates_step.
  - unfold FSCService.get_all_fsc. repeat propagates_step.
  - unfold FSCService.get_fsc_by_code, try_except_ValueError, int_of_str.
    repeat propagates_step.
  - unfold FSCService.get_fsc_by_fsg, try_except_ValueError, int_of_str.
    repeat propagates_step.
  - unfold FSCService.search_fsc, try_except_ValueError, int_of_str.
    repeat propagates_step.
  - unfold NSNService.get_by_niin. repeat propagates_step.
  - unfold NSNService.search.
    destruct (NSNService.search_filters q fsc) as [cs ps].
    repeat propagates_step.
  - unfold NSNService.get_by_fsc, try_except_ValueError, int_of_str.
    repeat propagates_step.
  - unfold NSNService.get_management_data. repeat propagates_step.
  - unfold NSNService.get_characteristics. repeat propagates_step.
  - unfold ItemNameService.get_by_inc. repeat propagates_step.
  - unfold ItemNameService.search. repeat propagates_step.
  - unfold ItemNameService.get_all. repeat propagates_step.
  - unfold UnifiedSearchService.search_all, CAGEService.search,
      FSCService.search_fsc, NSNService.search, ItemNameService.search,
      try_except_ValueError, int_of_str.
    destruct (NSNService.search_filters q None) as [cs ps].
    repeat propagates_step.
Qed.

(** X15.  A failed statement is never taken for an empty result, but for the
    exceptions an operation has a handler for: in every lookup, listing and
    search of the domain services, an exception that the engine raises for a
    statement of the call is the outcome of the call, unless the operation
    is [get_stats] or [search_all], which catch everything, or the exception
    is a [ValueError] and the operation one of the four that run their
    statement inside [try ... except ValueError]. *)
Theorem engine_errors_reach_the_caller (E : engine) (op : operation)
    (sql : string) (params : list value) (e : exn) :
  handles op e = false ->
  CallExecute sql params ∈ calls E (program op) ->
  execute E sql params = Raised e ->
  result E (program op) = Raised e.
Proof.
  intros Hfree.
  by apply (propagates_raises (handles op) E (program op) sql params e
              (operations_propagate op)).
Qed.

Lemma engine_errors_reach_the_caller_witness :
  result Sample.offline (program (FscGetByCode "5820"))
  = Raised (QueryError "Parser Error: statement not understood").
Proof.
  apply (engine_errors_reach_the_caller Sample.offline (FscGetByCode "5820")
           "SELECT * FROM V_H2_FSC WHERE FSC = ? LIMIT 1" [VInt 5820]).
  - reflexivity.
  - vm_compute. apply list_elem_of_here.
  - reflexivity.
Defined.

(** A statement under [try ... except ValueError] that raises an exception
    of that class: the handler runs after it. *)
Lemma run_handled_statement {A} (E : engine) (code : string) (n : Z)
    (sql : Z -> string * list value) (h : prog (list A)) (e : exn)
    (k : outcome cursor -> prog (list A)) :
  Py.int code = Some n ->
  is_ValueError e = true ->
  execute E (sql n).1 (sql n).2 = Raised e ->
  k (Raised e) = Raise e ->
  run E (try_except_ValueError
           (let/p number := int_of_str code in
            Execute (sql number).1 (sql number).2 k) h)
  = ((run E h).1, CallExecute (sql n).1 (sql n).2 :: (run E h).2).
Proof.
  intros Hcode Hclass Hanswer Hraise.
  unfold try_except_ValueError, int_of_str. rewrite Hcode.
  cbn [bind try_except run]. rewrite Hanswer, Hraise.
  cbn [try_except]. rewrite Hclass. reflexivity.
Qed.

(** X27.  A [ValueError] that the engine raises for the numeric statement
    is handled like a code that is not a number, the statement being inside
    the [try]: [get_fsc_by_fsg] returns the empty list, and
    [get_fsc_by_code], [search_fsc] and [get_by_fsc] go on with their text
    statement, whose outcome is theirs. *)
Theorem numeric_statement_ValueError_is_handled (E : engine) (code : string)
    (n : Z) (e : exn) :
  Py.int code = Some n -> is_ValueError e = true ->
  (execute E "
                SELECT * FROM V_H2_FSC
                WHERE FSC >= ? AND FSC < ?
                ORDER BY FSC
            " [VInt (n * 100); VInt ((n + 1) * 100)] = Raised e ->
   run E (FSCService.get_fsc_by_fsg code)
   = (Ok [],
      [CallExecute "
                SELECT * FROM V_H2_FSC
                WHERE FSC >= ? AND FSC < ?
                ORDER BY FSC
            " [VInt (n * 100); VInt ((n + 1) * 100)]]))
  /\ (execute E "SELECT * FROM V_H2_FSC WHERE FSC = ? LIMIT 1" [VInt n]
      = Raised e ->
      run E (FSCService.get_fsc_by_code code)
      = (map_outcome
           (fun c => head (map (Py.dict_of_zip (description c)) (fetchall c)))
           (execute E
              "SELECT * FROM V_H2_FSC WHERE CAST(FSC AS VARCHAR) = ? LIMIT 1"
              [VText code]),
         [CallExecute "SELECT * FROM V_H2_FSC WHERE FSC = ? LIMIT 1" [VInt n];
          CallExecute
            "SELECT * FROM V_H2_FSC WHERE CAST(FSC AS VARCHAR) = ? LIMIT 1"
            [VText code]]))
  /\ (execute E "
                SELECT * FROM V_H2_FSC
                WHERE FSC = ? OR UPPER(FSC_TITLE) LIKE ?
                ORDER BY FSC
                LIMIT 100
            " [VInt n; VText ("%" +:+ Py.upper code +:+ "%")] = Raised e ->
      calls E (FSCService.search_fsc code)
      = [CallExecute "
                SELECT * FROM V_H2_FSC
                WHERE FSC = ? OR UPPER(FSC_TITLE) LIKE ?
                ORDER BY FSC
                LIMIT 100
            " [VInt n; VText ("%" +:+ Py.upper code +:+ "%")];
         CallExecute "
                SELECT * FROM V_H2_FSC
                WHERE UPPER(FSC_TITLE) LIKE ?
                ORDER BY FSC
                LIMIT 100
            " [VText ("%" +:+ Py.upper code +:+ "%")]])
  /\ (forall limit offset,
        table_indexed E "P_FLIS_NSN" = true ->
        execute E "
                    SELECT * FROM P_FLIS_NSN
                    WHERE FSC = ?
                    LIMIT ? OFFSET ?
                " [VInt n; VInt limit; VInt offset] = Raised e ->
        calls E (NSNService.get_by_fsc code limit offset)
        = [CallIsTableIndexed "P_FLIS_NSN";
           CallExecute "
                    SELECT * FROM P_FLIS_NSN
                    WHERE FSC = ?
                    LIMIT ? OFFSET ?
                " [VInt n; VInt limit; VInt offset];
           CallExecute "
                    SELECT * FROM P_FLIS_NSN
                    WHERE CAST(FSC AS VARCHAR) = ?
                    LIMIT ? OFFSET ?
                " [VText code; VInt limit; VInt offset]]).
Proof.
  intros Hcode Hclass. repeat split.
  - intros Hanswer. unfold FSCService.get_fsc_by_fsg, query.
    cbn [Py.truthy_list].
    by rewrite (run_handled_statement E code n
                  (fun n => (_, [VInt (n * 100); VInt ((n + 1) * 100)]))
                  _ e _ Hcode Hclass Hanswer).
  - intros Hanswer. unfold FSCService.get_fsc_by_code, query.
    cbn [Py.truthy_list]. rewrite run_bind.
    rewrite (run_handled_statement E code n (fun n => (_, [VInt n]))
               _ e _ Hcode Hclass Hanswer) by reflexivity.
    cbn [run fst snd]. by destruct (execute E _ [VText code]).
  - intros Hanswer. unfold calls, FSCService.search_fsc, query.
    cbn [Py.truthy_list].
    rewrite (run_handled_statement E code n
               (fun n => (_, [VInt n; VText ("%" +:+ Py.upper code +:+ "%")]))
               _ e _ Hcode Hclass Hanswer) by reflexivity.
    cbn [run fst snd]. by destruct (execute E _ [VText _]).
  - intros limit offset Hindexed Hanswer.
    unfold calls, NSNService.get_by_fsc, query. cbn [Py.truthy_list run].
    rewrite Hindexed.
    rewrite (run_handled_statement E code n
               (fun n => (_, [VInt n; VInt limit; VInt offset]))
               _ e _ Hcode Hclass Hanswer) by reflexivity.
    cbn [run fst snd]. by destruct (execute E _ [VText code; _; _]).
Qed.

Lemma numeric_statement_ValueError_is_handled_witness :
  run Cases.refusing (FSCService.get_fsc_by_fsg "58")
  = (Ok [],
     [CallExecute "
                SELECT * FROM V_H2_FSC
                WHERE FSC >= ? AND FSC < ?
                ORDER BY FSC
            " [VInt 5800; VInt 5900]]).
Proof.
  apply (numeric_statement_ValueError_is_handled Cases.refusing "58" 58
           (PyError "ValueError")); reflexivity.
Defined.

(** X16.  [get_stats] never raises, whatever the engine does: its result is
    a value, and when the count statement fails it is the empty dictionary
    ([None] here) after that one statement, the two groupings not being
    tried. *)
Theorem get_stats_never_raises (E : engine) :
  (exists stats, result E CAGEService.get_stats = Ok stats)
  /\ (forall e,
        execute E "SELECT COUNT(*) as count FROM P_CAGE" [] = Raised e ->
        run E CAGEService.get_stats
        = (Ok None, [CallExecute "SELECT COUNT(*) as count FROM P_CAGE" []])).
Proof.
  split.
  - unfold CAGEService.get_stats. rewrite result_try_except.
    destruct (result E _) as [stats | e]; [by exists stats |].
    by exists None.
  - intros e Hanswer. cbn. rewrite Hanswer. reflexivity.
Qed.

(** ** The aggregator *)

Lemma calls_category {A} (E : engine) (p : prog (list A))
    (cut : list A -> list A) (key : string) (results : Py.dict (list A)) :
  calls E (try_except
             (let/p found := p in Ret (Py.dict_set key (cut found) results))
             (fun _ => Ret results))
  = calls E p.
Proof.
  unfold calls. rewrite run_try_except, run_bind.
  destruct (run E p).1; cbn; by rewrite app_nil_r.
Qed.

Lemma calls_bind_total {A B} (E : engine) (p : prog A) (f : A -> prog B)
    (a : A) :
  result E p = Ok a ->
  calls E (bind p f) = calls E p ++ calls E (f a).
Proof.
  unfold result, calls. intros Hp. rewrite run_bind, Hp. reflexivity.
Qed.

(** X17.  [search_all] runs all four searches, each to its end and in the
    order contractor, classification, stock number, item name: the calls it
    makes are those of the four services one after the other, whether or not
    an earlier search raised. *)
Theorem search_all_runs_every_search (E : engine) (q : string) (limit : Z) :
  calls E (UnifiedSearchService.search_all q limit)
  = calls E (CAGEService.search q limit 0)
    ++ calls E (FSCService.search_fsc q)
    ++ calls E (NSNService.search q None limit 0)
    ++ calls E (ItemNameService.search q limit).
Proof.
  unfold UnifiedSearchService.search_all.
  erewrite calls_bind_total by apply (result_category E _ id).
  rewrite (calls_category E _ id). f_equal.
  erewrite calls_bind_total by apply (result_category E _ (Py.slice_to limit)).
  rewrite (calls_category E _ (Py.slice_to limit)). f_equal.
  erewrite calls_bind_total by apply (result_category E _ id).
  rewrite (calls_category E _ id). f_equal.
  erewrite calls_bind_total by apply (result_category E _ id).
  rewrite (calls_category E _ id). cbn. by rewrite app_nil_r.
Qed.

Lemma length_slice_to {A} (limit : Z) (l : list A) :
  0 <= limit -> (Z.of_nat (length (Py.slice_to limit l)) <= limit)%Z.
Proof.
  intros Hlimit. unfold Py.slice_to.
  destruct (Z.leb_spec 0 limit); [| lia].
  rewrite length_take. lia.
Qed.

(** X18.  The classification category is capped: for a limit that is not
    negative, [search_all] returns at most [limit] classification rows,
    however many the classification search found. *)
Theorem search_all_caps_classification (E : engine) (q : string) (limit : Z)
    (results : Py.dict (list row)) (found : list row) :
  0 <= limit ->
  result E (UnifiedSearchService.search_all q limit) = Ok results ->
  Py.dict_get "fsc" results = Some found ->
  Z.of_nat (length found) <= limit.
Proof.
  intros Hlimit. rewrite search_all_result. intros [= <-]. cbn.
  intros [= <-].
  destruct (result E (FSCService.search_fsc q)) as [rows |]; cbn; [| lia].
  by apply length_slice_to.
Qed.

Lemma search_all_caps_classification_witness :
  Z.of_nat (length [Py.dict_of_zip ["FSC"; "FSC_TITLE"] Sample.radio]) <= 1.
Proof.
  apply (search_all_caps_classification Sample.only_classes "RAD" 1
           [("cage", []);
            ("fsc", [Py.dict_of_zip ["FSC"; "FSC_TITLE"] Sample.radio]);
            ("nsn", []); ("item_names", [])]).
  - lia.
  - vm_compute. reflexivity.
  - reflexivity.
Defined.

(** ** Placeholders and parameters *)

Lemma placeholders_app (a b : string) :
  placeholders (a +:+ b) = (placeholders a + placeholders b)%nat.
Proof.
  induction a as [| c a IH]; [reflexivity |].
  change (String c a +:+ b) with (String c (a +:+ b)).
  cbn [placeholders]. rewrite IH. by destruct (Ascii.eqb c "?").
Qed.

Lemma placeholders_digits_go (x : N) (s : string) :
  placeholders (pretty_N_go x s) = placeholders s.
Proof.
  revert s. induction (N.lt_wf_0 x) as [x _ IH]; intros s.
  assert (x = 0 \/ 0 < x)%N as [-> | Hpos] by lia; [done |].
  rewrite pretty_N_go_step by done. rewrite IH by (by apply N.div_lt).
  unfold pretty_N_char. by repeat case_match.
Qed.

Lemma placeholders_str_of_int (n : Z) : placeholders (Py.str_of_int n) = 0%nat.
Proof.
  unfold Py.str_of_int, pretty, pretty_Z, pretty, pretty_positive, pretty,
    pretty_N.
  destruct n as [| p | p]; [done | |].
  - case_decide; [done |]. apply placeholders_digits_go.
  - change (placeholders (String "-" (if decide (N.pos p = 0%N) then "0"
                                      else pretty_N_go (N.pos p) "")) = 0%nat).
    cbn [placeholders]. change (Ascii.eqb "-" "?") with false. cbn iota.
    case_decide; [done |]. apply placeholders_digits_go.
Qed.

Lemma placeholders_location (state city country : option string) :
  placeholders (Py.join " AND "
                  (CAGEService.location_filters state city country).1)
  = length (CAGEService.location_filters state city country).2.
Proof.
  unfold CAGEService.location_filters.
  destruct (Py.when_truthy state), (Py.when_truthy city),
    (Py.when_truthy country); reflexivity.
Qed.

Lemma placeholders_search (q : string) (fsc : option string) :
  placeholders
    (if Py.truthy_list (NSNService.search_filters q fsc).1
     then Py.join " AND " (NSNService.search_filters q fsc).1 else "1=1")
  = length (NSNService.search_filters q fsc).2.
Proof.
  unfold NSNService.search_filters.
  destruct (Py.truthy_str q), (Py.when_truthy fsc) as [f |];
    try destruct (Py.int f); reflexivity.
Qed.

Lemma length_bound (params : list value) :
  length (if Py.truthy_list params then params else []) = length params.
Proof. by destruct params. Qed.

Lemma operations_bind_all (op : operation) : binds_all (program op).
Proof.
  destruct op; unfold program.
  - unfold CAGEService.get_by_code. repeat binds_all_step.
  - unfold CAGEService.search. repeat binds_all_step.
  - unfold CAGEService.search_by_location.
    pose proof (placeholders_location state city country) as Hcount.
    destruct (CAGEService.location_filters state city country) as [cs ps].
    cbn [fst snd] in Hcount.
    destruct (negb (Py.truthy_list cs)); repeat binds_all_step.
    rewrite !placeholders_app, Hcount, length_bound, length_app. cbn. lia.
  - unfold CAGEService.get_stats. repeat binds_all_step.
  - unfold FSCService.get_all_fsg. repeat binds_all_step.
  - unfold FSCService.get_all_fsc. repeat binds_all_step.
  - unfold FSCService.get_fsc_by_code, try_except_ValueError, int_of_str.
    destruct (Py.int fsc); repeat binds_all_step.
  - unfold FSCService.get_fsc_by_fsg, try_except_ValueError, int_of_str.
    destruct (Py.int fsg); repeat binds_all_step.
  - unfold FSCService.search_fsc, try_except_ValueError, int_of_str.
    destruct (Py.int q); repeat binds_all_step.
  - unfold NSNService.get_by_niin. repeat binds_all_step.
  - unfold NSNService.search.
    pose proof (placeholders_search q fsc) as Hcount.
    destruct (NSNService.search_filters q fsc) as [cs ps].
    cbn [fst snd] in Hcount. repeat binds_all_step.
    rewrite !placeholders_app, Hcount, length_bound, length_app. cbn. lia.
  - unfold NSNService.get_by_fsc, try_except_ValueError, int_of_str.
    repeat binds_all_step; destruct (Py.int fsc); repeat binds_all_step.
  - unfold NSNService.get_management_data. repeat binds_all_step.
  - unfold NSNService.get_characteristics. repeat binds_all_step.
  - unfold ItemNameService.get_by_inc. repeat binds_all_step.
  - unfold ItemNameService.search. repeat binds_all_step.
  - unfold ItemNameService.get_all. repeat binds_all_step.
    rewrite !placeholders_app, placeholders_str_of_int. reflexivity.
  - unfold UnifiedSearchService.search_all, CAGEService.search,
      FSCService.search_fsc, NSNService.search, ItemNameService.search,
      try_except_ValueError, int_of_str.
    pose proof (placeholders_search q None) as Hcount.
    destruct (NSNService.search_filters q None) as [cs ps].
    cbn [fst snd] in Hcount.
    destruct (Py.int q); repeat binds_all_step;
      rewrite !placeholders_app, Hcount, length_bound, length_app; cbn; lia.
Qed.

Lemma binds_all_calls {A} (E : engine) (p : prog A) (sql : string)
    (params : list value) :
  binds_all p -> CallExecute sql params ∈ calls E p ->
  placeholders sql = length params.
Proof.
  unfold calls.
  induction 1 as [a | e | sql' params' k Hcount _ IH | t k _ IH]; cbn;
    intros Hin.
  - by apply elem_of_nil in Hin.
  - by apply elem_of_nil in Hin.
  - apply elem_of_cons in Hin as [Hhere | Hlater]; [| by eapply IH].
    by injection Hhere as -> ->.
  - apply elem_of_cons in Hin as [Hhere | Hlater]; [discriminate |].
    by eapply IH.
Qed.

(** X19.  Statements and parameters always agree: whatever the arguments
    and whatever the engine answers, every statement a domain-service
    operation sends has exactly as many [?] placeholders as parameters bound
    to it.  This covers the statements whose [WHERE] clause is put together
    from the filters that are present. *)
Theorem placeholders_match_parameters (E : engine) (op : operation)
    (sql : string) (params : list value) :
  CallExecute sql params ∈ calls E (program op) ->
  placeholders sql = length params.
Proof. apply binds_all_calls, operations_bind_all. Qed.

Lemma placeholders_match_parameters_witness :
  placeholders "
            SELECT * FROM P_CAGE
            WHERE UPPER(STATE_PROVINCE) = ? AND UPPER(COUNTRY) LIKE ?
            ORDER BY COMPANY
            LIMIT ?
        " = length [VText "CA"; VText "%UNITED%"; VInt 20].
Proof.
  apply (placeholders_match_parameters Sample.offline
           (CageSearchByLocation (Some "ca") None (Some "United") 20)).
  vm_compute. apply list_elem_of_here.
Defined.

(** ** Case of search terms *)

Lemma upper_char_plain (c : ascii) :
  Py.is_c_space (Py.upper_char c) = Py.is_c_space c
  /\ Py.digit_of (Py.upper_char c) = Py.digit_of c
  /\ Ascii.eqb (Py.upper_char c) "_" = Ascii.eqb c "_"
  /\ Ascii.eqb (Py.upper_char c) "-" = Ascii.eqb c "-"
  /\ Ascii.eqb (Py.upper_char c) "+" = Ascii.eqb c "+".
Proof. destruct c as [[] [] [] [] [] [] [] []]; repeat split. Qed.

Lemma list_ascii_of_upper (s : string) :
  list_ascii_of_string (Py.upper s)
  = map Py.upper_char (list_ascii_of_string s).
Proof. induction s as [| c s IH]; [reflexivity |]. cbn. by rewrite IH. Qed.

Lemma drop_spaces_upper (l : list ascii) :
  Py.drop_spaces Py.is_c_space (map Py.upper_char l)
  = map Py.upper_char (Py.drop_spaces Py.is_c_space l).
Proof.
  induction l as [| c l IH]; [reflexivity |]. cbn [map Py.drop_spaces].
  destruct (upper_char_plain c) as (-> & _). by destruct (Py.is_c_space c).
Qed.

Lemma strip_upper (l : list ascii) :
  Py.strip Py.is_c_space (map Py.upper_char l)
  = map Py.upper_char (Py.strip Py.is_c_space l).
Proof.
  unfold Py.strip.
  by rewrite drop_spaces_upper, <- map_rev, drop_spaces_upper, <- map_rev.
Qed.

Lemma digits_upper (acc : Z) (after_digit : bool) (l : list ascii) :
  Py.digits acc after_digit (map Py.upper_char l)
  = Py.digits acc after_digit l.
Proof.
  revert acc after_digit. induction l as [| c l IH]; intros acc after_digit;
    [reflexivity |].
  cbn. destruct (upper_char_plain c) as (_ & -> & -> & _).
  destruct (Py.digit_of c); [apply IH |].
  destruct (Ascii.eqb c "_" && after_digit); [apply IH | reflexivity].
Qed.

(** [int()] reads a text and its upper-case form alike. *)
Lemma int_upper (s : string) : Py.int (Py.upper s) = Py.int s.
Proof.
  unfold Py.int. rewrite list_ascii_of_upper, strip_upper.
  destruct (Py.strip Py.is_c_space (list_ascii_of_string s)) as [| c l];
    [reflexivity |].
  cbn [map]. destruct (upper_char_plain c) as (_ & _ & _ & -> & ->).
  destruct (Ascii.eqb c "-"); [by rewrite digits_upper |].
  destruct (Ascii.eqb c "+"); [by rewrite digits_upper |].
  change (Py.upper_char c :: map Py.upper_char l)
    with (map Py.upper_char (c :: l)).
  by rewrite digits_upper.
Qed.

Lemma truthy_str_upper (s : string) :
  Py.truthy_str (Py.upper s) = Py.truthy_str s.
Proof. by destruct s. Qed.

(** X20.  Searches do not see the case of the search term: two terms that
    are equal once upper-cased make the same program, with the same
    statements and the same bound parameters, in every search of the
    services and in [search_all].  This includes the choice between the
    numeric and the text form of the classification search, and the test for
    an empty term. *)
Theorem searches_ignore_case (q q' : string) :
  Py.upper q = Py.upper q' ->
  (forall limit offset,
     CAGEService.search q limit offset = CAGEService.search q' limit offset)
  /\ FSCService.search_fsc q = FSCService.search_fsc q'
  /\ (forall fsc limit offset,
        NSNService.search q fsc limit offset
        = NSNService.search q' fsc limit offset)
  /\ (forall limit, ItemNameService.search q limit
                    = ItemNameService.search q' limit)
  /\ (forall limit, UnifiedSearchService.search_all q limit
                    = UnifiedSearchService.search_all q' limit).
Proof.
  intros Hupper.
  assert (Py.int q = Py.int q') as Hint
    by (by rewrite <- (int_upper q), <- (int_upper q'), Hupper).
  assert (Py.truthy_str q = Py.truthy_str q') as Htruthy
    by (by rewrite <- (truthy_str_upper q), <- (truthy_str_upper q'), Hupper).
  assert (forall limit offset,
            CAGEService.search q limit offset
            = CAGEService.search q' limit offset) as Hcage
    by (intros; unfold CAGEService.search; by rewrite Hupper).
  assert (FSCService.search_fsc q = FSCService.search_fsc q') as Hfsc
    by (unfold FSCService.search_fsc, int_of_str; by rewrite Hupper, Hint).
  assert (forall fsc limit offset,
            NSNService.search q fsc limit offset
            = NSNService.search q' fsc limit offset) as Hnsn
    by (intros; unfold NSNService.search, NSNService.search_filters;
        by rewrite Hupper, Htruthy).
  assert (forall limit, ItemNameService.search q limit
                        = ItemNameService.search q' limit) as Hinc
    by (intros; unfold ItemNameService.search; by rewrite Hupper).
  repeat split; try done.
  intros limit. unfold UnifiedSearchService.search_all.
  by rewrite Hcage, Hfsc, Hnsn, Hinc.
Qed.

Lemma searches_ignore_case_witness :
  UnifiedSearchService.search_all "Radio set" 10
  = UnifiedSearchService.search_all "RADIO SET" 10.
Proof. apply (searches_ignore_case "Radio set" "RADIO SET"). reflexivity. Defined.

(** ** Rows *)

Lemma dict_set_fresh {V} (k : string) (v : V) (d : Py.dict V) :
  k ∉ d.*1 -> Py.dict_set k v d = d ++ [(k, v)].
Proof.
  induction d as [| [k' v'] d IH]; [reflexivity |]. cbn.
  intros Hfresh. apply not_elem_of_cons in Hfresh as [Hne Hfresh].
  destruct (String.eqb_spec k' k) as [-> | _]; [done |].
  by rewrite IH.
Qed.

Lemma dict_update_fresh {V} (d other : Py.dict V) :
  NoDup (d.*1 ++ other.*1) -> Py.dict_update d other = d ++ other.
Proof.
  unfold Py.dict_update. revert d.
  induction other as [| [k v] other IH]; intros d Hnodup;
    [by rewrite app_nil_r |].
  cbn [foldl fst snd]. rewrite dict_set_fresh.
  - rewrite IH; [by rewrite <- app_assoc |].
    rewrite fmap_app. cbn. rewrite <- app_assoc. exact Hnodup.
  - cbn in Hnodup. apply NoDup_app in Hnodup as (_ & Hdisjoint & _).
    intros Hin. apply (Hdisjoint k Hin). apply list_elem_of_here.
Qed.

Lemma NoDup_zip_keys {V} (keys : list string) (values : list V) :
  NoDup keys -> NoDup (zip keys values).*1.
Proof.
  intros Hnodup. revert values.
  induction Hnodup as [| k keys Hfresh _ IH]; intros [| v values]; cbn;
    try constructor; [| apply IH].
  intros Hin. apply Hfresh.
  apply list_elem_of_fmap in Hin as [[k' v'] [-> Hin]].
  by apply elem_of_zip_l in Hin.
Qed.

Lemma dict_of_zip_distinct {V} (keys : list string) (values : list V) :
  NoDup keys -> Py.dict_of_zip keys values = zip keys values.
Proof.
  intros Hnodup. unfold Py.dict_of_zip.
  rewrite dict_update_fresh; [done |]. by apply NoDup_zip_keys.
Qed.

Lemma dict_get_zip {V} (keys : list string) (values : list V) (i : nat)
    (key : string) :
  NoDup keys -> keys !! i = Some key -> (i < length values)%nat ->
  Py.dict_get key (zip keys values) = values !! i.
Proof.
  intros Hnodup. revert values i.
  induction Hnodup as [| k keys Hfresh _ IH]; intros values i Hkey Hi;
    [done |].
  destruct values as [| v values]; [cbn in Hi; lia |].
  destruct i as [| i]; cbn in *.
  - injection Hkey as ->. by rewrite String.eqb_refl.
  - destruct (String.eqb_spec k key) as [-> | _].
    + destruct Hfresh. by eapply list_elem_of_lookup_2.
    + apply IH; [done | lia].
Qed.

(** X21.  Rows keep the result columns: when the statement's column names
    are distinct, [query] returns each tuple as the list of its columns in
    declared order, paired with the values, and the value at a column's
    position can be read back under the column's name. *)
Theorem query_rows_keep_columns (E : engine) (sql : string)
    (params : option (list value)) (c : cursor) :
  execute E sql (default [] params) = Ok c ->
  NoDup (description c) ->
  result E (query sql params) = Ok (zip (description c) <$> fetchall c)
  /\ forall (t : list value) (i : nat) (name : string),
       description c !! i = Some name -> (i < length t)%nat ->
       Py.dict_get name (zip (description c) t) = t !! i.
Proof.
  intros Hanswer Hnodup. split.
  - unfold result, query. cbn.
    replace (match params with
             | Some ps => if Py.truthy_list ps then ps else []
             | None => []
             end) with (default [] params)
      by (by destruct params as [[| ? ?] |]).
    rewrite Hanswer. cbn. f_equal. apply list_fmap_ext.
    intros _ t _. by apply dict_of_zip_distinct.
  - intros t i name Hname Hi. by apply dict_get_zip.
Qed.

Lemma query_rows_keep_columns_witness :
  result (Duck.engine Sample.only_flisv Sample.no_answers)
         (query "SELECT * FROM FLISV WHERE NIIN = ? LIMIT 1"
                (Some [VText "012345678"]))
  = Ok [[("NIIN", VText "012345678"); ("PMIC", VText "U")]].
Proof.
  refine (proj1 (query_rows_keep_columns
                   (Duck.engine Sample.only_flisv Sample.no_answers)
                   "SELECT * FROM FLISV WHERE NIIN = ? LIMIT 1"
                   (Some [VText "012345678"])
                   (Cursor ["NIIN"; "PMIC"] [[VText "012345678"; VText "U"]])
                   _ _)).
  - reflexivity.
  - refine (bool_decide_unpack _ _). vm_compute. exact I.
Defined.

(** Column names that repeat collapse: the later value is kept, at the
    position of the first. *)
Example dict_of_zip_repeated_column :
  Py.dict_of_zip ["NIIN"; "FSC"; "NIIN"] [VText "a"; VInt 5820; VText "b"]
  = [("NIIN", VText "b"); ("FSC", VInt 5820)].
Proof. reflexivity. Qed.


(** ** Routes *)

Lemma upper_app (a b : string) :
  Py.upper (a +:+ b) = Py.upper a +:+ Py.upper b.
Proof.
  induction a as [| c a IH]; [done |].
  change (String c a +:+ b) with (String c (a +:+ b)).
  cbn [Py.upper]. by rewrite IH.
Qed.

Lemma prefix_app (needle a b : string) :
  String.prefix needle a = true -> String.prefix needle (a +:+ b) = true.
Proof.
  revert needle. induction a as [| c a IH]; intros needle.
  - destruct needle; [by destruct b | discriminate].
  - change (String c a +:+ b) with (String c (a +:+ b)).
    destruct needle as [| c' needle]; [done |].
    cbn. destruct (Ascii.ascii_dec c' c); [apply IH | discriminate].
Qed.

Lemma contains_app_l (needle a b : string) :
  Api.contains needle a = true -> Api.contains needle (a +:+ b) = true.
Proof.
  induction a as [| c a IH]; cbn [Api.contains]; intros H.
  - rewrite orb_false_r in H. destruct needle; [| discriminate H].
    by destruct b.
  - apply orb_true_iff in H as [H | H].
    + change (String c a +:+ b) with (String c (a +:+ b)) in *.
      cbn [Api.contains].
      change (String c (a +:+ b)) with (String c a +:+ b).
      by rewrite (prefix_app _ _ _ H).
    + change (String c a +:+ b) with (String c (a +:+ b)).
      cbn [Api.contains]. rewrite (IH H). apply orb_true_r.
Qed.

Lemma contains_app_r (needle a b : string) :
  Api.contains needle b = true -> Api.contains needle (a +:+ b) = true.
Proof.
  intros H. induction a as [| c a IH]; [done |].
  change (String c a +:+ b) with (String c (a +:+ b)).
  cbn [Api.contains]. rewrite IH. apply orb_true_r.
Qed.

Lemma string_of_list_ascii_app (l k : list ascii) :
  string_of_list_ascii (l ++ k)
  = string_of_list_ascii l +:+ string_of_list_ascii k.
Proof. induction l as [| c l IH]; cbn; [done | by rewrite IH]. Qed.

Lemma drop_spaces_suffix (space : ascii -> bool) (l : list ascii) :
  exists before, l = before ++ Py.drop_spaces space l.
Proof.
  induction l as [| c l [before IH]]; [by exists [] |].
  cbn. destruct (space c).
  - exists (c :: before). cbn. by rewrite <- IH.
  - by exists [].
Qed.

(** [strip] keeps a stretch of the text it is given. *)
Lemma strip_stretch (s : string) :
  exists before after, s = before +:+ Api.strip s +:+ after.
Proof.
  unfold Api.strip, Py.strip.
  destruct (drop_spaces_suffix Py.is_space (list_ascii_of_string s))
    as [before Hb].
  destruct (drop_spaces_suffix Py.is_space
              (rev (Py.drop_spaces Py.is_space (list_ascii_of_string s))))
    as [after Ha].
  exists (string_of_list_ascii before), (string_of_list_ascii (rev after)).
  rewrite <- !string_of_list_ascii_app.
  rewrite <- rev_app_distr, <- Ha, rev_involutive, <- Hb.
  by rewrite string_of_list_ascii_of_string.
Qed.

Lemma contains_upper_strip (needle s : string) :
  Api.contains needle (Py.upper (Api.strip s)) = true ->
  Api.contains needle (Py.upper s) = true.
Proof.
  intros H. destruct (strip_stretch s) as (before & after & Hs).
  rewrite Hs at 1. rewrite !upper_app.
  by apply contains_app_r, contains_app_l.
Qed.

Lemma find_forbidden (screened : string) :
  match List.find (fun word => Api.contains word screened) Api.forbidden with
  | Some word => word ∈ Api.forbidden /\ Api.contains word screened = true
  | None => forall word, word ∈ Api.forbidden ->
                         Api.contains word screened = false
  end.
Proof.
  destruct (List.find _ _) as [word |] eqn:Hfind.
  - apply find_some in Hfind as [Hin Hword]. by apply list_elem_of_In in Hin.
  - intros word Hin. apply list_elem_of_In in Hin.
    apply (find_none _ _ Hfind word Hin).
Qed.

(** X22.  The location route answers a request without a usable filter
    (each of state, city and country absent or empty) with status 400 and
    asks the store nothing; with a filter it sends exactly one statement,
    whose parameters are the filters' followed by the limit, and does not
    answer 400. *)
Theorem location_route_needs_a_filter (E : engine)
    (state city country : option string) (limit : Z) :
  let route := Api.search_cage_by_location state city country limit in
  if Api.any_filter state city country then
    (exists sql,
       calls E route
       = [CallExecute sql
            ((CAGEService.location_filters state city country).2
             ++ [VInt limit])])
    /\ (forall status detail,
          result E route <> Ok (Api.HTTPException status detail))
  else
    run E route
    = (Ok (Api.HTTPException 400 "At least one location parameter required"),
       []).
Proof.
  unfold Api.search_cage_by_location, Api.any_filter,
    CAGEService.search_by_location, CAGEService.location_filters, calls, result.
  destruct state as [[| ? ?] |], city as [[| ? ?] |], country as [[| ? ?] |];
    cbn; try reflexivity;
    (split; [eexists; destruct (execute E _ _); reflexivity |
             intros status detail; destruct (execute E _ _); discriminate]).
Qed.

(** X23.  For a logical name of the catalog, in any letter case, the
    table-information route answers 404, naming the table as it was asked
    for, exactly when the store has no relation under the name; otherwise it
    answers with the name as asked, the number of rows and the columns. *)
Theorem table_info_route_404_iff_absent
    (other : string -> list value -> outcome cursor) (st : store)
    (table_name : string) :
  PubLogDatabase.catalog_name table_name = true ->
  Api.get_table_info other st table_name =
  match st !! Py.upper table_name with
  | None => Api.HTTPException 404 ("Table " +:+ table_name +:+ " not found")
  | Some rel =>
      Api.Json
        (PDict [("table_name", PStr table_name);
                ("row_count", PInt (Z.of_nat (length (tuples rel))));
                ("columns",
                 PList (map (fun c => PDict [("name", PStr (column_name c));
                                             ("type", PStr (column_type c))])
                            (columns rel)))])
  end.
Proof.
  intros Hcatalog.
  unfold Api.get_table_info, PubLogDatabase.get_table_info,
    PubLogDatabase.describe_text, PubLogDatabase.count_text,
    PubLogDatabase.names_table, PubLogDatabase.describe,
    PubLogDatabase.count_rows.
  rewrite Hcatalog, orb_true_r.
  destruct (st !! Py.upper table_name) as [rel |]; [| reflexivity].
  rewrite describe_columns. reflexivity.
Qed.

Lemma table_info_route_404_iff_absent_witness :
  Api.get_table_info Sample.no_answers Cases.loaded "v_h2_fsc"
  = Api.HTTPException 404 "Table v_h2_fsc not found".
Proof.
  apply (table_info_route_404_iff_absent Sample.no_answers Cases.loaded
           "v_h2_fsc").
  reflexivity.
Defined.

Lemma run_found_or_404 (E : engine) (lookup : prog (option row))
    (detail : string) :
  run E (Api.found_or_404 lookup detail)
  = (match result E lookup with
     | Raised e => Raised e
     | Ok (Some (entry :: entries)) =>
         Ok (Api.Json (Api.pyobj_of_row (entry :: entries)))
     | Ok _ => Ok (Api.HTTPException 404 detail)
     end,
     calls E lookup).
Proof.
  unfold Api.found_or_404, result, calls. rewrite run_bind.
  destruct (run E lookup).1 as [[[| entry entries] |] | e]; cbn;
    by rewrite ?app_nil_r.
Qed.

(** X24.  Each of the four lookup routes (contractor, class, stock number,
    item name) asks the store exactly what its service asks, answers 404
    with the code as it was given when the service found nothing, answers
    with the record when it found one, and lets an error of the store
    through unchanged. *)
Theorem lookup_routes_follow_their_service (E : engine) (code : string) :
  Forall (fun '(route, service, what) =>
            run E route
            = (match result E service with
               | Raised e => Raised e
               | Ok (Some (entry :: entries)) =>
                   Ok (Api.Json (Api.pyobj_of_row (entry :: entries)))
               | Ok _ =>
                   Ok (Api.HTTPException 404 (what +:+ code +:+ " not found"))
               end,
               calls E service))
         [(Api.get_cage_by_code code, CAGEService.get_by_code code,
           "CAGE code ");
          (Api.get_fsc_by_code code, FSCService.get_fsc_by_code code, "FSC ");
          (Api.get_nsn_by_niin code, NSNService.get_by_niin code, "NIIN ");
          (Api.get_inc_by_code code, ItemNameService.get_by_inc code, "INC ")].
Proof. repeat constructor; apply run_found_or_404. Qed.

(** X25.  The unified search route never answers 500 and never raises,
    whatever the store does: it answers with the four categories as
    [search_all] returns them (each the rows its service found, the
    classification rows cut to the limit, or nothing when the service
    raised), and [total_results] is the number of rows in the four
    together.  It asks the store what [search_all] asks. *)
Theorem unified_search_never_fails (str : exn -> string) (E : engine)
    (q : string) (limit : Z) :
  let cage := or_empty (result E (CAGEService.search q limit 0)) in
  let fsc := or_empty (map_outcome (Py.slice_to limit)
                         (result E (FSCService.search_fsc q))) in
  let nsn := or_empty (result E (NSNService.search q None limit 0)) in
  let item_names := or_empty (result E (ItemNameService.search q limit)) in
  result E (UnifiedSearchService.search_all q limit)
  = Ok [("cage", cage); ("fsc", fsc); ("nsn", nsn);
        ("item_names", item_names)]
  /\ run E (Api.unified_search str q limit)
     = (Ok (Api.Json
              (PDict [("query", PStr q);
                      ("results",
                       PDict [("cage", Api.pyobj_of_rows cage);
                              ("fsc", Api.pyobj_of_rows fsc);
                              ("nsn", Api.pyobj_of_rows nsn);
                              ("item_names", Api.pyobj_of_rows item_names)]);
                      ("total_results",
                       PInt (Z.of_nat (length cage + length fsc + length nsn
                                       + length item_names)))])),
        calls E (UnifiedSearchService.search_all q limit)).
Proof.
  intros cage fsc nsn item_names.
  pose proof (search_all_result E q limit) as Hall.
  split; [exact Hall |].
  unfold result in Hall. fold cage fsc nsn item_names in Hall.
  unfold Api.unified_search, calls. rewrite run_try_except, run_bind, Hall.
  cbn [fst snd run]. rewrite app_nil_r. cbn [fmap list_fmap fst snd].
  do 8 f_equal. unfold Api.total_results. cbn [foldr snd].
  subst cage fsc nsn item_names. unfold result. f_equal. lia.
Qed.

(** X26.  The raw query route on ASCII text.  Text that, stripped and
    upper-cased, does not start with SELECT is answered 400; so is text
    that contains one of the seven forbidden words anywhere, be it inside a
    longer word, with the first such word named; in both cases nothing is
    sent.  Any other text is sent as one statement with nothing bound: the
    caller's text as it is if it contains LIMIT in some letter case,
    otherwise the text without its final semicolons and with the limit
    appended, so that what is sent always contains LIMIT.  The route never
    raises: the rows are answered with their number, and an error of the
    store is answered with status 400 and the error's text. *)
Theorem execute_query_guard (str : exn -> string) (E : engine)
    (sql : string) (limit : Z) :
  Py.isascii sql = true ->
  let route := Api.execute_query str sql limit in
  let screened := Py.upper (Api.strip sql) in
  match Api.startswith "SELECT" screened,
        List.find (fun word => Api.contains word screened) Api.forbidden with
  | false, _ =>
      run E route
      = (Ok (Api.HTTPException 400 "Only SELECT queries are allowed"), [])
  | true, Some word =>
      word ∈ Api.forbidden /\ Api.contains word screened = true
      /\ run E route
         = (Ok (Api.HTTPException 400 (word +:+ " statements are not allowed")),
            [])
  | true, None =>
      let text :=
        if Api.contains "LIMIT" screened then sql
        else Api.rstrip_semicolons sql +:+ " LIMIT " +:+ Py.str_of_int limit in
      (forall word, word ∈ Api.forbidden -> Api.contains word screened = false)
      /\ Api.contains "LIMIT" (Py.upper text) = true
      /\ run E route
         = (match execute E text [] with
            | Ok c =>
                let rows := map (Py.dict_of_zip (description c)) (fetchall c) in
                Ok (Api.Json
                      (PDict [("data", Api.pyobj_of_rows rows);
                              ("count", PInt (Z.of_nat (length rows)))]))
            | Raised e => Ok (Api.HTTPException 400 (str e))
            end,
            [CallExecute text []])
  end.
Proof.
  intros _. cbv zeta. unfold Api.execute_query.
  generalize (find_forbidden (Py.upper (Api.strip sql))).
  destruct (Api.startswith "SELECT" _) eqn:Hselect; cbn [negb];
    [| intros _; reflexivity].
  destruct (List.find _ _) as [word |] eqn:Hfind.
  - intros [Hin Hword]. done.
  - intros Hnone. split; [exact Hnone |].
    rewrite run_try_except. unfold query.
    destruct (Api.contains "LIMIT" (Py.upper (Api.strip sql))) eqn:Hlimit;
      cbn [negb run bind fst snd].
    + split; [by apply contains_upper_strip |].
      by destruct (execute E _ _).
    + split; [rewrite upper_app; by apply contains_app_r |].
      by destruct (execute E _ _).
Qed.

Lemma execute_query_guard_witness :
  run Sample.offline (Api.execute_query Cases.message "select * from P_CAGE;" 5)
  = (Ok (Api.HTTPException 400 "Parser Error: statement not understood"),
     [CallExecute "select * from P_CAGE LIMIT 5" []]).
Proof.
  exact (proj2 (proj2 (execute_query_guard Cases.message Sample.offline
                         "select * from P_CAGE;" 5 eq_refl))).
Defined.
